(** * skimmerPrimaryMuon: selection, propagation bookkeeping and
      self-association of forward muon tracks

    Shallow embedding of
    [PWGEM/Dilepton/TableProducer/skimmerPrimaryMuon.cxx].

    C++ [float] and [double] values are IEEE 754 binary32 and binary64
    numbers, represented by [spec_float] and computed with the
    round-to-nearest-even operations of [SpecFloat].  Integer columns are
    [Z].  The task's output tables are lists of rows in emission order. *)

From Stdlib Require Import ZArith List Bool String Lia.
From Stdlib Require Import Floats.SpecFloat.
Import ListNotations.
Open Scope Z_scope.

(** ** IEEE 754 arithmetic at a given format *)

Module IEEE.
Section Format.
Variables prec emax : Z.

(** Conversion of an integer, rounded to the format. *)
Definition of_Z (n : Z) : spec_float := binary_normalize prec emax n 0 false.

(** Conversion of a floating-point value of another format. *)
Definition convert (x : spec_float) : spec_float :=
  match x with
  | S754_finite s m e => binary_round prec emax s m e
  | _ => x
  end.
End Format.

(** Conversion to an integer type: the fractional part is discarded.
    The conversion of an infinity or of a NaN is undefined in C++; it is
    given the value 0 here. *)
Definition trunc (x : spec_float) : Z :=
  match x with
  | S754_finite s m e =>
      cond_Zopp s (match e with
                   | Zneg p => Z.shiftr (Zpos m) (Zpos p)
                   | _ => Z.shiftl (Zpos m) e
                   end)
  | _ => 0
  end.

Definition is_nan (x : spec_float) : bool :=
  match x with S754_nan => true | _ => false end.
End IEEE.

(** binary32: the C++ type [float]. *)
Module F32.
Definition prec := 24.
Definition emax := 128.
Definition add := SFadd prec emax.
Definition sub := SFsub prec emax.
Definition mul := SFmul prec emax.
Definition div := SFdiv prec emax.
Definition sqrt := SFsqrt prec emax.
Definition fabs := SFabs.
Definition neg := SFopp.
Definition ltb := SFltb.
Definition leb := SFleb.
Definition of_int := IEEE.of_Z prec emax.
Definition of_double := IEEE.convert prec emax.
End F32.

(** binary64: the C++ type [double]. *)
Module F64.
Definition prec := 53.
Definition emax := 1024.
Definition sub := SFsub prec emax.
Definition mul := SFmul prec emax.
Definition div := SFdiv prec emax.
Definition of_int := IEEE.of_Z prec emax.
Definition of_float := IEEE.convert prec emax.
(** The decimal literal [n / 10^k]. *)
Definition dec (n : Z) (k : Z) : spec_float := div (of_int n) (of_int (10 ^ k)).
End F64.

Definition float := spec_float.
Definition double := spec_float.

Declare Scope f32_scope.
Delimit Scope f32_scope with f32.
Infix "+" := F32.add : f32_scope.
Infix "-" := F32.sub : f32_scope.
Infix "*" := F32.mul : f32_scope.
Infix "/" := F32.div : f32_scope.
Infix "<?" := F32.ltb : f32_scope.
Infix "<=?" := F32.leb : f32_scope.

(** ** Data model *)

(** [o2::aod::fwdtrack::ForwardTrackTypeEnum], an enumeration over
    [uint8_t] declared by the framework.  The enumerators are listed in
    the order of the bin labels that [addHistograms] gives to [hMuonType]
    and of [muon_types]. *)
Inductive ForwardTrackTypeEnum :=
  | GlobalMuonTrack
  | GlobalMuonTrackOtherMatch
  | GlobalForwardTrack
  | MuonStandaloneTrack
  | MCHStandaloneTrack.

Definition static_cast_uint8 (t : ForwardTrackTypeEnum) : Z :=
  match t with
  | GlobalMuonTrack => 0
  | GlobalMuonTrackOtherMatch => 1
  | GlobalForwardTrack => 2
  | MuonStandaloneTrack => 3
  | MCHStandaloneTrack => 4
  end.

(** The [Configurable]s of [skimmerPrimaryMuon]. *)
Record Configurables := {
  fillQAHistograms : bool;
  minPt : float;
  maxPt : float;
  minEtaSA : float;
  maxEtaSA : float;
  minEtaGL : float;
  maxEtaGL : float;
  minRabsGL : float;
  minRabs : float;
  midRabs : float;
  maxRabs : float;
  maxDCAxy : float;
  maxPDCAforLargeR : float;
  maxPDCAforSmallR : float;
  maxMatchingChi2MCHMFT : float;
  maxChi2SA : float;
  maxChi2GL : float;
  refitGlobalMuon : bool
}.

(** The default values of the configurables. *)
Definition defaultConfigurables : Configurables := {|
  fillQAHistograms := false;
  minPt := F32.of_double (F64.dec 2 1);
  maxPt := F32.of_double (F64.of_int (10 ^ 10));
  minEtaSA := F32.of_double (F64.of_int (-4));
  maxEtaSA := F32.of_double (F64.dec (-25) 1);
  minEtaGL := F32.of_double (F64.dec (-36) 1);
  maxEtaGL := F32.of_double (F64.dec (-25) 1);
  minRabsGL := F32.of_double (F64.dec 276 1);
  minRabs := F32.of_double (F64.dec 176 1);
  midRabs := F32.of_double (F64.dec 265 1);
  maxRabs := F32.of_double (F64.dec 895 1);
  maxDCAxy := F32.of_double (F64.of_int (10 ^ 10));
  maxPDCAforLargeR := F32.of_int 324;
  maxPDCAforSmallR := F32.of_int 594;
  maxMatchingChi2MCHMFT := F32.of_int 50;
  maxChi2SA := F32.of_double (F64.of_int (10 ^ 6));
  maxChi2GL := F32.of_double (F64.of_int (10 ^ 6));
  refitGlobalMuon := true
|}.

(** ** The acceptance predicate *)

Section Selection.
Variable cfg : Configurables.

Definition isSelected (pt eta rAtAbsorberEnd pDCA chi2_per_ndf : float)
    (trackType : Z) (dcaXY : float) : bool :=
  if ((pt <? minPt cfg) || (maxPt cfg <? pt))%f32 then false
  else if ((rAtAbsorberEnd <? minRabs cfg) || (maxRabs cfg <? rAtAbsorberEnd))%f32 then false
  else if (if (rAtAbsorberEnd <? midRabs cfg)%f32
           then (maxPDCAforSmallR cfg <? pDCA)%f32
           else (maxPDCAforLargeR cfg <? pDCA)%f32) then false
  else if trackType =? static_cast_uint8 GlobalMuonTrack then
    if ((eta <? minEtaGL cfg) || (maxEtaGL cfg <? eta))%f32 then false
    else if (maxDCAxy cfg <? dcaXY)%f32 then false
    else if (maxChi2GL cfg <? chi2_per_ndf)%f32 then false
    else if ((rAtAbsorberEnd <? minRabsGL cfg) || (maxRabs cfg <? rAtAbsorberEnd))%f32 then false
    else true
  else if trackType =? static_cast_uint8 MuonStandaloneTrack then
    if ((eta <? minEtaSA cfg) || (maxEtaSA cfg <? eta))%f32 then false
    else if (maxChi2SA cfg <? chi2_per_ndf)%f32 then false
    else true
  else false.
End Selection.


(** ** Tables read and written by the task *)

(** A row of [aod::Collisions] joined with the event selections; only
    the columns the task reads.  [runNumber] is that of the bunch
    crossing of the collision; [swtaliastmp_raw] belongs to
    [MyCollisionsWithSWT] and [has_mcCollision] to the join with
    [aod::McCollisionLabels]. *)
Module Collision.
Record t := {
  globalIndex : Z;
  posX : float;
  posY : float;
  posZ : float;
  isSelected : bool;
  runNumber : Z;
  swtaliastmp_raw : Z;
  has_mcCollision : bool
}.
End Collision.

(** A row of [soa::Join<aod::FwdTracks, aod::FwdTracksCov>]; only the
    columns the task reads.  [p] is the dynamic column of the total
    momentum; [has_mcParticle] belongs to the join with
    [aod::McFwdTrackLabels]. *)
Module FwdTrack.
Record t := {
  globalIndex : Z;
  collisionId : Z;
  trackType : Z;
  p : float;
  sign : Z;
  nClusters : Z;
  rAtAbsorberEnd : float;
  chi2 : float;
  chi2MatchMCHMID : float;
  chi2MatchMCHMFT : float;
  matchMFTTrackId : Z;
  matchMCHTrackId : Z;
  mchBitMap : Z;
  midBitMap : Z;
  midBoards : Z;
  has_mcParticle : bool
}.
End FwdTrack.

(** A row of [aod::MFTTracks]. *)
Module MFTTrack.
Record t := {
  nClusters : Z;
  mftClusterSizesAndTrackFlags : Z;
  chi2 : float;
  eta : float;
  phi : float
}.
End MFTTrack.

(** [o2::dataformats::GlobalFwdTrack]: the result of a propagation.  Its
    accessors return [double]; [getCovariances] is the 5x5 covariance
    matrix of the parameters (X, Y, PHI, TANL, INVQPT). *)
Module GlobalFwdTrack.
Record t := {
  getPt : double;
  getEta : double;
  getPhi : double;
  getP : double;
  getX : double;
  getY : double;
  getSigma2X : double;
  getSigma2Y : double;
  getSigmaXY : double;
  getCovariances : nat -> nat -> double
}.
End GlobalFwdTrack.

Inductive propagationPoint := kToVertex | kToDCA | kToRabs.

(** A row of [aod::EMPrimaryMuons], in the order of the arguments of the
    cursor [emprimarymuons]. *)
Module EMPrimaryMuon.
Record t := {
  collisionId : Z;
  fwdtrackId : Z;
  mfttrackId : Z;
  mchtrackId : Z;
  trackType : Z;
  pt : float;
  eta : float;
  phi : float;
  sign : Z;
  fwdDcaX : float;
  fwdDcaY : float;
  cXXatDCA : float;
  cYYatDCA : float;
  cXYatDCA : float;
  ptMatchedMCHMID : float;
  etaMatchedMCHMID : float;
  phiMatchedMCHMID : float;
  nClusters : Z;
  pDCA : float;
  rAtAbsorberEnd : float;
  chi2 : float;
  chi2MatchMCHMID : float;
  chi2MatchMCHMFT : float;
  mchBitMap : Z;
  midBitMap : Z;
  midBoards : Z;
  mftClusterSizesAndTrackFlags : Z;
  chi2MFT : float;
  isAssociatedToMPC : bool;
  isAmbiguous : bool
}.
End EMPrimaryMuon.

(** A row of [aod::EMPrimaryMuonsCov]: the 15 entries handed to the
    cursor [emprimarymuonscov], in the order of its arguments. *)
Definition EMPrimaryMuonCov := list float.

(** A row of [aod::FwdTrackAssoc], the track-to-collision associator. *)
Module FwdTrackAssoc.
Record t := {
  collisionId : Z;
  fwdtrackId : Z
}.
End FwdTrackAssoc.

(** What the task calls and does not define: the propagation of
    [Common/Core/fwdtrackUtilities.h], the index dereferences of the
    framework, the angle normalisations of [o2::math_utils] and the
    elementary functions of the C++ library at type [float].
    [fwdtrack_as] dereferences the column [fwdtrackId] of
    [aod::FwdTrackAssoc]. *)
Record Externals := {
  propagateMuon : FwdTrack.t -> Collision.t -> propagationPoint -> GlobalFwdTrack.t;
  matchMCHTrack_as : FwdTrack.t -> FwdTrack.t;
  matchMFTTrack_as : FwdTrack.t -> MFTTrack.t;
  bringTo02Pi : float -> float;
  bringToPMPi : float -> float;
  fwdtrack_as : Z -> FwdTrack.t;
  std_sin : float -> float;
  std_atan : float -> float;
  std_exp : float -> float
}.

(** The state of the task: the two output cursors, the histogram
    registry (a log of the [fill] calls), the run number the field was
    last loaded for, and a log of the calls to [propagateMuon]. *)
Record TaskState := {
  emprimarymuons : list EMPrimaryMuon.t;
  emprimarymuonscov : list EMPrimaryMuonCov;
  fRegistry : list (string * list double);
  mRunNumber : Z;
  propagateMuonCalls : list (FwdTrack.t * Collision.t * propagationPoint)
}.

Definition initState : TaskState := {|
  emprimarymuons := [];
  emprimarymuonscov := [];
  fRegistry := [];
  mRunNumber := 0;
  propagateMuonCalls := []
|}.

Definition set_emprimarymuons (st : TaskState) (rows : list EMPrimaryMuon.t) : TaskState :=
  {| emprimarymuons := rows;
     emprimarymuonscov := emprimarymuonscov st;
     fRegistry := fRegistry st;
     mRunNumber := mRunNumber st;
     propagateMuonCalls := propagateMuonCalls st |}.

Definition set_emprimarymuonscov (st : TaskState) (rows : list EMPrimaryMuonCov) : TaskState :=
  {| emprimarymuons := emprimarymuons st;
     emprimarymuonscov := rows;
     fRegistry := fRegistry st;
     mRunNumber := mRunNumber st;
     propagateMuonCalls := propagateMuonCalls st |}.

Definition set_fRegistry (st : TaskState) (h : list (string * list double)) : TaskState :=
  {| emprimarymuons := emprimarymuons st;
     emprimarymuonscov := emprimarymuonscov st;
     fRegistry := h;
     mRunNumber := mRunNumber st;
     propagateMuonCalls := propagateMuonCalls st |}.

Definition set_mRunNumber (st : TaskState) (r : Z) : TaskState :=
  {| emprimarymuons := emprimarymuons st;
     emprimarymuonscov := emprimarymuonscov st;
     fRegistry := fRegistry st;
     mRunNumber := r;
     propagateMuonCalls := propagateMuonCalls st |}.

Definition set_propagateMuonCalls (st : TaskState)
    (l : list (FwdTrack.t * Collision.t * propagationPoint)) : TaskState :=
  {| emprimarymuons := emprimarymuons st;
     emprimarymuonscov := emprimarymuonscov st;
     fRegistry := fRegistry st;
     mRunNumber := mRunNumber st;
     propagateMuonCalls := l |}.

(** ** The candidate builder *)

Section Task.
Variable cfg : Configurables.
Variable ext : Externals.

Local Open Scope string_scope.
Local Open Scope list_scope.
Local Open Scope f32_scope.

(** A call to [propagateMuon], recorded in the state. *)
Definition call_propagateMuon (track : FwdTrack.t) (collision : Collision.t)
    (point : propagationPoint) (st : TaskState) : GlobalFwdTrack.t * TaskState :=
  (propagateMuon ext track collision point,
   set_propagateMuonCalls st (propagateMuonCalls st ++ [(track, collision, point)])).

(** [fRegistry.fill(HIST(name), x...)]: the arguments are converted to
    [double]. *)
Definition fill (name : string) (xs : list double) (st : TaskState) : TaskState :=
  set_fRegistry st (fRegistry st ++ [(name, xs)]).

Definition fills (hs : list (string * list double)) (st : TaskState) : TaskState :=
  fold_left (fun s h => fill (fst h) (snd h) s) hs st.

(** Lines 237-243: the determinant of the covariance of (x, y) at the
    DCA plane and the DCA in units of sigma. *)
Definition determinant (cXXatDCA cYYatDCA cXYatDCA : float) : float :=
  cXXatDCA * cYYatDCA - cXYatDCA * cXYatDCA.

Definition dcaXYinSigma (dcaX dcaY cXXatDCA cYYatDCA cXYatDCA : float) : float :=
  let det := determinant cXXatDCA cYYatDCA cXYatDCA in
  if det <? F32.of_int 0 then F32.of_int 999
  else
    F32.sqrt (F32.fabs ((dcaX * dcaX * cYYatDCA + dcaY * dcaY * cXXatDCA
                         - F32.of_int 2 * dcaX * dcaY * cXYatDCA) / det / F32.of_int 2)).

(** Lines 350-399: the QA histograms of an accepted track, filled in
    the directory [dir] ("MFTMCHMID/" or "MCHMID/"); [chi2val] is what
    goes to [hChi2]. *)
Definition qaHistograms (dir : string) (fwdtrack : FwdTrack.t)
    (pt eta phi ptMatchedMCHMID etaMatchedMCHMID phiMatchedMCHMID : float)
    (dpt deta dphi : float) (nClustersMFT : Z) (pDCA rAtAbsorberEnd chi2val chi2mft : float)
    (dcaX dcaY cXXatDCA cYYatDCA cXYatDCA dcaXY dcaXYinSigma sigma_dcaXY : float)
    : list (string * list double) :=
  let h (n : string) := (dir ++ n)%string in
  let d := F64.of_float in
  let um (x : float) := F64.mul (d x) (F64.of_int 10000) in
  [ (h "hPt", [d pt]);
    (h "hEtaPhi", [d phi; d eta]);
    (h "hEtaPhi_MatchedMCHMID", [d phiMatchedMCHMID; d etaMatchedMCHMID]);
    (h "hDeltaPt_Pt", [d pt; d dpt]);
    (h "hDeltaEta_Pt", [d pt; d deta]);
    (h "hDeltaPhi_Pt", [d pt; d dphi]);
    (h "hSign", [F64.of_int (FwdTrack.sign fwdtrack)]);
    (h "hNclusters", [F64.of_int (FwdTrack.nClusters fwdtrack)]);
    (h "hNclustersMFT", [F64.of_int nClustersMFT]);
    (h "hPDCA_Rabs", [d rAtAbsorberEnd; d pDCA]);
    (h "hRatAbsorberEnd", [d rAtAbsorberEnd]);
    (h "hChi2", [d chi2val]);
    (h "hChi2MFT", [d chi2mft]);
    (h "hChi2MatchMCHMID", [d (FwdTrack.chi2MatchMCHMID fwdtrack)]);
    (h "hChi2MatchMCHMFT", [d (FwdTrack.chi2MatchMCHMFT fwdtrack)]);
    (h "hDCAxy2D", [d dcaX; d dcaY]);
    (h "hDCAxy2DinSigma", [d (dcaX / F32.sqrt cXXatDCA); d (dcaY / F32.sqrt cYYatDCA)]);
    (h "hDCAxy", [d dcaXY]);
    (h "hDCAxyinSigma", [d dcaXYinSigma]);
    (h "hDCAxResolutionvsPt", [d pt; um (F32.sqrt cXXatDCA)]);
    (h "hDCAyResolutionvsPt", [d pt; um (F32.sqrt cYYatDCA)]);
    (h "hDCAxyResolutionvsPt", [d pt; um sigma_dcaXY]) ].

(** The 15 entries given to [emprimarymuonscov], lines 335-340. *)
Definition covarianceRow (fwdcov : nat -> nat -> double) : EMPrimaryMuonCov :=
  map (fun ij : nat * nat => F32.of_double (fwdcov (fst ij) (snd ij)))
    [ (0, 0);
      (0, 1); (1, 1);
      (2, 0); (2, 1); (2, 2);
      (3, 0); (3, 1); (3, 2); (3, 3);
      (4, 0); (4, 1); (4, 2); (4, 3); (4, 4) ]%nat.

(** The row given to [emprimarymuons], lines 325-332. *)
Definition candidateRow (collision : Collision.t) (fwdtrack : FwdTrack.t) (isAmbiguous : bool)
    (pt eta phi dcaX dcaY cXXatDCA cYYatDCA cXYatDCA : float)
    (ptMatchedMCHMID etaMatchedMCHMID phiMatchedMCHMID : float)
    (pDCA rAtAbsorberEnd : float) (mftClusterSizesAndTrackFlags : Z) (chi2mft : float)
    : EMPrimaryMuon.t :=
  let isAssociatedToMPC :=
    (FwdTrack.collisionId fwdtrack =? Collision.globalIndex collision)%Z in
  {| EMPrimaryMuon.collisionId := Collision.globalIndex collision;
     EMPrimaryMuon.fwdtrackId := FwdTrack.globalIndex fwdtrack;
     EMPrimaryMuon.mfttrackId := FwdTrack.matchMFTTrackId fwdtrack;
     EMPrimaryMuon.mchtrackId := FwdTrack.matchMCHTrackId fwdtrack;
     EMPrimaryMuon.trackType := FwdTrack.trackType fwdtrack;
     EMPrimaryMuon.pt := pt;
     EMPrimaryMuon.eta := eta;
     EMPrimaryMuon.phi := phi;
     EMPrimaryMuon.sign := FwdTrack.sign fwdtrack;
     EMPrimaryMuon.fwdDcaX := dcaX;
     EMPrimaryMuon.fwdDcaY := dcaY;
     EMPrimaryMuon.cXXatDCA := cXXatDCA;
     EMPrimaryMuon.cYYatDCA := cYYatDCA;
     EMPrimaryMuon.cXYatDCA := cXYatDCA;
     EMPrimaryMuon.ptMatchedMCHMID := ptMatchedMCHMID;
     EMPrimaryMuon.etaMatchedMCHMID := etaMatchedMCHMID;
     EMPrimaryMuon.phiMatchedMCHMID := phiMatchedMCHMID;
     EMPrimaryMuon.nClusters := FwdTrack.nClusters fwdtrack;
     EMPrimaryMuon.pDCA := pDCA;
     EMPrimaryMuon.rAtAbsorberEnd := rAtAbsorberEnd;
     EMPrimaryMuon.chi2 := FwdTrack.chi2 fwdtrack;
     EMPrimaryMuon.chi2MatchMCHMID := FwdTrack.chi2MatchMCHMID fwdtrack;
     EMPrimaryMuon.chi2MatchMCHMFT := FwdTrack.chi2MatchMCHMFT fwdtrack;
     EMPrimaryMuon.mchBitMap := FwdTrack.mchBitMap fwdtrack;
     EMPrimaryMuon.midBitMap := FwdTrack.midBitMap fwdtrack;
     EMPrimaryMuon.midBoards := FwdTrack.midBoards fwdtrack;
     EMPrimaryMuon.mftClusterSizesAndTrackFlags := mftClusterSizesAndTrackFlags;
     EMPrimaryMuon.chi2MFT := chi2mft;
     EMPrimaryMuon.isAssociatedToMPC := isAssociatedToMPC;
     EMPrimaryMuon.isAmbiguous := isAmbiguous |}.

(** Lines 316-399, common to the two track types: the acceptance
    predicate, then the two rows and the histograms. *)
Definition selectAndFill (collision : Collision.t) (fwdtrack : FwdTrack.t) (isAmbiguous : bool)
    (propmuonAtPV : GlobalFwdTrack.t)
    (pt eta phi dcaX dcaY dcaXY cXXatDCA cYYatDCA cXYatDCA : float)
    (dcaXYinSigma sigma_dcaXY : float)
    (ptMatchedMCHMID etaMatchedMCHMID phiMatchedMCHMID : float)
    (pDCA rAtAbsorberEnd : float) (nClustersMFT mftClusterSizesAndTrackFlags : Z)
    (chi2mft : float) (ndf_mchmft : Z) (st : TaskState) : TaskState :=
  if negb (isSelected cfg pt eta rAtAbsorberEnd pDCA
             (FwdTrack.chi2 fwdtrack / F32.of_int ndf_mchmft)
             (FwdTrack.trackType fwdtrack) dcaXY)
  then st
  else
    let dpt := (ptMatchedMCHMID - pt) / pt in
    let deta := etaMatchedMCHMID - eta in
    let dphi := bringToPMPi ext (phiMatchedMCHMID - phi) in
    let st := set_emprimarymuons st (emprimarymuons st ++ [
      candidateRow collision fwdtrack isAmbiguous
        pt eta phi dcaX dcaY cXXatDCA cYYatDCA cXYatDCA
        ptMatchedMCHMID etaMatchedMCHMID phiMatchedMCHMID
        pDCA rAtAbsorberEnd mftClusterSizesAndTrackFlags chi2mft ]) in
    let fwdcov := GlobalFwdTrack.getCovariances propmuonAtPV in
    let st := set_emprimarymuonscov st (emprimarymuonscov st ++ [covarianceRow fwdcov]) in
    if fillQAHistograms cfg then
      let st := fill "hMuonType" [F64.of_int (FwdTrack.trackType fwdtrack)] st in
      if (FwdTrack.trackType fwdtrack =? static_cast_uint8 GlobalMuonTrack)%Z then
        fills (qaHistograms "MFTMCHMID/" fwdtrack pt eta phi
                 ptMatchedMCHMID etaMatchedMCHMID phiMatchedMCHMID dpt deta dphi
                 nClustersMFT pDCA rAtAbsorberEnd
                 (FwdTrack.chi2 fwdtrack / F32.of_int ndf_mchmft) chi2mft
                 dcaX dcaY cXXatDCA cYYatDCA cXYatDCA dcaXY dcaXYinSigma sigma_dcaXY) st
      else if (FwdTrack.trackType fwdtrack =? static_cast_uint8 MuonStandaloneTrack)%Z then
        fills (qaHistograms "MCHMID/" fwdtrack pt eta phi
                 ptMatchedMCHMID etaMatchedMCHMID phiMatchedMCHMID dpt deta dphi
                 nClustersMFT pDCA rAtAbsorberEnd
                 (FwdTrack.chi2 fwdtrack) chi2mft
                 dcaX dcaY cXXatDCA cYYatDCA cXYatDCA dcaXY dcaXYinSigma sigma_dcaXY) st
      else st
    else st.

(** Lines 284-306 and what follows them: the propagation of the matched
    MCH-MID track of a global muon, its pDCA, the kinematics of the
    refit, and the selection. *)
Definition matchedGlobalMuon (collision : Collision.t) (fwdtrack : FwdTrack.t)
    (isAmbiguous : bool) (propmuonAtPV : GlobalFwdTrack.t)
    (pt eta phi dcaX dcaY dcaXY cXXatDCA cYYatDCA cXYatDCA : float)
    (dcaXYinSigma sigma_dcaXY rAtAbsorberEnd : float)
    (mchtrack : FwdTrack.t) (mfttrack : MFTTrack.t)
    (nClustersMFT mftClusterSizesAndTrackFlags : Z) (chi2mft : float) (ndf_mchmft : Z)
    (st : TaskState) : TaskState :=
  let '(propmuonAtPV_Matched, st) := call_propagateMuon mchtrack collision kToVertex st in
  let ptMatchedMCHMID := F32.of_double (GlobalFwdTrack.getPt propmuonAtPV_Matched) in
  let etaMatchedMCHMID := F32.of_double (GlobalFwdTrack.getEta propmuonAtPV_Matched) in
  let phiMatchedMCHMID :=
    bringTo02Pi ext (F32.of_double (GlobalFwdTrack.getPhi propmuonAtPV_Matched)) in
  let '(propmuonAtDCA_Matched, st) := call_propagateMuon mchtrack collision kToDCA st in
  let dcaX_Matched :=
    F32.of_double (F64.sub (GlobalFwdTrack.getX propmuonAtDCA_Matched)
                           (F64.of_float (Collision.posX collision))) in
  let dcaY_Matched :=
    F32.of_double (F64.sub (GlobalFwdTrack.getY propmuonAtDCA_Matched)
                           (F64.of_float (Collision.posY collision))) in
  let dcaXY_Matched :=
    F32.sqrt (dcaX_Matched * dcaX_Matched + dcaY_Matched * dcaY_Matched) in
  let pDCA := FwdTrack.p mchtrack * dcaXY_Matched in
  let eta := if refitGlobalMuon cfg then MFTTrack.eta mfttrack else eta in
  let phi := if refitGlobalMuon cfg then bringTo02Pi ext (MFTTrack.phi mfttrack) else phi in
  let pt :=
    if refitGlobalMuon cfg then
      F32.of_double
        (F64.mul (GlobalFwdTrack.getP propmuonAtPV_Matched)
           (F64.of_float
              (std_sin ext (F32.of_int 2 * std_atan ext (std_exp ext (F32.neg eta))))))
    else pt in
  selectAndFill collision fwdtrack isAmbiguous propmuonAtPV
    pt eta phi dcaX dcaY dcaXY cXXatDCA cYYatDCA cXYatDCA dcaXYinSigma sigma_dcaXY
    ptMatchedMCHMID etaMatchedMCHMID phiMatchedMCHMID
    pDCA rAtAbsorberEnd nClustersMFT mftClusterSizesAndTrackFlags chi2mft ndf_mchmft st.

(** Line 275: the number of degrees of freedom of a global muon, an
    [int] assigned from an expression of type [float]. *)
Definition ndf_mchmft_of (mchtrack : FwdTrack.t) (nClustersMFT : Z) : Z :=
  IEEE.trunc (F32.of_int 2 * F32.of_int (FwdTrack.nClusters mchtrack + nClustersMFT)
              - F32.of_int 5).

(** [fillFwdTrackTable], lines 206-400. *)
Definition fillFwdTrackTable (collision : Collision.t) (fwdtrack : FwdTrack.t)
    (isAmbiguous : bool) (st : TaskState) : TaskState :=
  if (FwdTrack.trackType fwdtrack =? static_cast_uint8 GlobalMuonTrack)%Z
     && (maxMatchingChi2MCHMFT cfg <? FwdTrack.chi2MatchMCHMFT fwdtrack) then st
  else if FwdTrack.chi2MatchMCHMID fwdtrack <? F32.of_int 0 then st
  else if FwdTrack.chi2 fwdtrack <? F32.of_int 0 then st
  else
    let '(propmuonAtPV, st) := call_propagateMuon fwdtrack collision kToVertex st in
    let pt := F32.of_double (GlobalFwdTrack.getPt propmuonAtPV) in
    let eta := F32.of_double (GlobalFwdTrack.getEta propmuonAtPV) in
    let phi := bringTo02Pi ext (F32.of_double (GlobalFwdTrack.getPhi propmuonAtPV)) in
    let '(propmuonAtDCA, st) := call_propagateMuon fwdtrack collision kToDCA st in
    let cXXatDCA := F32.of_double (GlobalFwdTrack.getSigma2X propmuonAtDCA) in
    let cYYatDCA := F32.of_double (GlobalFwdTrack.getSigma2Y propmuonAtDCA) in
    let cXYatDCA := F32.of_double (GlobalFwdTrack.getSigmaXY propmuonAtDCA) in
    let dcaX := F32.of_double (F64.sub (GlobalFwdTrack.getX propmuonAtDCA)
                                       (F64.of_float (Collision.posX collision))) in
    let dcaY := F32.of_double (F64.sub (GlobalFwdTrack.getY propmuonAtDCA)
                                       (F64.of_float (Collision.posY collision))) in
    let dcaXY := F32.sqrt (dcaX * dcaX + dcaY * dcaY) in
    let rAtAbsorberEnd := FwdTrack.rAtAbsorberEnd fwdtrack in
    let dcaXYinSigma := dcaXYinSigma dcaX dcaY cXXatDCA cYYatDCA cXYatDCA in
    let sigma_dcaXY := dcaXY / dcaXYinSigma in
    let pDCA := FwdTrack.p fwdtrack * dcaXY in
    let ptMatchedMCHMID := F32.of_double (GlobalFwdTrack.getPt propmuonAtPV) in
    let etaMatchedMCHMID := F32.of_double (GlobalFwdTrack.getEta propmuonAtPV) in
    let phiMatchedMCHMID :=
      bringTo02Pi ext (F32.of_double (GlobalFwdTrack.getPhi propmuonAtPV)) in
    if (FwdTrack.trackType fwdtrack =? static_cast_uint8 GlobalMuonTrack)%Z then
      if (FwdTrack.rAtAbsorberEnd fwdtrack <? minRabsGL cfg)
         || (maxRabs cfg <? FwdTrack.rAtAbsorberEnd fwdtrack) then st
      else if maxDCAxy cfg <? dcaXY then st
      else
        let mchtrack := matchMCHTrack_as ext fwdtrack in
        let mfttrack := matchMFTTrack_as ext fwdtrack in
        let nClustersMFT := MFTTrack.nClusters mfttrack in
        let mftClusterSizesAndTrackFlags := MFTTrack.mftClusterSizesAndTrackFlags mfttrack in
        let ndf_mchmft := ndf_mchmft_of mchtrack nClustersMFT in
        let chi2mft := MFTTrack.chi2 mfttrack in
        if maxChi2GL cfg <? FwdTrack.chi2 fwdtrack / F32.of_int ndf_mchmft then st
        else
          matchedGlobalMuon collision fwdtrack isAmbiguous propmuonAtPV
            pt eta phi dcaX dcaY dcaXY cXXatDCA cYYatDCA cXYatDCA dcaXYinSigma sigma_dcaXY
            rAtAbsorberEnd mchtrack mfttrack nClustersMFT mftClusterSizesAndTrackFlags
            chi2mft ndf_mchmft st
    else if (FwdTrack.trackType fwdtrack =? static_cast_uint8 MuonStandaloneTrack)%Z then
      let '(propmuonAtRabs, st) := call_propagateMuon fwdtrack collision kToRabs st in
      let xAbs := F32.of_double (GlobalFwdTrack.getX propmuonAtRabs) in
      let yAbs := F32.of_double (GlobalFwdTrack.getY propmuonAtRabs) in
      let rAtAbsorberEnd := F32.sqrt (xAbs * xAbs + yAbs * yAbs) in
      selectAndFill collision fwdtrack isAmbiguous propmuonAtPV
        pt eta phi dcaX dcaY dcaXY cXXatDCA cYYatDCA cXYatDCA dcaXYinSigma sigma_dcaXY
        ptMatchedMCHMID etaMatchedMCHMID phiMatchedMCHMID
        pDCA rAtAbsorberEnd 0 0 (F32.of_int 0) 1 st
    else st.

(** The candidate builder of the specification with the three cheap
    rejections of lines 262, 267 and 280 removed: every global muon
    that passes the first three guards goes through the propagation of
    its matched track and is judged by [isSelected] alone. *)
Definition fillFwdTrackTable_withoutEarlyCuts (collision : Collision.t)
    (fwdtrack : FwdTrack.t) (isAmbiguous : bool) (st : TaskState) : TaskState :=
  if (FwdTrack.trackType fwdtrack =? static_cast_uint8 GlobalMuonTrack)%Z
     && (maxMatchingChi2MCHMFT cfg <? FwdTrack.chi2MatchMCHMFT fwdtrack) then st
  else if FwdTrack.chi2MatchMCHMID fwdtrack <? F32.of_int 0 then st
  else if FwdTrack.chi2 fwdtrack <? F32.of_int 0 then st
  else
    let '(propmuonAtPV, st) := call_propagateMuon fwdtrack collision kToVertex st in
    let pt := F32.of_double (GlobalFwdTrack.getPt propmuonAtPV) in
    let eta := F32.of_double (GlobalFwdTrack.getEta propmuonAtPV) in
    let phi := bringTo02Pi ext (F32.of_double (GlobalFwdTrack.getPhi propmuonAtPV)) in
    let '(propmuonAtDCA, st) := call_propagateMuon fwdtrack collision kToDCA st in
    let cXXatDCA := F32.of_double (GlobalFwdTrack.getSigma2X propmuonAtDCA) in
    let cYYatDCA := F32.of_double (GlobalFwdTrack.getSigma2Y propmuonAtDCA) in
    let cXYatDCA := F32.of_double (GlobalFwdTrack.getSigmaXY propmuonAtDCA) in
    let dcaX := F32.of_double (F64.sub (GlobalFwdTrack.getX propmuonAtDCA)
                                       (F64.of_float (Collision.posX collision))) in
    let dcaY := F32.of_double (F64.sub (GlobalFwdTrack.getY propmuonAtDCA)
                                       (F64.of_float (Collision.posY collision))) in
    let dcaXY := F32.sqrt (dcaX * dcaX + dcaY * dcaY) in
    let rAtAbsorberEnd := FwdTrack.rAtAbsorberEnd fwdtrack in
    let dcaXYinSigma := dcaXYinSigma dcaX dcaY cXXatDCA cYYatDCA cXYatDCA in
    let sigma_dcaXY := dcaXY / dcaXYinSigma in
    let pDCA := FwdTrack.p fwdtrack * dcaXY in
    let ptMatchedMCHMID := F32.of_double (GlobalFwdTrack.getPt propmuonAtPV) in
    let etaMatchedMCHMID := F32.of_double (GlobalFwdTrack.getEta propmuonAtPV) in
    let phiMatchedMCHMID :=
      bringTo02Pi ext (F32.of_double (GlobalFwdTrack.getPhi propmuonAtPV)) in
    if (FwdTrack.trackType fwdtrack =? static_cast_uint8 GlobalMuonTrack)%Z then
      let mchtrack := matchMCHTrack_as ext fwdtrack in
      let mfttrack := matchMFTTrack_as ext fwdtrack in
      let nClustersMFT := MFTTrack.nClusters mfttrack in
      let mftClusterSizesAndTrackFlags := MFTTrack.mftClusterSizesAndTrackFlags mfttrack in
      let ndf_mchmft := ndf_mchmft_of mchtrack nClustersMFT in
      let chi2mft := MFTTrack.chi2 mfttrack in
      matchedGlobalMuon collision fwdtrack isAmbiguous propmuonAtPV
        pt eta phi dcaX dcaY dcaXY cXXatDCA cYYatDCA cXYatDCA dcaXYinSigma sigma_dcaXY
        rAtAbsorberEnd mchtrack mfttrack nClustersMFT mftClusterSizesAndTrackFlags
        chi2mft ndf_mchmft st
    else if (FwdTrack.trackType fwdtrack =? static_cast_uint8 MuonStandaloneTrack)%Z then
      let '(propmuonAtRabs, st) := call_propagateMuon fwdtrack collision kToRabs st in
      let xAbs := F32.of_double (GlobalFwdTrack.getX propmuonAtRabs) in
      let yAbs := F32.of_double (GlobalFwdTrack.getY propmuonAtRabs) in
      let rAtAbsorberEnd := F32.sqrt (xAbs * xAbs + yAbs * yAbs) in
      selectAndFill collision fwdtrack isAmbiguous propmuonAtPV
        pt eta phi dcaX dcaY dcaXY cXXatDCA cYYatDCA cXYatDCA dcaXYinSigma sigma_dcaXY
        ptMatchedMCHMID etaMatchedMCHMID phiMatchedMCHMID
        pDCA rAtAbsorberEnd 0 0 (F32.of_int 0) 1 st
    else st.

(** ** The drivers *)

(** [initCCDB]: the magnetic field is loaded again only when the run
    number changes.  The loading itself is outside of the model. *)
Definition initCCDB (runNumber : Z) (st : TaskState) : TaskState :=
  if (mRunNumber st =? runNumber)%Z then st else set_mRunNumber st runNumber.

Definition isMuonType (fwdtrack : FwdTrack.t) : bool :=
  negb (negb (FwdTrack.trackType fwdtrack =? static_cast_uint8 GlobalMuonTrack)%Z
        && negb (FwdTrack.trackType fwdtrack =? static_cast_uint8 MuonStandaloneTrack)%Z).

(** [processRec_SA], lines 408-426.  [sliceBy(perCollision, id)] keeps
    the tracks whose [collisionId] is [id], in the order of the table. *)
Definition processRec_SA (collisions : list Collision.t) (fwdtracks : list FwdTrack.t)
    (st : TaskState) : TaskState :=
  fold_left
    (fun st collision =>
       let st := initCCDB (Collision.runNumber collision) st in
       if negb (Collision.isSelected collision) then st
       else
         let fwdtracks_per_coll :=
           filter (fun t => (FwdTrack.collisionId t =? Collision.globalIndex collision)%Z)
                  fwdtracks in
         fold_left
           (fun st fwdtrack =>
              if negb (isMuonType fwdtrack) then st
              else fillFwdTrackTable collision fwdtrack false st)
           fwdtracks_per_coll st)
    collisions st.

(** [mapAmb] of [processRec_TTCA]: a track is ambiguous when more than
    one row of the associator points to it.  A key that was never
    written reads as [false]. *)
Definition mapAmb_lookup (mapAmb : list (Z * bool)) (k : Z) : bool :=
  match find (fun kv => (fst kv =? k)%Z) mapAmb with
  | Some kv => snd kv
  | None => false
  end.

Definition build_mapAmb (fwdtracks : list FwdTrack.t)
    (fwdtrackIndices : list FwdTrackAssoc.t) : list (Z * bool) :=
  fold_left
    (fun mapAmb fwdtrack =>
       let fwdtrackIdsPerFwdTrack :=
         filter (fun a => (FwdTrackAssoc.fwdtrackId a =? FwdTrack.globalIndex fwdtrack)%Z)
                fwdtrackIndices in
       (FwdTrack.globalIndex fwdtrack, (1 <? List.length fwdtrackIdsPerFwdTrack)%nat) :: mapAmb)
    fwdtracks [].

(** [processRec_TTCA], lines 429-456. *)
Definition processRec_TTCA (collisions : list Collision.t) (fwdtracks : list FwdTrack.t)
    (fwdtrackIndices : list FwdTrackAssoc.t) (st : TaskState) : TaskState :=
  let mapAmb := build_mapAmb fwdtracks fwdtrackIndices in
  fold_left
    (fun st collision =>
       let st := initCCDB (Collision.runNumber collision) st in
       if negb (Collision.isSelected collision) then st
       else
         let fwdtrackIdsThisCollision :=
           filter (fun a => (FwdTrackAssoc.collisionId a =? Collision.globalIndex collision)%Z)
                  fwdtrackIndices in
         fold_left
           (fun st fwdtrackId =>
              let fwdtrack := fwdtrack_as ext (FwdTrackAssoc.fwdtrackId fwdtrackId) in
              if negb (isMuonType fwdtrack) then st
              else fillFwdTrackTable collision fwdtrack
                     (mapAmb_lookup mapAmb (FwdTrack.globalIndex fwdtrack)) st)
           fwdtrackIdsThisCollision st)
    collisions st.
(** [processRec_SA_SWT], lines 459-481: only the collisions of a
    software trigger. *)
Definition processRec_SA_SWT (collisions : list Collision.t) (fwdtracks : list FwdTrack.t)
    (st : TaskState) : TaskState :=
  fold_left
    (fun st collision =>
       let st := initCCDB (Collision.runNumber collision) st in
       if negb (Collision.isSelected collision) then st
       else if (Collision.swtaliastmp_raw collision =? 0)%Z then st
       else
         let fwdtracks_per_coll :=
           filter (fun t => (FwdTrack.collisionId t =? Collision.globalIndex collision)%Z)
                  fwdtracks in
         fold_left
           (fun st fwdtrack =>
              if negb (isMuonType fwdtrack) then st
              else fillFwdTrackTable collision fwdtrack false st)
           fwdtracks_per_coll st)
    collisions st.

(** [processRec_TTCA_SWT], lines 484-513. *)
Definition processRec_TTCA_SWT (collisions : list Collision.t) (fwdtracks : list FwdTrack.t)
    (fwdtrackIndices : list FwdTrackAssoc.t) (st : TaskState) : TaskState :=
  let mapAmb := build_mapAmb fwdtracks fwdtrackIndices in
  fold_left
    (fun st collision =>
       let st := initCCDB (Collision.runNumber collision) st in
       if negb (Collision.isSelected collision) then st
       else if (Collision.swtaliastmp_raw collision =? 0)%Z then st
       else
         let fwdtrackIdsThisCollision :=
           filter (fun a => (FwdTrackAssoc.collisionId a =? Collision.globalIndex collision)%Z)
                  fwdtrackIndices in
         fold_left
           (fun st fwdtrackId =>
              let fwdtrack := fwdtrack_as ext (FwdTrackAssoc.fwdtrackId fwdtrackId) in
              if negb (isMuonType fwdtrack) then st
              else fillFwdTrackTable collision fwdtrack
                     (mapAmb_lookup mapAmb (FwdTrack.globalIndex fwdtrack)) st)
           fwdtrackIdsThisCollision st)
    collisions st.

(** [processMC_SA], lines 516-539: only the collisions and the tracks
    with a Monte Carlo label. *)
Definition processMC_SA (collisions : list Collision.t) (fwdtracks : list FwdTrack.t)
    (st : TaskState) : TaskState :=
  fold_left
    (fun st collision =>
       let st := initCCDB (Collision.runNumber collision) st in
       if negb (Collision.isSelected collision) then st
       else if negb (Collision.has_mcCollision collision) then st
       else
         let fwdtracks_per_coll :=
           filter (fun t => (FwdTrack.collisionId t =? Collision.globalIndex collision)%Z)
                  fwdtracks in
         fold_left
           (fun st fwdtrack =>
              if negb (FwdTrack.has_mcParticle fwdtrack) then st
              else if negb (isMuonType fwdtrack) then st
              else fillFwdTrackTable collision fwdtrack false st)
           fwdtracks_per_coll st)
    collisions st.

(** [processMC_TTCA], lines 542-574. *)
Definition processMC_TTCA (collisions : list Collision.t) (fwdtracks : list FwdTrack.t)
    (fwdtrackIndices : list FwdTrackAssoc.t) (st : TaskState) : TaskState :=
  let mapAmb := build_mapAmb fwdtracks fwdtrackIndices in
  fold_left
    (fun st collision =>
       let st := initCCDB (Collision.runNumber collision) st in
       if negb (Collision.isSelected collision) then st
       else if negb (Collision.has_mcCollision collision) then st
       else
         let fwdtrackIdsThisCollision :=
           filter (fun a => (FwdTrackAssoc.collisionId a =? Collision.globalIndex collision)%Z)
                  fwdtrackIndices in
         fold_left
           (fun st fwdtrackId =>
              let fwdtrack := fwdtrack_as ext (FwdTrackAssoc.fwdtrackId fwdtrackId) in
              if negb (FwdTrack.has_mcParticle fwdtrack) then st
              else if negb (isMuonType fwdtrack) then st
              else fillFwdTrackTable collision fwdtrack
                     (mapAmb_lookup mapAmb (FwdTrack.globalIndex fwdtrack)) st)
           fwdtrackIdsThisCollision st)
    collisions st.

(** [processDummy], line 577. *)
Definition processDummy (st : TaskState) : TaskState := st.
End Task.

(** ** The self-association tasks *)

(** The conversion of a row index ([int64_t]) to the element type [int]
    of the vectors of indices. *)
Definition to_int (z : Z) : Z := (z + 2 ^ 31) mod 2 ^ 32 - 2 ^ 31.

(** The rows of a table with their [globalIndex], the position in the
    table. *)
Definition indexed {A : Type} (rows : list A) : list (Z * A) :=
  combine (map Z.of_nat (seq 0 (List.length rows))) rows.

(** [associateAmbiguousMuon::process], lines 587-602: one vector per
    muon.  [sliceBy(perTrack, id)] keeps the muons whose [fwdtrackId] is
    [id], in the order of the table. *)
Definition associateAmbiguousMuon (muons : list EMPrimaryMuon.t) : list (list Z) :=
  map (fun muon : Z * EMPrimaryMuon.t =>
         let muons_with_same_trackId :=
           filter (fun m : Z * EMPrimaryMuon.t =>
                     EMPrimaryMuon.fwdtrackId (snd m) =? EMPrimaryMuon.fwdtrackId (snd muon))
                  (indexed muons) in
         fold_left
           (fun ambmuon_self_Ids (amb_muon : Z * EMPrimaryMuon.t) =>
              if fst amb_muon =? fst muon then ambmuon_self_Ids
              else ambmuon_self_Ids ++ [to_int (fst amb_muon)])
           muons_with_same_trackId [])
      (indexed muons).

(** [associateSameMFT::process], lines 611-632. *)
Definition associateSameMFT (muons : list EMPrimaryMuon.t) : list (list Z) :=
  map (fun muon : Z * EMPrimaryMuon.t =>
         if EMPrimaryMuon.trackType (snd muon) =? static_cast_uint8 GlobalMuonTrack then
           let muons_with_same_mfttrackId :=
             filter (fun m : Z * EMPrimaryMuon.t =>
                       EMPrimaryMuon.mfttrackId (snd m) =? EMPrimaryMuon.mfttrackId (snd muon))
                    (indexed muons) in
           fold_left
             (fun self_Ids (global_muon : Z * EMPrimaryMuon.t) =>
                if fst global_muon =? fst muon then self_Ids
                else if EMPrimaryMuon.collisionId (snd global_muon)
                        =? EMPrimaryMuon.collisionId (snd muon)
                     then self_Ids ++ [to_int (fst global_muon)]
                     else self_Ids)
             muons_with_same_mfttrackId []
         else [])
      (indexed muons).

From Stdlib Require Import Sorted.

(** ** The histograms of the registry *)

(** The two kinds of histograms that [addHistograms] books. *)
Inductive HistType := kTH1F | kTH2F.

(** The number of values that a [fill] of a histogram takes. *)
Definition dimension (k : HistType) : nat :=
  match k with
  | kTH1F => 1
  | kTH2F => 2
  end.

(** What is left of [s] after the prefix [p], when [s] starts with [p]. *)
Fixpoint strip_prefix (p s : string) : option string :=
  match p with
  | EmptyString => Some s
  | String a p' =>
      match s with
      | EmptyString => None
      | String b s' => if Ascii.eqb a b then strip_prefix p' s' else None
      end
  end.

(** [fRegistry.add(name, title, type, axes)]: the names and the kinds of
    the histograms booked so far, in the order of booking. *)
Definition add (name : string) (k : HistType) (booked : list (string * HistType))
    : list (string * HistType) :=
  booked ++ [(name, k)].

(** [fRegistry.addClone(source, target)] with a group name [source]: every
    histogram booked under [source] is booked again under [target]. *)
Definition addClone (source target : string) (booked : list (string * HistType))
    : list (string * HistType) :=
  booked ++
  flat_map (fun h => match strip_prefix source (fst h) with
                     | Some rest => [((target ++ rest)%string, snd h)]
                     | None => []
                     end) booked.

(** [addHistograms], lines 130-165. *)
Definition addHistograms (booked : list (string * HistType)) : list (string * HistType) :=
  let booked := add "hMuonType" kTH1F booked in
  let booked := add "MFTMCHMID/hPt" kTH1F booked in
  let booked := add "MFTMCHMID/hEtaPhi" kTH2F booked in
  let booked := add "MFTMCHMID/hEtaPhi_MatchedMCHMID" kTH2F booked in
  let booked := add "MFTMCHMID/hDeltaPt_Pt" kTH2F booked in
  let booked := add "MFTMCHMID/hDeltaEta_Pt" kTH2F booked in
  let booked := add "MFTMCHMID/hDeltaPhi_Pt" kTH2F booked in
  let booked := add "MFTMCHMID/hSign" kTH1F booked in
  let booked := add "MFTMCHMID/hNclusters" kTH1F booked in
  let booked := add "MFTMCHMID/hNclustersMFT" kTH1F booked in
  let booked := add "MFTMCHMID/hRatAbsorberEnd" kTH1F booked in
  let booked := add "MFTMCHMID/hPDCA_Rabs" kTH2F booked in
  let booked := add "MFTMCHMID/hChi2" kTH1F booked in
  let booked := add "MFTMCHMID/hChi2MFT" kTH1F booked in
  let booked := add "MFTMCHMID/hChi2MatchMCHMID" kTH1F booked in
  let booked := add "MFTMCHMID/hChi2MatchMCHMFT" kTH1F booked in
  let booked := add "MFTMCHMID/hDCAxy2D" kTH2F booked in
  let booked := add "MFTMCHMID/hDCAxy2DinSigma" kTH2F booked in
  let booked := add "MFTMCHMID/hDCAxy" kTH1F booked in
  let booked := add "MFTMCHMID/hDCAxyinSigma" kTH1F booked in
  let booked := addClone "MFTMCHMID/" "MCHMID/" booked in
  let booked := add "MFTMCHMID/hDCAxResolutionvsPt" kTH2F booked in
  let booked := add "MFTMCHMID/hDCAyResolutionvsPt" kTH2F booked in
  let booked := add "MFTMCHMID/hDCAxyResolutionvsPt" kTH2F booked in
  let booked := add "MCHMID/hDCAxResolutionvsPt" kTH2F booked in
  let booked := add "MCHMID/hDCAyResolutionvsPt" kTH2F booked in
  let booked := add "MCHMID/hDCAxyResolutionvsPt" kTH2F booked in
  booked.

(** [init], lines 98-110: the histograms are booked only when
    [fillQAHistograms] is set, and the run number starts at 0.  The set-up
    of the CCDB manager is outside of the model. *)
Definition init (cfg : Configurables) : TaskState * list (string * HistType) :=
  (initState, if fillQAHistograms cfg then addHistograms [] else []).

(** * Specification-side definitions *)

Definition is_number (x : spec_float) : bool := negb (IEEE.is_nan x).

(** The sign bit of a value is clear (a NaN has none). *)
Definition sign_clear (x : spec_float) : bool :=
  match x with
  | S754_zero s | S754_infinity s | S754_finite s _ _ => negb s
  | S754_nan => true
  end.

Section SelectionSpec.
Variable cfg : Configurables.
Local Open Scope f32_scope.

(** The acceptance policy in the words of the specification: a
    conjunction of closed-interval and upper-bound conditions. *)
Definition inRange (lo hi x : float) : bool := (lo <=? x) && (x <=? hi).

Definition accept_spec (pt eta rAtAbsorberEnd pDCA chi2_per_ndf : float)
    (trackType : Z) (dcaXY : float) : bool :=
  inRange (minPt cfg) (maxPt cfg) pt
  && inRange (minRabs cfg) (maxRabs cfg) rAtAbsorberEnd
  && (if rAtAbsorberEnd <? midRabs cfg
      then pDCA <=? maxPDCAforSmallR cfg
      else pDCA <=? maxPDCAforLargeR cfg)
  && (if (trackType =? static_cast_uint8 GlobalMuonTrack)%Z then
        inRange (minEtaGL cfg) (maxEtaGL cfg) eta
        && (dcaXY <=? maxDCAxy cfg)
        && (chi2_per_ndf <=? maxChi2GL cfg)
        && inRange (minRabsGL cfg) (maxRabs cfg) rAtAbsorberEnd
      else if (trackType =? static_cast_uint8 MuonStandaloneTrack)%Z then
        inRange (minEtaSA cfg) (maxEtaSA cfg) eta
        && (chi2_per_ndf <=? maxChi2SA cfg)
      else false).

(** All the thresholds of the acceptance policy are numbers. *)
Definition thresholds_are_numbers : bool :=
  forallb is_number
    [ minPt cfg; maxPt cfg; minEtaSA cfg; maxEtaSA cfg; minEtaGL cfg; maxEtaGL cfg;
      minRabsGL cfg; minRabs cfg; midRabs cfg; maxRabs cfg; maxDCAxy cfg;
      maxPDCAforLargeR cfg; maxPDCAforSmallR cfg; maxChi2SA cfg; maxChi2GL cfg ].

(** The predicate as the code evaluates it: the conjunction of the
    negations of its rejection tests, whatever the values. *)
Definition notOutside (lo hi x : float) : bool := negb (x <? lo) && negb (hi <? x).
End SelectionSpec.

(** The DCA significance with the formula as the specification writes
    it: the absolute value is taken of the numerator alone. *)
Definition dcaXYinSigma_spec (dcaX dcaY cXXatDCA cYYatDCA cXYatDCA : float) : float :=
  let det := determinant cXXatDCA cYYatDCA cXYatDCA in
  if F32.ltb det (F32.of_int 0) then F32.of_int 999
  else
    F32.sqrt
      (F32.div
         (F32.div
            (F32.fabs
               (F32.sub
                  (F32.add (F32.mul (F32.mul dcaX dcaX) cYYatDCA)
                           (F32.mul (F32.mul dcaY dcaY) cXXatDCA))
                  (F32.mul (F32.mul (F32.mul (F32.of_int 2) dcaX) dcaY) cXYatDCA)))
            det)
         (F32.of_int 2)).

(** The numerator of the significance, line 242. *)
Definition significanceNumerator (dcaX dcaY cXXatDCA cYYatDCA cXYatDCA : float) : float :=
  F32.sub
    (F32.add (F32.mul (F32.mul dcaX dcaX) cYYatDCA)
             (F32.mul (F32.mul dcaY dcaY) cXXatDCA))
    (F32.mul (F32.mul (F32.mul (F32.of_int 2) dcaX) dcaY) cXYatDCA).

(** ** What the candidate builder computes for a track *)

Section Observables.
Variable ext : Externals.
Variable collision : Collision.t.

(** The DCA of a track with respect to the vertex of the collision, from
    its propagation to the DCA plane: lines 227-234 for the track itself,
    lines 290-293 for the matched MCH-MID track. *)
Definition trackDcaX (track : FwdTrack.t) : float :=
  F32.of_double (F64.sub (GlobalFwdTrack.getX (propagateMuon ext track collision kToDCA))
                         (F64.of_float (Collision.posX collision))).

Definition trackDcaY (track : FwdTrack.t) : float :=
  F32.of_double (F64.sub (GlobalFwdTrack.getY (propagateMuon ext track collision kToDCA))
                         (F64.of_float (Collision.posY collision))).

Definition trackDcaXY (track : FwdTrack.t) : float :=
  F32.sqrt (F32.add (F32.mul (trackDcaX track) (trackDcaX track))
                    (F32.mul (trackDcaY track) (trackDcaY track))).

(** The covariance of (x, y) at the DCA plane, lines 228-230. *)
Definition trackCXX (track : FwdTrack.t) : float :=
  F32.of_double (GlobalFwdTrack.getSigma2X (propagateMuon ext track collision kToDCA)).

Definition trackCYY (track : FwdTrack.t) : float :=
  F32.of_double (GlobalFwdTrack.getSigma2Y (propagateMuon ext track collision kToDCA)).

Definition trackCXY (track : FwdTrack.t) : float :=
  F32.of_double (GlobalFwdTrack.getSigmaXY (propagateMuon ext track collision kToDCA)).

Definition trackDeterminant (track : FwdTrack.t) : float :=
  determinant (trackCXX track) (trackCYY track) (trackCXY track).

Definition trackDcaXYinSigma (track : FwdTrack.t) : float :=
  dcaXYinSigma (trackDcaX track) (trackDcaY track)
    (trackCXX track) (trackCYY track) (trackCXY track).

(** [sigma_dcaXY], line 244. *)
Definition trackSigmaDcaXY (track : FwdTrack.t) : float :=
  F32.div (trackDcaXY track) (trackDcaXYinSigma track).

(** The radius at the end of the absorber of a standalone muon, lines
    308-311. *)
Definition trackRabs (track : FwdTrack.t) : float :=
  let xAbs := F32.of_double (GlobalFwdTrack.getX (propagateMuon ext track collision kToRabs)) in
  let yAbs := F32.of_double (GlobalFwdTrack.getY (propagateMuon ext track collision kToRabs)) in
  F32.sqrt (F32.add (F32.mul xAbs xAbs) (F32.mul yAbs yAbs)).

(** The kinematics of a track propagated to the vertex, lines 221-225. *)
Definition trackPtAtPV (track : FwdTrack.t) : float :=
  F32.of_double (GlobalFwdTrack.getPt (propagateMuon ext track collision kToVertex)).

Definition trackEtaAtPV (track : FwdTrack.t) : float :=
  F32.of_double (GlobalFwdTrack.getEta (propagateMuon ext track collision kToVertex)).

Definition trackPhiAtPV (track : FwdTrack.t) : float :=
  bringTo02Pi ext (F32.of_double (GlobalFwdTrack.getPhi (propagateMuon ext track collision kToVertex))).

(** The transverse momentum of the refit, line 300: a total momentum [p]
    (a [double]) and a pseudorapidity [eta]. *)
Definition ptFromPAndEta (p : double) (eta : float) : float :=
  F32.of_double
    (F64.mul p
       (F64.of_float
          (std_sin ext (F32.mul (F32.of_int 2) (std_atan ext (std_exp ext (F32.neg eta))))))).
End Observables.

(** The three guards of lines 209-219. *)
Definition rejectedBeforePropagation (cfg : Configurables) (fwdtrack : FwdTrack.t) : bool :=
  ((FwdTrack.trackType fwdtrack =? static_cast_uint8 GlobalMuonTrack)
   && F32.ltb (maxMatchingChi2MCHMFT cfg) (FwdTrack.chi2MatchMCHMFT fwdtrack))
  || F32.ltb (FwdTrack.chi2MatchMCHMID fwdtrack) (F32.of_int 0)
  || F32.ltb (FwdTrack.chi2 fwdtrack) (F32.of_int 0).

(** ** The outcome of the candidate builder for one track *)

Section Outcome.
Variable cfg : Configurables.
Variable ext : Externals.
Variable collision : Collision.t.
Variable fwdtrack : FwdTrack.t.

Definition isGlobal : bool :=
  FwdTrack.trackType fwdtrack =? static_cast_uint8 GlobalMuonTrack.

Definition isStandalone : bool :=
  FwdTrack.trackType fwdtrack =? static_cast_uint8 MuonStandaloneTrack.

Definition mchtrackOf : FwdTrack.t := matchMCHTrack_as ext fwdtrack.
Definition mfttrackOf : MFTTrack.t := matchMFTTrack_as ext fwdtrack.

(** The number of degrees of freedom the chi2 is divided by. *)
Definition finalNdf : Z :=
  if isGlobal then ndf_mchmft_of mchtrackOf (MFTTrack.nClusters mfttrackOf) else 1.

Definition finalChi2PerNdf : float :=
  F32.div (FwdTrack.chi2 fwdtrack) (F32.of_int finalNdf).

(** The three cuts of lines 262, 267 and 280. *)
Definition cutRabs : bool :=
  F32.ltb (FwdTrack.rAtAbsorberEnd fwdtrack) (minRabsGL cfg)
  || F32.ltb (maxRabs cfg) (FwdTrack.rAtAbsorberEnd fwdtrack).

Definition cutDCAxy : bool :=
  F32.ltb (maxDCAxy cfg) (trackDcaXY ext collision fwdtrack).

Definition cutChi2 : bool := F32.ltb (maxChi2GL cfg) finalChi2PerNdf.

Definition earlyCut : bool := cutRabs || cutDCAxy || cutChi2.

(** The values that reach [isSelected] and the output row. *)
Definition finalEta : float :=
  if isGlobal && refitGlobalMuon cfg then MFTTrack.eta mfttrackOf
  else trackEtaAtPV ext collision fwdtrack.

Definition finalPhi : float :=
  if isGlobal && refitGlobalMuon cfg then bringTo02Pi ext (MFTTrack.phi mfttrackOf)
  else trackPhiAtPV ext collision fwdtrack.

Definition finalPt : float :=
  if isGlobal && refitGlobalMuon cfg then
    ptFromPAndEta ext
      (GlobalFwdTrack.getP (propagateMuon ext mchtrackOf collision kToVertex))
      (MFTTrack.eta mfttrackOf)
  else trackPtAtPV ext collision fwdtrack.

Definition finalPDCA : float :=
  if isGlobal then F32.mul (FwdTrack.p mchtrackOf) (trackDcaXY ext collision mchtrackOf)
  else F32.mul (FwdTrack.p fwdtrack) (trackDcaXY ext collision fwdtrack).

Definition finalRabs : float :=
  if isGlobal then FwdTrack.rAtAbsorberEnd fwdtrack else trackRabs ext collision fwdtrack.

Definition finalSelected : bool :=
  isSelected cfg finalPt finalEta finalRabs finalPDCA finalChi2PerNdf
    (FwdTrack.trackType fwdtrack) (trackDcaXY ext collision fwdtrack).

(** The track of the matched leg whose kinematics at the vertex are
    stored beside those of the candidate. *)
Definition matchedLeg : FwdTrack.t := if isGlobal then mchtrackOf else fwdtrack.

Definition finalRow (isAmbiguous : bool) : EMPrimaryMuon.t :=
  candidateRow collision fwdtrack isAmbiguous finalPt finalEta finalPhi
    (trackDcaX ext collision fwdtrack) (trackDcaY ext collision fwdtrack)
    (trackCXX ext collision fwdtrack) (trackCYY ext collision fwdtrack)
    (trackCXY ext collision fwdtrack)
    (trackPtAtPV ext collision matchedLeg) (trackEtaAtPV ext collision matchedLeg)
    (trackPhiAtPV ext collision matchedLeg)
    finalPDCA finalRabs
    (if isGlobal then MFTTrack.mftClusterSizesAndTrackFlags mfttrackOf else 0)
    (if isGlobal then MFTTrack.chi2 mfttrackOf else F32.of_int 0).

(** Whether [fillFwdTrackTable] writes a row for the track, and whether
    it would without the three early cuts. *)
Definition emits : bool :=
  negb (rejectedBeforePropagation cfg fwdtrack)
  && (if isGlobal then negb earlyCut && finalSelected
      else isStandalone && finalSelected).

Definition emits_withoutEarlyCuts : bool :=
  negb (rejectedBeforePropagation cfg fwdtrack)
  && (if isGlobal then finalSelected else isStandalone && finalSelected).

(** The calls to [propagateMuon] that [fillFwdTrackTable] makes. *)
Definition propagations : list (FwdTrack.t * Collision.t * propagationPoint) :=
  if rejectedBeforePropagation cfg fwdtrack then []
  else
    [(fwdtrack, collision, kToVertex); (fwdtrack, collision, kToDCA)]
    ++ (if isGlobal then
          if earlyCut then []
          else [(mchtrackOf, collision, kToVertex); (mchtrackOf, collision, kToDCA)]
        else if isStandalone then [(fwdtrack, collision, kToRabs)]
        else []).

(** The histograms filled for a track that is written out, when
    [fillQAHistograms] is set. *)
Definition finalHistograms : list (string * list double) :=
  let ptM := trackPtAtPV ext collision matchedLeg in
  let etaM := trackEtaAtPV ext collision matchedLeg in
  let phiM := trackPhiAtPV ext collision matchedLeg in
  ("hMuonType"%string, [F64.of_int (FwdTrack.trackType fwdtrack)])
  :: qaHistograms (if isGlobal then "MFTMCHMID/"%string else "MCHMID/"%string) fwdtrack
       finalPt finalEta finalPhi ptM etaM phiM
       (F32.div (F32.sub ptM finalPt) finalPt)
       (F32.sub etaM finalEta)
       (bringToPMPi ext (F32.sub phiM finalPhi))
       (if isGlobal then MFTTrack.nClusters mfttrackOf else 0)
       finalPDCA finalRabs
       (if isGlobal then finalChi2PerNdf else FwdTrack.chi2 fwdtrack)
       (if isGlobal then MFTTrack.chi2 mfttrackOf else F32.of_int 0)
       (trackDcaX ext collision fwdtrack) (trackDcaY ext collision fwdtrack)
       (trackCXX ext collision fwdtrack) (trackCYY ext collision fwdtrack)
       (trackCXY ext collision fwdtrack) (trackDcaXY ext collision fwdtrack)
       (trackDcaXYinSigma ext collision fwdtrack) (trackSigmaDcaXY ext collision fwdtrack).
End Outcome.

(** The two output tables hold, row by row, the candidate and the
    covariance of the same accepted (collision, track) pairs. *)
Definition rowsPaired (cfg : Configurables) (ext : Externals) (st : TaskState) : Prop :=
  exists accepted : list (Collision.t * FwdTrack.t * bool),
    emprimarymuons st
    = map (fun cta => finalRow cfg ext (fst (fst cta)) (snd (fst cta)) (snd cta)) accepted
    /\ emprimarymuonscov st
       = map (fun cta =>
                covarianceRow
                  (GlobalFwdTrack.getCovariances
                     (propagateMuon ext (snd (fst cta)) (fst (fst cta)) kToVertex)))
             accepted.

(** * A small world of tracks, for the examples *)

Definition exampleCollision : Collision.t :=
  {| Collision.globalIndex := 0;
     Collision.posX := F32.of_int 0;
     Collision.posY := F32.of_int 0;
     Collision.posZ := F32.of_int 0;
     Collision.isSelected := true;
     Collision.runNumber := 544123;
     Collision.swtaliastmp_raw := 1;
     Collision.has_mcCollision := true |}.

(** An MCH-MID track and an MFT track, and the global muon matched to
    them. *)
Definition exampleMCHMID : FwdTrack.t :=
  {| FwdTrack.globalIndex := 3;
     FwdTrack.collisionId := 0;
     FwdTrack.trackType := static_cast_uint8 MuonStandaloneTrack;
     FwdTrack.p := F32.of_int 9;
     FwdTrack.sign := 1;
     FwdTrack.nClusters := 10;
     FwdTrack.rAtAbsorberEnd := F32.of_int 30;
     FwdTrack.chi2 := F32.of_int 10;
     FwdTrack.chi2MatchMCHMID := F32.of_int 1;
     FwdTrack.chi2MatchMCHMFT := F32.of_int (-1);
     FwdTrack.matchMFTTrackId := -1;
     FwdTrack.matchMCHTrackId := -1;
     FwdTrack.mchBitMap := 1023;
     FwdTrack.midBitMap := 255;
     FwdTrack.midBoards := 0;
     FwdTrack.has_mcParticle := true |}.

Definition exampleMFT : MFTTrack.t :=
  {| MFTTrack.nClusters := 5;
     MFTTrack.mftClusterSizesAndTrackFlags := 4681;
     MFTTrack.chi2 := F32.of_int 4;
     MFTTrack.eta := F32.of_int (-3);
     MFTTrack.phi := F32.of_int 2 |}.

Definition exampleGlobal : FwdTrack.t :=
  {| FwdTrack.globalIndex := 7;
     FwdTrack.collisionId := 0;
     FwdTrack.trackType := static_cast_uint8 GlobalMuonTrack;
     FwdTrack.p := F32.of_int 11;
     FwdTrack.sign := 1;
     FwdTrack.nClusters := 15;
     FwdTrack.rAtAbsorberEnd := F32.of_int 30;
     FwdTrack.chi2 := F32.of_int 10;
     FwdTrack.chi2MatchMCHMID := F32.of_int 1;
     FwdTrack.chi2MatchMCHMFT := F32.of_int 20;
     FwdTrack.matchMFTTrackId := 2;
     FwdTrack.matchMCHTrackId := 3;
     FwdTrack.mchBitMap := 1023;
     FwdTrack.midBitMap := 255;
     FwdTrack.midBoards := 0;
     FwdTrack.has_mcParticle := true |}.

(** The same global muon with a matching chi2 of 60, above the default
    ceiling of 50. *)
Definition exampleBadMatch : FwdTrack.t :=
  {| FwdTrack.globalIndex := 8;
     FwdTrack.collisionId := 0;
     FwdTrack.trackType := static_cast_uint8 GlobalMuonTrack;
     FwdTrack.p := F32.of_int 11;
     FwdTrack.sign := 1;
     FwdTrack.nClusters := 15;
     FwdTrack.rAtAbsorberEnd := F32.of_int 30;
     FwdTrack.chi2 := F32.of_int 10;
     FwdTrack.chi2MatchMCHMID := F32.of_int 1;
     FwdTrack.chi2MatchMCHMFT := F32.of_int 60;
     FwdTrack.matchMFTTrackId := 2;
     FwdTrack.matchMCHTrackId := 3;
     FwdTrack.mchBitMap := 1023;
     FwdTrack.midBitMap := 255;
     FwdTrack.midBoards := 0;
     FwdTrack.has_mcParticle := true |}.

(** A propagation that puts a track at x = its index (in cm) on the DCA
    plane and at x = 30 at the end of the absorber, with a unit
    covariance of (x, y) scaled by [c]; the angle normalisations are the
    identity on the angles used, and the value taken for
    [sin(2 atan(exp(3)))] is 1/10. *)
Definition exampleExternals (c : Z) : Externals :=
  {| propagateMuon := fun track collision point =>
       {| GlobalFwdTrack.getPt := F64.of_int 1;
          GlobalFwdTrack.getEta := F64.of_int (-3);
          GlobalFwdTrack.getPhi := F64.of_int 1;
          GlobalFwdTrack.getP := F64.of_int 10;
          GlobalFwdTrack.getX :=
            match point with
            | kToRabs => F64.of_int 30
            | _ => F64.of_int (FwdTrack.globalIndex track)
            end;
          GlobalFwdTrack.getY := F64.of_int 0;
          GlobalFwdTrack.getSigma2X := F64.of_int c;
          GlobalFwdTrack.getSigma2Y := F64.of_int 1;
          GlobalFwdTrack.getSigmaXY := F64.of_int 0;
          GlobalFwdTrack.getCovariances := fun i j =>
            F64.of_int (Z.of_nat (i + j) + FwdTrack.globalIndex track) |};
     matchMCHTrack_as := fun _ => exampleMCHMID;
     matchMFTTrack_as := fun _ => exampleMFT;
     bringTo02Pi := fun x => x;
     bringToPMPi := fun x => x;
     fwdtrack_as := fun id => if id =? 7 then exampleGlobal else exampleMCHMID;
     std_sin := fun _ => F32.of_double (F64.dec 1 1);
     std_atan := fun x => x;
     std_exp := fun x => x |}.

Definition exampleQA : Configurables :=
  {| fillQAHistograms := true;
     minPt := minPt defaultConfigurables;
     maxPt := maxPt defaultConfigurables;
     minEtaSA := minEtaSA defaultConfigurables;
     maxEtaSA := maxEtaSA defaultConfigurables;
     minEtaGL := minEtaGL defaultConfigurables;
     maxEtaGL := maxEtaGL defaultConfigurables;
     minRabsGL := minRabsGL defaultConfigurables;
     minRabs := minRabs defaultConfigurables;
     midRabs := midRabs defaultConfigurables;
     maxRabs := maxRabs defaultConfigurables;
     maxDCAxy := maxDCAxy defaultConfigurables;
     maxPDCAforLargeR := maxPDCAforLargeR defaultConfigurables;
     maxPDCAforSmallR := maxPDCAforSmallR defaultConfigurables;
     maxMatchingChi2MCHMFT := maxMatchingChi2MCHMFT defaultConfigurables;
     maxChi2SA := maxChi2SA defaultConfigurables;
     maxChi2GL := maxChi2GL defaultConfigurables;
     refitGlobalMuon := false |}.

(** ** The vectors of indices of the self-association tasks *)

(** What one muon of the slice contributes to the vector of [muon] in
    [associateAmbiguousMuon]. *)
Definition ambiguousContribution (muon amb_muon : Z * EMPrimaryMuon.t) : list Z :=
  if fst amb_muon =? fst muon then [] else [to_int (fst amb_muon)].

(** What one muon of the slice contributes to the vector of the global
    muon [muon] in [associateSameMFT]. *)
Definition sameMFTContribution (muon global_muon : Z * EMPrimaryMuon.t) : list Z :=
  if fst global_muon =? fst muon then []
  else if EMPrimaryMuon.collisionId (snd global_muon) =? EMPrimaryMuon.collisionId (snd muon)
       then [to_int (fst global_muon)]
       else [].

(** A second collision, and a table of three candidates: the same
    global muon associated to the collisions 0 and 1, and a second global
    muon of collision 0 matched to the same MFT track. *)
Definition exampleCollision1 : Collision.t :=
  {| Collision.globalIndex := 1;
     Collision.posX := F32.of_int 0;
     Collision.posY := F32.of_int 0;
     Collision.posZ := F32.of_int 0;
     Collision.isSelected := true;
     Collision.runNumber := 544123;
     Collision.swtaliastmp_raw := 1;
     Collision.has_mcCollision := true |}.

Definition exampleMuons : list EMPrimaryMuon.t :=
  [ finalRow defaultConfigurables (exampleExternals 1) exampleCollision exampleGlobal true;
    finalRow defaultConfigurables (exampleExternals 1) exampleCollision1 exampleGlobal true;
    finalRow defaultConfigurables (exampleExternals 1) exampleCollision exampleBadMatch false ].

(** * Definitions for the further properties *)

(** The names, below their directory, and the numbers of values of the
    fills of [qaHistograms], lines 353-374 and 376-397. *)
Definition qaShape : list (string * nat) :=
  [ ("hPt", 1); ("hEtaPhi", 2); ("hEtaPhi_MatchedMCHMID", 2); ("hDeltaPt_Pt", 2);
    ("hDeltaEta_Pt", 2); ("hDeltaPhi_Pt", 2); ("hSign", 1); ("hNclusters", 1);
    ("hNclustersMFT", 1); ("hPDCA_Rabs", 2); ("hRatAbsorberEnd", 1); ("hChi2", 1);
    ("hChi2MFT", 1); ("hChi2MatchMCHMID", 1); ("hChi2MatchMCHMFT", 1); ("hDCAxy2D", 2);
    ("hDCAxy2DinSigma", 2); ("hDCAxy", 1); ("hDCAxyinSigma", 1);
    ("hDCAxResolutionvsPt", 2); ("hDCAyResolutionvsPt", 2);
    ("hDCAxyResolutionvsPt", 2) ]%string%nat.

(** The name of a fill and the number of its values. *)
Definition fillShape (f : string * list double) : string * nat :=
  (fst f, List.length (snd f)).

(** Every fill of [fs], given by name and number of values, is of a
    histogram of [booked] with that many dimensions. *)
Definition fills_booked (booked : list (string * HistType)) (fs : list (string * nat)) : bool :=
  forallb (fun f =>
             match find (fun h => String.eqb (fst h) (fst f)) booked with
             | Some h => Nat.eqb (dimension (snd h)) (snd f)
             | None => false
             end) fs.

(** The sums of two cluster counts of type [int8_t]. *)
Definition int8_sums : list Z := map (fun k => Z.of_nat k - 256) (seq 0 511).

(** The computation of line 275 on a sum [s] of cluster counts gives
    [2 * s - 5], which converts to a finite number that is not a zero. *)
Definition ndf_exact_at (s : Z) : bool :=
  (IEEE.trunc (F32.sub (F32.mul (F32.of_int 2) (F32.of_int s)) (F32.of_int 5)) =? 2 * s - 5)
  && match F32.of_int (2 * s - 5) with
     | S754_finite _ _ _ => true
     | _ => false
     end.

(** Two states with the same tables, the same histogram fills and the
    same calls to the propagation: they may differ by the run number. *)
Definition sameOutput (a b : TaskState) : Prop :=
  emprimarymuons a = emprimarymuons b
  /\ emprimarymuonscov a = emprimarymuonscov b
  /\ fRegistry a = fRegistry b
  /\ propagateMuonCalls a = propagateMuonCalls b.

(** The row comes from a track of the table assigned to a selected
    collision of the table, and says so. *)
Definition fromOwnCollision (collisions : list Collision.t) (fwdtracks : list FwdTrack.t)
    (row : EMPrimaryMuon.t) : Prop :=
  EMPrimaryMuon.isAmbiguous row = false
  /\ EMPrimaryMuon.isAssociatedToMPC row = true
  /\ exists collision fwdtrack,
       In collision collisions /\ Collision.isSelected collision = true
       /\ In fwdtrack fwdtracks
       /\ FwdTrack.collisionId fwdtrack = Collision.globalIndex collision
       /\ EMPrimaryMuon.collisionId row = Collision.globalIndex collision
       /\ EMPrimaryMuon.fwdtrackId row = FwdTrack.globalIndex fwdtrack
       /\ EMPrimaryMuon.trackType row = FwdTrack.trackType fwdtrack.

(** The row comes from a row of the associator for a selected collision
    of the table; it is flagged ambiguous when its track is in the table
    of tracks and more than one row of the associator points to it. *)
Definition fromAssociation (ext : Externals) (collisions : list Collision.t)
    (fwdtracks : list FwdTrack.t) (fwdtrackIndices : list FwdTrackAssoc.t)
    (row : EMPrimaryMuon.t) : Prop :=
  exists fwdtrackId collision,
    In fwdtrackId fwdtrackIndices
    /\ In collision collisions /\ Collision.isSelected collision = true
    /\ FwdTrackAssoc.collisionId fwdtrackId = Collision.globalIndex collision
    /\ EMPrimaryMuon.collisionId row = Collision.globalIndex collision
    /\ EMPrimaryMuon.fwdtrackId row = FwdTrackAssoc.fwdtrackId fwdtrackId
    /\ EMPrimaryMuon.isAmbiguous row
       = existsb (fun t => FwdTrack.globalIndex t =? FwdTrackAssoc.fwdtrackId fwdtrackId)
                 fwdtracks
         && (1 <? List.length
                    (filter (fun a => (FwdTrackAssoc.fwdtrackId a
                                       =? FwdTrackAssoc.fwdtrackId fwdtrackId)%Z)
                            fwdtrackIndices))%nat
    /\ (EMPrimaryMuon.isAssociatedToMPC row = true <->
        FwdTrack.collisionId (fwdtrack_as ext (FwdTrackAssoc.fwdtrackId fwdtrackId))
        = Collision.globalIndex collision).

(** An associator for the example tracks: the global muon 7 is
    compatible with the collisions 0 and 1, the MCH-MID track 3 with the
    collision 0. *)
Definition exampleAssociations : list FwdTrackAssoc.t :=
  [ {| FwdTrackAssoc.collisionId := 0; FwdTrackAssoc.fwdtrackId := 7 |};
    {| FwdTrackAssoc.collisionId := 0; FwdTrackAssoc.fwdtrackId := 3 |};
    {| FwdTrackAssoc.collisionId := 1; FwdTrackAssoc.fwdtrackId := 7 |} ].

(** The rows that [processRec_SA] writes for one collision: those of the
    muon tracks assigned to it, in the order of the table of tracks. *)
Definition rowsOfCollision (cfg : Configurables) (ext : Externals)
    (fwdtracks : list FwdTrack.t) (collision : Collision.t) : list EMPrimaryMuon.t :=
  if Collision.isSelected collision then
    flat_map (fun fwdtrack =>
                if isMuonType fwdtrack && emits cfg ext collision fwdtrack
                then [finalRow cfg ext collision fwdtrack false]
                else [])
             (filter (fun t => FwdTrack.collisionId t =? Collision.globalIndex collision)
                     fwdtracks)
  else [].

(** ** The refit read as taking everything from one track *)

(** The refit as a reading of it with a single sub-segment: a track [s]
    of the global muon, given by [subSegment], whose pseudorapidity
    [etaOf s], azimuth [phiOf s] and total momentum [pOf s] give the eta,
    the phi (brought to [0, 2 pi)) and, through
    pt = p * sin(2 * atan(exp(-eta))), the pt of every written global
    muon when [refitGlobalMuon] is set. *)
Definition refitFromOneTrack {S : Type}
    (subSegment : Externals -> Collision.t -> FwdTrack.t -> S)
    (etaOf phiOf : S -> float) (pOf : S -> double) : Prop :=
  forall cfg ext collision fwdtrack isAmbiguous st row,
    emprimarymuons (fillFwdTrackTable cfg ext collision fwdtrack isAmbiguous st)
    = emprimarymuons st ++ [row] ->
    FwdTrack.trackType fwdtrack = static_cast_uint8 GlobalMuonTrack ->
    refitGlobalMuon cfg = true ->
    EMPrimaryMuon.eta row = etaOf (subSegment ext collision fwdtrack)
    /\ EMPrimaryMuon.phi row = bringTo02Pi ext (phiOf (subSegment ext collision fwdtrack))
    /\ EMPrimaryMuon.pt row
       = ptFromPAndEta ext (pOf (subSegment ext collision fwdtrack))
           (etaOf (subSegment ext collision fwdtrack)).

(** The matched MFT track of a global muon, and its matched MCH-MID
    track together with the propagation of that track to the vertex. *)
Definition mftSubSegment (ext : Externals) (collision : Collision.t) (fwdtrack : FwdTrack.t)
    : MFTTrack.t :=
  matchMFTTrack_as ext fwdtrack.

Definition mchmidSubSegment (ext : Externals) (collision : Collision.t) (fwdtrack : FwdTrack.t)
    : FwdTrack.t * GlobalFwdTrack.t :=
  (matchMCHTrack_as ext fwdtrack,
   propagateMuon ext (matchMCHTrack_as ext fwdtrack) collision kToVertex).

(** An MFT track like [exampleMFT] at eta = -3.5. *)
Definition exampleSteepMFT : MFTTrack.t :=
  {| MFTTrack.nClusters := 5;
     MFTTrack.mftClusterSizesAndTrackFlags := 4681;
     MFTTrack.chi2 := F32.of_int 4;
     MFTTrack.eta := F32.div (F32.of_int (-7)) (F32.of_int 2);
     MFTTrack.phi := F32.of_int 2 |}.

(** The world of [exampleExternals 1] where the global muons are matched
    to the MFT track [mfttrack] and the MCH-MID track (of index 3) is
    propagated to a total momentum of [pMatched]. *)
Definition refitExternals (mfttrack : MFTTrack.t) (pMatched : Z) : Externals :=
  {| propagateMuon := fun track collision point =>
       {| GlobalFwdTrack.getPt := F64.of_int 1;
          GlobalFwdTrack.getEta := F64.of_int (-3);
          GlobalFwdTrack.getPhi := F64.of_int 1;
          GlobalFwdTrack.getP :=
            if FwdTrack.globalIndex track =? 3 then F64.of_int pMatched else F64.of_int 10;
          GlobalFwdTrack.getX :=
            match point with
            | kToRabs => F64.of_int 30
            | _ => F64.of_int (FwdTrack.globalIndex track)
            end;
          GlobalFwdTrack.getY := F64.of_int 0;
          GlobalFwdTrack.getSigma2X := F64.of_int 1;
          GlobalFwdTrack.getSigma2Y := F64.of_int 1;
          GlobalFwdTrack.getSigmaXY := F64.of_int 0;
          GlobalFwdTrack.getCovariances := fun i j =>
            F64.of_int (Z.of_nat (i + j) + FwdTrack.globalIndex track) |};
     matchMCHTrack_as := fun _ => exampleMCHMID;
     matchMFTTrack_as := fun _ => mfttrack;
     bringTo02Pi := fun x => x;
     bringToPMPi := fun x => x;
     fwdtrack_as := fun id => if id =? 7 then exampleGlobal else exampleMCHMID;
     std_sin := fun _ => F32.of_double (F64.dec 1 1);
     std_atan := fun x => x;
     std_exp := fun x => x |}.

(** ** A table with vectors of more than one index *)

Definition exampleCollision2 : Collision.t :=
  {| Collision.globalIndex := 2;
     Collision.posX := F32.of_int 0;
     Collision.posY := F32.of_int 0;
     Collision.posZ := F32.of_int 0;
     Collision.isSelected := true;
     Collision.runNumber := 544123;
     Collision.swtaliastmp_raw := 1;
     Collision.has_mcCollision := true |}.

(** The global muon [exampleGlobal] under another index: another match
    of the same MCH-MID track to the same MFT track. *)
Definition exampleGlobalAt (globalIndex : Z) : FwdTrack.t :=
  {| FwdTrack.globalIndex := globalIndex;
     FwdTrack.collisionId := 0;
     FwdTrack.trackType := static_cast_uint8 GlobalMuonTrack;
     FwdTrack.p := F32.of_int 11;
     FwdTrack.sign := 1;
     FwdTrack.nClusters := 15;
     FwdTrack.rAtAbsorberEnd := F32.of_int 30;
     FwdTrack.chi2 := F32.of_int 10;
     FwdTrack.chi2MatchMCHMID := F32.of_int 1;
     FwdTrack.chi2MatchMCHMFT := F32.of_int 20;
     FwdTrack.matchMFTTrackId := 2;
     FwdTrack.matchMCHTrackId := 3;
     FwdTrack.mchBitMap := 1023;
     FwdTrack.midBitMap := 255;
     FwdTrack.midBoards := 0;
     FwdTrack.has_mcParticle := true |}.

(** Five candidates: the global muons 7, 9 and 10 of the collision 0,
    matched to the same MFT track, and the global muon 7 associated to
    the collisions 1 and 2 as well. *)
Definition exampleSharedMuons : list EMPrimaryMuon.t :=
  [ finalRow defaultConfigurables (exampleExternals 1) exampleCollision exampleGlobal true;
    finalRow defaultConfigurables (exampleExternals 1) exampleCollision (exampleGlobalAt 9) false;
    finalRow defaultConfigurables (exampleExternals 1) exampleCollision (exampleGlobalAt 10) false;
    finalRow defaultConfigurables (exampleExternals 1) exampleCollision1 exampleGlobal true;
    finalRow defaultConfigurables (exampleExternals 1) exampleCollision2 exampleGlobal true ].
(** * Properties *)

(** ** Comparisons of floating-point numbers *)

Lemma SFcompare_antisym (x y : spec_float) :
  SFcompare y x = option_map CompOpp (SFcompare x y).
Proof.
  destruct x as [sx|sx| |sx mx ex], y as [sy|sy| |sy my ey]; simpl;
    try reflexivity;
    try (destruct sx; reflexivity);
    try (destruct sy; reflexivity);
    try (destruct sx, sy; reflexivity).
  destruct sx, sy; try reflexivity;
    rewrite (Z.compare_antisym ex ey);
    destruct (ex ?= ey)%Z; simpl; try reflexivity;
    rewrite (Pos.compare_cont_antisym mx my Eq); simpl;
    destruct (Pos.compare_cont Eq mx my); reflexivity.
Qed.

Lemma SFcompare_number (x y : spec_float) :
  is_number x = true -> is_number y = true -> SFcompare x y <> None.
Proof.
  unfold is_number.
  destruct x as [sx|sx| |sx mx ex], y as [sy|sy| |sy my ey]; simpl;
    intros Hx Hy; try discriminate; intros H; discriminate H.
Qed.

(** Between numbers, [x < y] is the negation of [y <= x]. *)
Lemma ltb_negb_leb (x y : float) :
  is_number x = true -> is_number y = true ->
  F32.ltb x y = negb (F32.leb y x).
Proof.
  intros Hx Hy. unfold F32.ltb, F32.leb, SFltb, SFleb.
  rewrite (SFcompare_antisym x y).
  pose proof (SFcompare_number x y Hx Hy) as H.
  destruct (SFcompare x y) as [[]|]; simpl; congruence.
Qed.

(** A comparison with a NaN is false. *)
Lemma ltb_nan_l (y : float) : F32.ltb S754_nan y = false.
Proof. reflexivity. Qed.

Lemma ltb_nan_r (x : float) : F32.ltb x S754_nan = false.
Proof. destruct x; reflexivity. Qed.

(** ** The acceptance predicate as a conjunction *)

Section SelectionProofs.
Variable cfg : Configurables.
Local Open Scope f32_scope.

Lemma isSelected_conjunction pt eta r pDCA chi2_per_ndf trackType dcaXY :
  isSelected cfg pt eta r pDCA chi2_per_ndf trackType dcaXY =
  notOutside (minPt cfg) (maxPt cfg) pt
  && notOutside (minRabs cfg) (maxRabs cfg) r
  && negb (if r <? midRabs cfg then maxPDCAforSmallR cfg <? pDCA
           else maxPDCAforLargeR cfg <? pDCA)
  && (if (trackType =? static_cast_uint8 GlobalMuonTrack)%Z then
        notOutside (minEtaGL cfg) (maxEtaGL cfg) eta
        && negb (maxDCAxy cfg <? dcaXY)
        && negb (maxChi2GL cfg <? chi2_per_ndf)
        && notOutside (minRabsGL cfg) (maxRabs cfg) r
      else if (trackType =? static_cast_uint8 MuonStandaloneTrack)%Z then
        notOutside (minEtaSA cfg) (maxEtaSA cfg) eta
        && negb (maxChi2SA cfg <? chi2_per_ndf)
      else false).
Proof.
  unfold isSelected, notOutside.
  repeat match goal with
         | |- context [F32.ltb ?a ?b] => destruct (F32.ltb a b); simpl; try reflexivity
         | |- context [Z.eqb ?a ?b] => destruct (Z.eqb a b); simpl; try reflexivity
         end.
Qed.

Lemma notOutside_inRange lo hi x :
  is_number lo = true -> is_number hi = true -> is_number x = true ->
  notOutside lo hi x = inRange lo hi x.
Proof.
  intros Hlo Hhi Hx. unfold notOutside, inRange.
  rewrite (ltb_negb_leb x lo Hx Hlo), (ltb_negb_leb hi x Hhi Hx), !negb_involutive.
  reflexivity.
Qed.
End SelectionProofs.

(** A standalone muon with pt = 0.15, below minPt = 0.2, is refused; with
    pt = 0.25 and the same other metrics it is accepted. *)
Example isSelected_standalone_pt :
  isSelected defaultConfigurables (F32.of_double (F64.dec 15 2)) (F32.of_int (-3))
    (F32.of_int 30) (F32.of_int 100) (F32.of_int 1)
    (static_cast_uint8 MuonStandaloneTrack) (F32.of_int 0) = false
  /\ isSelected defaultConfigurables (F32.of_double (F64.dec 25 2)) (F32.of_int (-3))
       (F32.of_int 30) (F32.of_int 100) (F32.of_int 1)
       (static_cast_uint8 MuonStandaloneTrack) (F32.of_int 0) = true.
Proof. vm_compute. split; reflexivity. Qed.

(** A global muon inside every cut of the default configuration, except
    that its transverse momentum is not a number: no test of
    [isSelected] rejects it, while it lies in no interval. *)
Lemma isSelected_nan_pt_accepted :
  ~ (forall cfg pt eta rAtAbsorberEnd pDCA chi2_per_ndf trackType dcaXY,
        isSelected cfg pt eta rAtAbsorberEnd pDCA chi2_per_ndf trackType dcaXY = true <->
        accept_spec cfg pt eta rAtAbsorberEnd pDCA chi2_per_ndf trackType dcaXY = true).
Proof.
  intros H.
  specialize (H defaultConfigurables S754_nan (F32.of_int (-3)) (F32.of_int 30)
                (F32.of_int 100) (F32.of_int 1) (static_cast_uint8 GlobalMuonTrack)
                (F32.of_int 0)).
  destruct H as [H _].
  assert (E : accept_spec defaultConfigurables S754_nan (F32.of_int (-3)) (F32.of_int 30)
                (F32.of_int 100) (F32.of_int 1) (static_cast_uint8 GlobalMuonTrack)
                (F32.of_int 0) = false) by (vm_compute; reflexivity).
  rewrite E in H. discriminate H. vm_compute; reflexivity.
Qed.

(** C1 (amended): when the thresholds and the arguments are numbers (no
    NaN among them), [isSelected] is the conjunction of the
    specification: pt in [minPt, maxPt], rAtAbsorberEnd in [minRabs,
    maxRabs], pDCA at most maxPDCAforSmallR below midRabs and at most
    maxPDCAforLargeR otherwise, and the cuts of the category; it is a
    boolean conjunction, so the order of evaluation does not matter.
    For a category other than GlobalMuonTrack and MuonStandaloneTrack it
    is false whatever the values. *)
Theorem isSelected_is_conjunction
    (cfg : Configurables) (pt eta rAtAbsorberEnd pDCA chi2_per_ndf : float)
    (trackType : Z) (dcaXY : float) :
  (thresholds_are_numbers cfg = true ->
   forallb is_number [pt; eta; rAtAbsorberEnd; pDCA; chi2_per_ndf; dcaXY] = true ->
   isSelected cfg pt eta rAtAbsorberEnd pDCA chi2_per_ndf trackType dcaXY
   = accept_spec cfg pt eta rAtAbsorberEnd pDCA chi2_per_ndf trackType dcaXY)
  /\ (trackType <> static_cast_uint8 GlobalMuonTrack ->
      trackType <> static_cast_uint8 MuonStandaloneTrack ->
      isSelected cfg pt eta rAtAbsorberEnd pDCA chi2_per_ndf trackType dcaXY = false).
Proof.
  split.
  - intros Hc Ha. unfold thresholds_are_numbers in Hc. simpl in Hc, Ha.
    repeat match goal with
           | H : _ && _ = true |- _ => apply andb_prop in H; destruct H
           end.
    rewrite isSelected_conjunction. unfold accept_spec.
    rewrite !notOutside_inRange by assumption.
    rewrite !ltb_negb_leb by assumption.
    rewrite !negb_involutive.
    destruct (F32.leb (midRabs cfg) rAtAbsorberEnd); simpl; rewrite ?negb_involutive;
      reflexivity.
  - intros Hg Hs. rewrite isSelected_conjunction.
    apply Z.eqb_neq in Hg, Hs. rewrite Hg, Hs.
    rewrite andb_false_r. reflexivity.
Qed.

Lemma isSelected_is_conjunction_witness :
  isSelected defaultConfigurables (F32.of_int 1) (F32.of_int (-3)) (F32.of_int 30)
    (F32.of_int 100) (F32.of_int 1) (static_cast_uint8 GlobalMuonTrack) (F32.of_int 0)
  = accept_spec defaultConfigurables (F32.of_int 1) (F32.of_int (-3)) (F32.of_int 30)
      (F32.of_int 100) (F32.of_int 1) (static_cast_uint8 GlobalMuonTrack) (F32.of_int 0)
  /\ isSelected defaultConfigurables (F32.of_int 1) (F32.of_int (-3)) (F32.of_int 30)
       (F32.of_int 100) (F32.of_int 1) (static_cast_uint8 MCHStandaloneTrack) (F32.of_int 0)
     = false.
Proof.
  split.
  - apply (proj1 (isSelected_is_conjunction defaultConfigurables (F32.of_int 1)
                    (F32.of_int (-3)) (F32.of_int 30) (F32.of_int 100) (F32.of_int 1)
                    (static_cast_uint8 GlobalMuonTrack) (F32.of_int 0)));
      vm_compute; reflexivity.
  - apply (proj2 (isSelected_is_conjunction defaultConfigurables (F32.of_int 1)
                    (F32.of_int (-3)) (F32.of_int 30) (F32.of_int 100) (F32.of_int 1)
                    (static_cast_uint8 MCHStandaloneTrack) (F32.of_int 0)));
      vm_compute; discriminate.
Defined.

(** ** Signs through rounding and division *)

Lemma binary_round_aux_opp prec emax s m e l :
  binary_round_aux prec emax (negb s) m e l = SFopp (binary_round_aux prec emax s m e l).
Proof.
  unfold binary_round_aux.
  destruct (shr_fexp prec emax m e l) as [mrs' e'].
  destruct (shr_fexp prec emax _ e' loc_Exact) as [mrs'' e''].
  destruct (shr_m mrs''); [reflexivity | | reflexivity].
  destruct (e'' <=? emax - prec)%Z; reflexivity.
Qed.

Lemma sign_clear_binary_round_aux prec emax m e l :
  sign_clear (binary_round_aux prec emax false m e l) = true.
Proof.
  unfold binary_round_aux.
  destruct (shr_fexp prec emax m e l) as [mrs' e'].
  destruct (shr_fexp prec emax _ e' loc_Exact) as [mrs'' e''].
  destruct (shr_m mrs''); [reflexivity | | reflexivity].
  destruct (e'' <=? emax - prec)%Z; reflexivity.
Qed.

Lemma SFdiv_opp_l prec emax x y :
  SFdiv prec emax (SFopp x) y = SFopp (SFdiv prec emax x y).
Proof.
  destruct x as [sx|sx| |sx mx ex], y as [sy|sy| |sy my ey]; simpl;
    rewrite <- ?negb_xorb_l; try reflexivity.
  destruct (SFdiv_core_binary prec emax (Z.pos mx) ex (Z.pos my) ey) as [[mz ez] lz].
  apply binary_round_aux_opp.
Qed.

Lemma sign_clear_SFdiv prec emax x y :
  sign_clear x = true -> sign_clear y = true -> sign_clear (SFdiv prec emax x y) = true.
Proof.
  destruct x as [sx|sx| |sx mx ex], y as [sy|sy| |sy my ey]; simpl;
    intros Hx Hy; try reflexivity;
    try (apply negb_true_iff in Hx); try (apply negb_true_iff in Hy); subst;
    try reflexivity.
  destruct (SFdiv_core_binary prec emax (Z.pos mx) ex (Z.pos my) ey) as [[mz ez] lz].
  apply sign_clear_binary_round_aux.
Qed.

Lemma SFabs_sign_clear x : sign_clear x = true -> SFabs x = x.
Proof.
  destruct x as [s|s| |s m e]; simpl; intros H; try reflexivity;
    apply negb_true_iff in H; subst; reflexivity.
Qed.

Lemma SFabs_opp x : SFabs (SFopp x) = SFabs x.
Proof. destruct x; reflexivity. Qed.

Lemma sign_clear_opp x : sign_clear x = false -> sign_clear (SFopp x) = true.
Proof.
  destruct x as [s|s| |s m e]; simpl; intros H; try discriminate;
    apply negb_false_iff in H; subst; reflexivity.
Qed.

Lemma SFopp_involutive x : SFopp (SFopp x) = x.
Proof. destruct x; simpl; rewrite ?negb_involutive; reflexivity. Qed.

Lemma SFabs_div_div_clear prec emax a d t :
  sign_clear a = true -> sign_clear d = true -> sign_clear t = true ->
  SFabs (SFdiv prec emax (SFdiv prec emax a d) t)
  = SFdiv prec emax (SFdiv prec emax a d) t.
Proof.
  intros Ha Hd Ht. apply SFabs_sign_clear.
  apply sign_clear_SFdiv; [|exact Ht]. apply sign_clear_SFdiv; assumption.
Qed.

(** Dividing by values of clear sign commutes with the absolute value. *)
Lemma SFabs_div_div prec emax a d t :
  sign_clear d = true -> sign_clear t = true ->
  SFabs (SFdiv prec emax (SFdiv prec emax a d) t)
  = SFdiv prec emax (SFdiv prec emax (SFabs a) d) t.
Proof.
  intros Hd Ht. destruct (sign_clear a) eqn:Ha.
  - rewrite (SFabs_sign_clear a Ha). apply SFabs_div_div_clear; assumption.
  - pose proof (sign_clear_opp a Ha) as Ha'.
    assert (E : a = SFopp (SFopp a)) by (symmetry; apply SFopp_involutive).
    revert E Ha'. generalize (SFopp a). intros a' E Ha'. subst a.
    rewrite SFabs_opp, (SFabs_sign_clear a' Ha').
    rewrite (SFdiv_opp_l prec emax a' d), (SFdiv_opp_l prec emax _ t), SFabs_opp.
    apply SFabs_div_div_clear; assumption.
Qed.

(** A value that is not below zero and is not the negative zero has a
    clear sign. *)
Lemma not_below_zero_sign_clear (x : float) :
  F32.ltb x (F32.of_int 0) = false -> x <> S754_zero true -> sign_clear x = true.
Proof.
  destruct x as [[]|[]| |[] m e]; simpl; intros H N;
    try reflexivity; try discriminate H. congruence.
Qed.

(** ** The DCA significance *)

Lemma dcaXYinSigma_below_zero dcaX dcaY cXX cYY cXY :
  F32.ltb (determinant cXX cYY cXY) (F32.of_int 0) = true ->
  dcaXYinSigma dcaX dcaY cXX cYY cXY = F32.of_int 999.
Proof. intros H. unfold dcaXYinSigma. rewrite H. reflexivity. Qed.

Lemma dcaXYinSigma_not_below_zero dcaX dcaY cXX cYY cXY :
  F32.ltb (determinant cXX cYY cXY) (F32.of_int 0) = false ->
  dcaXYinSigma dcaX dcaY cXX cYY cXY
  = F32.sqrt (F32.fabs (F32.div (F32.div (significanceNumerator dcaX dcaY cXX cYY cXY)
                                         (determinant cXX cYY cXY))
                                (F32.of_int 2))).
Proof. intros H. unfold dcaXYinSigma. rewrite H. reflexivity. Qed.

Lemma dcaXYinSigma_eq_spec dcaX dcaY cXX cYY cXY :
  determinant cXX cYY cXY <> S754_zero true ->
  dcaXYinSigma dcaX dcaY cXX cYY cXY = dcaXYinSigma_spec dcaX dcaY cXX cYY cXY.
Proof.
  intros N. unfold dcaXYinSigma, dcaXYinSigma_spec.
  destruct (F32.ltb (determinant cXX cYY cXY) (F32.of_int 0)) eqn:L; [reflexivity|].
  f_equal. unfold F32.fabs, F32.div.
  apply SFabs_div_div; [|reflexivity].
  apply not_below_zero_sign_clear; assumption.
Qed.

(** ** The candidate builder: what each step does to the state *)

Lemma fills_emprimarymuons hs st : emprimarymuons (fills hs st) = emprimarymuons st.
Proof. revert st. induction hs as [|h hs IH]; intros st; simpl; [|rewrite IH]; reflexivity. Qed.

Lemma fills_emprimarymuonscov hs st : emprimarymuonscov (fills hs st) = emprimarymuonscov st.
Proof. revert st. induction hs as [|h hs IH]; intros st; simpl; [|rewrite IH]; reflexivity. Qed.

Lemma fills_propagateMuonCalls hs st : propagateMuonCalls (fills hs st) = propagateMuonCalls st.
Proof. revert st. induction hs as [|h hs IH]; intros st; simpl; [|rewrite IH]; reflexivity. Qed.

Lemma fills_fRegistry hs st : fRegistry (fills hs st) = fRegistry st ++ hs.
Proof.
  revert st. induction hs as [|h hs IH]; intros st; simpl.
  - rewrite app_nil_r. reflexivity.
  - rewrite IH. simpl. rewrite <- app_assoc. destruct h. reflexivity.
Qed.

Section BuilderSteps.
Variable cfg : Configurables.
Variable ext : Externals.

Lemma selectAndFill_emprimarymuons collision fwdtrack isAmbiguous propmuonAtPV
    pt eta phi dcaX dcaY dcaXY cXX cYY cXY sig sigma ptM etaM phiM pDCA rAbs nMFT flags chi2mft ndf st :
  emprimarymuons
    (selectAndFill cfg ext collision fwdtrack isAmbiguous propmuonAtPV pt eta phi dcaX dcaY
       dcaXY cXX cYY cXY sig sigma ptM etaM phiM pDCA rAbs nMFT flags chi2mft ndf st)
  = emprimarymuons st ++
    (if isSelected cfg pt eta rAbs pDCA (F32.div (FwdTrack.chi2 fwdtrack) (F32.of_int ndf))
          (FwdTrack.trackType fwdtrack) dcaXY
     then [candidateRow collision fwdtrack isAmbiguous pt eta phi dcaX dcaY cXX cYY cXY
             ptM etaM phiM pDCA rAbs flags chi2mft]
     else []).
Proof.
  unfold selectAndFill.
  destruct (isSelected cfg pt eta rAbs pDCA _ _ dcaXY); simpl.
  - repeat match goal with
           | |- context [if ?c then _ else _] => destruct c
           end; rewrite ?fills_emprimarymuons; reflexivity.
  - rewrite app_nil_r. reflexivity.
Qed.

Lemma selectAndFill_emprimarymuonscov collision fwdtrack isAmbiguous propmuonAtPV
    pt eta phi dcaX dcaY dcaXY cXX cYY cXY sig sigma ptM etaM phiM pDCA rAbs nMFT flags chi2mft ndf st :
  emprimarymuonscov
    (selectAndFill cfg ext collision fwdtrack isAmbiguous propmuonAtPV pt eta phi dcaX dcaY
       dcaXY cXX cYY cXY sig sigma ptM etaM phiM pDCA rAbs nMFT flags chi2mft ndf st)
  = emprimarymuonscov st ++
    (if isSelected cfg pt eta rAbs pDCA (F32.div (FwdTrack.chi2 fwdtrack) (F32.of_int ndf))
          (FwdTrack.trackType fwdtrack) dcaXY
     then [covarianceRow (GlobalFwdTrack.getCovariances propmuonAtPV)]
     else []).
Proof.
  unfold selectAndFill.
  destruct (isSelected cfg pt eta rAbs pDCA _ _ dcaXY); simpl.
  - repeat match goal with
           | |- context [if ?c then _ else _] => destruct c
           end; rewrite ?fills_emprimarymuonscov; reflexivity.
  - rewrite app_nil_r. reflexivity.
Qed.

Lemma selectAndFill_propagateMuonCalls collision fwdtrack isAmbiguous propmuonAtPV
    pt eta phi dcaX dcaY dcaXY cXX cYY cXY sig sigma ptM etaM phiM pDCA rAbs nMFT flags chi2mft ndf st :
  propagateMuonCalls
    (selectAndFill cfg ext collision fwdtrack isAmbiguous propmuonAtPV pt eta phi dcaX dcaY
       dcaXY cXX cYY cXY sig sigma ptM etaM phiM pDCA rAbs nMFT flags chi2mft ndf st)
  = propagateMuonCalls st.
Proof.
  unfold selectAndFill.
  repeat match goal with
         | |- context [if ?c then _ else _] => destruct c
         end; simpl; rewrite ?fills_propagateMuonCalls; reflexivity.
Qed.

Lemma selectAndFill_fRegistry collision fwdtrack isAmbiguous propmuonAtPV
    pt eta phi dcaX dcaY dcaXY cXX cYY cXY sig sigma ptM etaM phiM pDCA rAbs nMFT flags chi2mft ndf st :
  fRegistry
    (selectAndFill cfg ext collision fwdtrack isAmbiguous propmuonAtPV pt eta phi dcaX dcaY
       dcaXY cXX cYY cXY sig sigma ptM etaM phiM pDCA rAbs nMFT flags chi2mft ndf st)
  = fRegistry st ++
    (if isSelected cfg pt eta rAbs pDCA (F32.div (FwdTrack.chi2 fwdtrack) (F32.of_int ndf))
          (FwdTrack.trackType fwdtrack) dcaXY
        && fillQAHistograms cfg
     then
       ("hMuonType"%string, [F64.of_int (FwdTrack.trackType fwdtrack)])
       :: (if FwdTrack.trackType fwdtrack =? static_cast_uint8 GlobalMuonTrack then
             qaHistograms "MFTMCHMID/" fwdtrack pt eta phi ptM etaM phiM
               (F32.div (F32.sub ptM pt) pt) (F32.sub etaM eta)
               (bringToPMPi ext (F32.sub phiM phi)) nMFT pDCA rAbs
               (F32.div (FwdTrack.chi2 fwdtrack) (F32.of_int ndf)) chi2mft
               dcaX dcaY cXX cYY cXY dcaXY sig sigma
           else if FwdTrack.trackType fwdtrack =? static_cast_uint8 MuonStandaloneTrack then
             qaHistograms "MCHMID/" fwdtrack pt eta phi ptM etaM phiM
               (F32.div (F32.sub ptM pt) pt) (F32.sub etaM eta)
               (bringToPMPi ext (F32.sub phiM phi)) nMFT pDCA rAbs
               (FwdTrack.chi2 fwdtrack) chi2mft
               dcaX dcaY cXX cYY cXY dcaXY sig sigma
           else [])
     else []).
Proof.
  unfold selectAndFill.
  destruct (isSelected cfg pt eta rAbs pDCA _ _ dcaXY); cbn [negb andb];
    [|now rewrite app_nil_r].
  destruct (fillQAHistograms cfg); [|now rewrite app_nil_r].
  destruct (FwdTrack.trackType fwdtrack =? static_cast_uint8 GlobalMuonTrack);
    [|destruct (FwdTrack.trackType fwdtrack =? static_cast_uint8 MuonStandaloneTrack)];
    rewrite ?fills_fRegistry; unfold fill; cbn [fRegistry set_fRegistry set_emprimarymuons
      set_emprimarymuonscov]; rewrite <- ?app_assoc; reflexivity.
Qed.
End BuilderSteps.

(** ** The candidate builder: its outcome in closed form *)

Ltac builder_unfold :=
  unfold fillFwdTrackTable, fillFwdTrackTable_withoutEarlyCuts, matchedGlobalMuon,
    call_propagateMuon;
  cbv beta iota zeta.

Ltac outcome_unfold :=
  unfold finalHistograms, emits, emits_withoutEarlyCuts, propagations, finalRow,
    finalSelected, finalPt,
    finalEta, finalPhi, finalPDCA, finalRabs, earlyCut, cutRabs, cutDCAxy, cutChi2,
    finalChi2PerNdf, finalNdf, matchedLeg, rejectedBeforePropagation, isGlobal,
    isStandalone, mchtrackOf, mfttrackOf, trackSigmaDcaXY, trackDcaXYinSigma, trackDcaXY,
    trackDcaX, trackDcaY.

Ltac break_conditions :=
  repeat match goal with
         | |- context [if ?c then _ else _] =>
             lazymatch c with
             | context [if _ then _ else _] => fail
             | _ => destruct c eqn:?; simpl
             end
         end.

Ltac builder_known :=
  repeat match goal with
         | H : ?c = true |- context [if ?c then _ else _] => rewrite H
         | H : ?c = false |- context [if ?c then _ else _] => rewrite H
         | H : ?c = true |- context [?c && _] => rewrite H
         | H : ?c = false |- context [?c && _] => rewrite H
         end.

Ltac builder_finish :=
  rewrite ?selectAndFill_emprimarymuons, ?selectAndFill_emprimarymuonscov,
    ?selectAndFill_propagateMuonCalls, ?selectAndFill_fRegistry;
  builder_known;
  cbn [emprimarymuons emprimarymuonscov propagateMuonCalls fRegistry mRunNumber
       set_propagateMuonCalls set_emprimarymuons set_emprimarymuonscov set_fRegistry
       andb orb negb app];
  rewrite <- ?app_assoc, ?app_nil_r;
  try reflexivity.

Ltac builder_cases :=
  repeat match goal with
         | |- context [Z.eqb ?a ?b] =>
             destruct (Z.eqb a b) eqn:?; cbn [andb orb negb]
         | |- context [F32.ltb ?a ?b] =>
             destruct (F32.ltb a b) eqn:?; cbn [andb orb negb]
         | |- context [refitGlobalMuon ?c] =>
             destruct (refitGlobalMuon c) eqn:?; cbn [andb orb negb]
         end.

Section BuilderOutcome.
Variable cfg : Configurables.
Variable ext : Externals.

Lemma fillFwdTrackTable_emprimarymuons collision fwdtrack isAmbiguous st :
  emprimarymuons (fillFwdTrackTable cfg ext collision fwdtrack isAmbiguous st)
  = emprimarymuons st ++
    (if emits cfg ext collision fwdtrack
     then [finalRow cfg ext collision fwdtrack isAmbiguous] else []).
Proof. builder_unfold. outcome_unfold. builder_cases; builder_finish. Qed.

Lemma fillFwdTrackTable_emprimarymuonscov collision fwdtrack isAmbiguous st :
  emprimarymuonscov (fillFwdTrackTable cfg ext collision fwdtrack isAmbiguous st)
  = emprimarymuonscov st ++
    (if emits cfg ext collision fwdtrack
     then [covarianceRow
             (GlobalFwdTrack.getCovariances (propagateMuon ext fwdtrack collision kToVertex))]
     else []).
Proof. builder_unfold. outcome_unfold. builder_cases; builder_finish. Qed.

Lemma fillFwdTrackTable_propagateMuonCalls collision fwdtrack isAmbiguous st :
  propagateMuonCalls (fillFwdTrackTable cfg ext collision fwdtrack isAmbiguous st)
  = propagateMuonCalls st ++ propagations cfg ext collision fwdtrack.
Proof. builder_unfold. outcome_unfold. builder_cases; builder_finish. Qed.

Lemma fillFwdTrackTable_withoutEarlyCuts_emprimarymuons collision fwdtrack isAmbiguous st :
  emprimarymuons (fillFwdTrackTable_withoutEarlyCuts cfg ext collision fwdtrack isAmbiguous st)
  = emprimarymuons st ++
    (if emits_withoutEarlyCuts cfg ext collision fwdtrack
     then [finalRow cfg ext collision fwdtrack isAmbiguous] else []).
Proof. builder_unfold. outcome_unfold. builder_cases; builder_finish. Qed.

Lemma fillFwdTrackTable_withoutEarlyCuts_emprimarymuonscov collision fwdtrack isAmbiguous st :
  emprimarymuonscov
    (fillFwdTrackTable_withoutEarlyCuts cfg ext collision fwdtrack isAmbiguous st)
  = emprimarymuonscov st ++
    (if emits_withoutEarlyCuts cfg ext collision fwdtrack
     then [covarianceRow
             (GlobalFwdTrack.getCovariances (propagateMuon ext fwdtrack collision kToVertex))]
     else []).
Proof. builder_unfold. outcome_unfold. builder_cases; builder_finish. Qed.

Lemma fillFwdTrackTable_fRegistry collision fwdtrack isAmbiguous st :
  fRegistry (fillFwdTrackTable cfg ext collision fwdtrack isAmbiguous st)
  = fRegistry st ++
    (if emits cfg ext collision fwdtrack && fillQAHistograms cfg
     then finalHistograms cfg ext collision fwdtrack else []).
Proof.
  builder_unfold. outcome_unfold. builder_cases; builder_finish.
Qed.

Lemma fillFwdTrackTable_mRunNumber collision fwdtrack isAmbiguous st :
  mRunNumber (fillFwdTrackTable cfg ext collision fwdtrack isAmbiguous st) = mRunNumber st.
Proof.
  builder_unfold. unfold selectAndFill.
  repeat match goal with
         | |- context [if ?c then _ else _] =>
             lazymatch c with
             | context [if _ then _ else _] => fail
             | _ => destruct c
             end
         end; cbn [mRunNumber set_propagateMuonCalls set_emprimarymuons set_emprimarymuonscov];
    try reflexivity.
Qed.
End BuilderOutcome.

Section WithoutEarlyCuts.
Variable cfg : Configurables.
Variable ext : Externals.

Lemma fillFwdTrackTable_withoutEarlyCuts_fRegistry collision fwdtrack isAmbiguous st :
  fRegistry (fillFwdTrackTable_withoutEarlyCuts cfg ext collision fwdtrack isAmbiguous st)
  = fRegistry st ++
    (if emits_withoutEarlyCuts cfg ext collision fwdtrack && fillQAHistograms cfg
     then finalHistograms cfg ext collision fwdtrack else []).
Proof. builder_unfold. outcome_unfold. builder_cases; builder_finish. Qed.

(** A global muon that one of the three early cuts removes is refused by
    [isSelected] on the same radius, DCA and chi2 per degree of freedom,
    whatever its other metrics. *)
Lemma earlyCut_isSelected collision fwdtrack pt eta pDCA :
  FwdTrack.trackType fwdtrack = static_cast_uint8 GlobalMuonTrack ->
  earlyCut cfg ext collision fwdtrack = true ->
  isSelected cfg pt eta (FwdTrack.rAtAbsorberEnd fwdtrack) pDCA
    (finalChi2PerNdf ext fwdtrack) (FwdTrack.trackType fwdtrack)
    (trackDcaXY ext collision fwdtrack) = false.
Proof.
  intros T. rewrite isSelected_conjunction, T.
  unfold earlyCut, cutRabs, cutDCAxy, cutChi2, notOutside.
  cbn [static_cast_uint8 Z.eqb].
  destruct (F32.ltb (FwdTrack.rAtAbsorberEnd fwdtrack) (minRabsGL cfg));
    destruct (F32.ltb (maxRabs cfg) (FwdTrack.rAtAbsorberEnd fwdtrack));
    destruct (F32.ltb (maxDCAxy cfg) _);
    destruct (F32.ltb (maxChi2GL cfg) _);
    cbn [andb orb negb]; intros H; rewrite ?andb_false_r; try reflexivity; discriminate H.
Qed.

Lemma emits_withoutEarlyCuts_eq collision fwdtrack :
  emits_withoutEarlyCuts cfg ext collision fwdtrack = emits cfg ext collision fwdtrack.
Proof.
  unfold emits, emits_withoutEarlyCuts.
  destruct (rejectedBeforePropagation cfg fwdtrack); cbn [negb andb]; [reflexivity|].
  destruct (isGlobal fwdtrack) eqn:G; [|reflexivity].
  destruct (earlyCut cfg ext collision fwdtrack) eqn:E; cbn [negb andb]; [|reflexivity].
  unfold finalSelected, finalRabs. rewrite G.
  apply earlyCut_isSelected; [|exact E].
  apply Z.eqb_eq. exact G.
Qed.
End WithoutEarlyCuts.

(** ** Rows of the two output tables *)

Section Rows.
Variable cfg : Configurables.
Variable ext : Externals.

Lemma covarianceRow_length fwdcov : List.length (covarianceRow fwdcov) = 15%nat.
Proof. reflexivity. Qed.

Lemma fillFwdTrackTable_rowsPaired collision fwdtrack isAmbiguous st :
  rowsPaired cfg ext st ->
  rowsPaired cfg ext (fillFwdTrackTable cfg ext collision fwdtrack isAmbiguous st).
Proof.
  intros [accepted [Hm Hc]]. unfold rowsPaired.
  rewrite fillFwdTrackTable_emprimarymuons, fillFwdTrackTable_emprimarymuonscov.
  destruct (emits cfg ext collision fwdtrack).
  - exists (accepted ++ [(collision, fwdtrack, isAmbiguous)]).
    rewrite !map_app, Hm, Hc. split; reflexivity.
  - exists accepted. rewrite !app_nil_r. split; assumption.
Qed.

Lemma initCCDB_rowsPaired runNumber st :
  rowsPaired cfg ext st -> rowsPaired cfg ext (initCCDB runNumber st).
Proof. unfold initCCDB. destruct (mRunNumber st =? runNumber); intros H; exact H. Qed.

Lemma initState_rowsPaired : rowsPaired cfg ext initState.
Proof. exists []. split; reflexivity. Qed.

Lemma fold_left_invariant {A B : Type} (P : A -> Prop) (f : A -> B -> A) (l : list B) :
  (forall a b, P a -> P (f a b)) -> forall a, P a -> P (fold_left f l a).
Proof.
  intros Hf. induction l as [|b l IH]; intros a Ha; simpl; [exact Ha|].
  apply IH, Hf, Ha.
Qed.

Lemma processRec_SA_rowsPaired collisions fwdtracks st :
  rowsPaired cfg ext st -> rowsPaired cfg ext (processRec_SA cfg ext collisions fwdtracks st).
Proof.
  unfold processRec_SA. apply fold_left_invariant.
  intros a collision Ha.
  destruct (negb (Collision.isSelected collision)); [now apply initCCDB_rowsPaired|].
  apply fold_left_invariant; [|now apply initCCDB_rowsPaired].
  intros a' fwdtrack Ha'. destruct (negb (isMuonType fwdtrack)); [exact Ha'|].
  now apply fillFwdTrackTable_rowsPaired.
Qed.

Lemma processRec_TTCA_rowsPaired collisions fwdtracks fwdtrackIndices st :
  rowsPaired cfg ext st ->
  rowsPaired cfg ext (processRec_TTCA cfg ext collisions fwdtracks fwdtrackIndices st).
Proof.
  unfold processRec_TTCA. apply fold_left_invariant.
  intros a collision Ha.
  destruct (negb (Collision.isSelected collision)); [now apply initCCDB_rowsPaired|].
  apply fold_left_invariant; [|now apply initCCDB_rowsPaired].
  intros a' fwdtrackId Ha'.
  destruct (negb (isMuonType (fwdtrack_as ext (FwdTrackAssoc.fwdtrackId fwdtrackId))));
    [exact Ha'|].
  now apply fillFwdTrackTable_rowsPaired.
Qed.

Lemma processRec_SA_SWT_rowsPaired collisions fwdtracks st :
  rowsPaired cfg ext st ->
  rowsPaired cfg ext (processRec_SA_SWT cfg ext collisions fwdtracks st).
Proof.
  unfold processRec_SA_SWT. apply fold_left_invariant.
  intros a collision Ha.
  destruct (negb (Collision.isSelected collision)); [now apply initCCDB_rowsPaired|].
  destruct (Collision.swtaliastmp_raw collision =? 0); [now apply initCCDB_rowsPaired|].
  apply fold_left_invariant; [|now apply initCCDB_rowsPaired].
  intros a' fwdtrack Ha'. destruct (negb (isMuonType fwdtrack)); [exact Ha'|].
  now apply fillFwdTrackTable_rowsPaired.
Qed.

Lemma processRec_TTCA_SWT_rowsPaired collisions fwdtracks fwdtrackIndices st :
  rowsPaired cfg ext st ->
  rowsPaired cfg ext (processRec_TTCA_SWT cfg ext collisions fwdtracks fwdtrackIndices st).
Proof.
  unfold processRec_TTCA_SWT. apply fold_left_invariant.
  intros a collision Ha.
  destruct (negb (Collision.isSelected collision)); [now apply initCCDB_rowsPaired|].
  destruct (Collision.swtaliastmp_raw collision =? 0); [now apply initCCDB_rowsPaired|].
  apply fold_left_invariant; [|now apply initCCDB_rowsPaired].
  intros a' fwdtrackId Ha'.
  destruct (negb (isMuonType (fwdtrack_as ext (FwdTrackAssoc.fwdtrackId fwdtrackId))));
    [exact Ha'|].
  now apply fillFwdTrackTable_rowsPaired.
Qed.

Lemma processMC_SA_rowsPaired collisions fwdtracks st :
  rowsPaired cfg ext st ->
  rowsPaired cfg ext (processMC_SA cfg ext collisions fwdtracks st).
Proof.
  unfold processMC_SA. apply fold_left_invariant.
  intros a collision Ha.
  destruct (negb (Collision.isSelected collision)); [now apply initCCDB_rowsPaired|].
  destruct (negb (Collision.has_mcCollision collision)); [now apply initCCDB_rowsPaired|].
  apply fold_left_invariant; [|now apply initCCDB_rowsPaired].
  intros a' fwdtrack Ha'.
  destruct (negb (FwdTrack.has_mcParticle fwdtrack)); [exact Ha'|].
  destruct (negb (isMuonType fwdtrack)); [exact Ha'|].
  now apply fillFwdTrackTable_rowsPaired.
Qed.

Lemma processMC_TTCA_rowsPaired collisions fwdtracks fwdtrackIndices st :
  rowsPaired cfg ext st ->
  rowsPaired cfg ext (processMC_TTCA cfg ext collisions fwdtracks fwdtrackIndices st).
Proof.
  unfold processMC_TTCA. apply fold_left_invariant.
  intros a collision Ha.
  destruct (negb (Collision.isSelected collision)); [now apply initCCDB_rowsPaired|].
  destruct (negb (Collision.has_mcCollision collision)); [now apply initCCDB_rowsPaired|].
  apply fold_left_invariant; [|now apply initCCDB_rowsPaired].
  intros a' fwdtrackId Ha'.
  destruct (negb (FwdTrack.has_mcParticle
                    (fwdtrack_as ext (FwdTrackAssoc.fwdtrackId fwdtrackId))));
    [exact Ha'|].
  destruct (negb (isMuonType (fwdtrack_as ext (FwdTrackAssoc.fwdtrackId fwdtrackId))));
    [exact Ha'|].
  now apply fillFwdTrackTable_rowsPaired.
Qed.

Lemma rowsPaired_length st :
  rowsPaired cfg ext st ->
  List.length (emprimarymuons st) = List.length (emprimarymuonscov st).
Proof. intros [accepted [Hm Hc]]. rewrite Hm, Hc, !length_map. reflexivity. Qed.

(** The row that [fillFwdTrackTable] appends, when it appends one. *)
Lemma fillFwdTrackTable_appended collision fwdtrack isAmbiguous st row :
  emprimarymuons (fillFwdTrackTable cfg ext collision fwdtrack isAmbiguous st)
  = emprimarymuons st ++ [row] ->
  emits cfg ext collision fwdtrack = true
  /\ row = finalRow cfg ext collision fwdtrack isAmbiguous.
Proof.
  rewrite fillFwdTrackTable_emprimarymuons. intros H. apply app_inv_head in H.
  destruct (emits cfg ext collision fwdtrack); [|discriminate H].
  injection H as H. split; [reflexivity|symmetry; exact H].
Qed.

Lemma emits_type collision fwdtrack :
  emits cfg ext collision fwdtrack = true ->
  FwdTrack.trackType fwdtrack = static_cast_uint8 GlobalMuonTrack
  \/ FwdTrack.trackType fwdtrack = static_cast_uint8 MuonStandaloneTrack.
Proof.
  unfold emits, isGlobal, isStandalone. intros H.
  destruct (FwdTrack.trackType fwdtrack =? static_cast_uint8 GlobalMuonTrack) eqn:G.
  - left. apply Z.eqb_eq, G.
  - right. apply andb_prop in H. destruct H as [_ H]. apply andb_prop in H.
    apply Z.eqb_eq, H.
Qed.

(** A row is written exactly for the tracks that pass the three guards
    of lines 209-219 and that [isSelected] accepts: the three early cuts
    and the test of the type refuse nothing that [isSelected] accepts. *)
Lemma emits_accepted collision fwdtrack :
  emits cfg ext collision fwdtrack
  = negb (rejectedBeforePropagation cfg fwdtrack)
    && finalSelected cfg ext collision fwdtrack.
Proof.
  rewrite <- emits_withoutEarlyCuts_eq. unfold emits_withoutEarlyCuts.
  destruct (isGlobal fwdtrack) eqn:G; [reflexivity|].
  destruct (isStandalone fwdtrack) eqn:S; [reflexivity|].
  cbn [andb]. unfold finalSelected. rewrite isSelected_conjunction.
  unfold isGlobal in G. unfold isStandalone in S. rewrite G, S.
  rewrite !andb_false_r. reflexivity.
Qed.
End Rows.

(** ** The claims on the candidate builder *)

(** C2: [fillFwdTrackTable] either leaves both output tables as they are
    or appends exactly one row to [emprimarymuons] and exactly one row to
    [emprimarymuonscov].  A track that reaches [isSelected], that is, one
    that passed the three guards of lines 209-219, is written when
    [isSelected] accepts its final metrics, its candidate row and its
    covariance row together, and leaves both tables as they are when
    [isSelected] refuses them; a track stopped by a guard leaves both
    tables as they are.  The covariance row holds the 15 entries of the
    covariance of [propmuonAtPV], the propagation to the vertex of the
    track itself, whatever [refitGlobalMuon] is.  After any of the six
    process functions, run from empty tables, the two tables hold, in
    the same order, the rows of the same accepted tracks, so they have
    the same number of rows. *)
Theorem fillFwdTrackTable_pairs_rows
    (cfg : Configurables) (ext : Externals) (collision : Collision.t)
    (fwdtrack : FwdTrack.t) (isAmbiguous : bool) (st : TaskState) :
  let st' := fillFwdTrackTable cfg ext collision fwdtrack isAmbiguous st in
  let fwdcov := GlobalFwdTrack.getCovariances (propagateMuon ext fwdtrack collision kToVertex) in
  ((emprimarymuons st' = emprimarymuons st /\ emprimarymuonscov st' = emprimarymuonscov st)
   \/ (exists row,
          emprimarymuons st' = emprimarymuons st ++ [row]
          /\ emprimarymuonscov st' = emprimarymuonscov st ++ [covarianceRow fwdcov]))
  /\ (finalSelected cfg ext collision fwdtrack = false ->
      emprimarymuons st' = emprimarymuons st /\ emprimarymuonscov st' = emprimarymuonscov st)
  /\ (rejectedBeforePropagation cfg fwdtrack = false ->
      finalSelected cfg ext collision fwdtrack = true ->
      emprimarymuons st'
      = emprimarymuons st ++ [finalRow cfg ext collision fwdtrack isAmbiguous]
      /\ emprimarymuonscov st' = emprimarymuonscov st ++ [covarianceRow fwdcov])
  /\ (rejectedBeforePropagation cfg fwdtrack = true ->
      emprimarymuons st' = emprimarymuons st /\ emprimarymuonscov st' = emprimarymuonscov st)
  /\ covarianceRow fwdcov
     = map F32.of_double
         [ fwdcov 0 0; fwdcov 0 1; fwdcov 1 1; fwdcov 2 0; fwdcov 2 1; fwdcov 2 2;
           fwdcov 3 0; fwdcov 3 1; fwdcov 3 2; fwdcov 3 3;
           fwdcov 4 0; fwdcov 4 1; fwdcov 4 2; fwdcov 4 3; fwdcov 4 4 ]%nat
  /\ (forall collisions fwdtracks fwdtrackIndices final,
         In final
            [ processRec_SA cfg ext collisions fwdtracks initState;
              processRec_TTCA cfg ext collisions fwdtracks fwdtrackIndices initState;
              processRec_SA_SWT cfg ext collisions fwdtracks initState;
              processRec_TTCA_SWT cfg ext collisions fwdtracks fwdtrackIndices initState;
              processMC_SA cfg ext collisions fwdtracks initState;
              processMC_TTCA cfg ext collisions fwdtracks fwdtrackIndices initState ] ->
         rowsPaired cfg ext final
         /\ List.length (emprimarymuons final) = List.length (emprimarymuonscov final)).
Proof.
  cbv zeta.
  rewrite fillFwdTrackTable_emprimarymuons, fillFwdTrackTable_emprimarymuonscov.
  rewrite emits_accepted.
  split; [|split; [|split; [|split; [|split]]]].
  - destruct (negb (rejectedBeforePropagation cfg fwdtrack)
              && finalSelected cfg ext collision fwdtrack).
    + right. eexists. split; reflexivity.
    + left. rewrite !app_nil_r. split; reflexivity.
  - intros H. rewrite H, andb_false_r, !app_nil_r. split; reflexivity.
  - intros R H. rewrite R, H. split; reflexivity.
  - intros R. rewrite R, !app_nil_r. split; reflexivity.
  - reflexivity.
  - intros collisions fwdtracks fwdtrackIndices final Hin.
    assert (P : rowsPaired cfg ext final).
    { cbn [In] in Hin.
      destruct Hin as [<-|[<-|[<-|[<-|[<-|[<-|[]]]]]]].
      - apply processRec_SA_rowsPaired, initState_rowsPaired.
      - apply processRec_TTCA_rowsPaired, initState_rowsPaired.
      - apply processRec_SA_SWT_rowsPaired, initState_rowsPaired.
      - apply processRec_TTCA_SWT_rowsPaired, initState_rowsPaired.
      - apply processMC_SA_rowsPaired, initState_rowsPaired.
      - apply processMC_TTCA_rowsPaired, initState_rowsPaired. }
    split; [exact P|exact (rowsPaired_length cfg ext final P)].
Qed.

(** One collision with a global muon, its MCH-MID track and a global
    muon with a bad match: two candidates and two covariance rows, after
    seven propagations. *)
Example processRec_SA_example :
  let final := processRec_SA defaultConfigurables (exampleExternals 1) [exampleCollision]
                 [exampleGlobal; exampleMCHMID; exampleBadMatch] initState in
  map EMPrimaryMuon.fwdtrackId (emprimarymuons final) = [7; 3]
  /\ List.length (emprimarymuonscov final) = 2%nat
  /\ List.length (propagateMuonCalls final) = 7%nat
  /\ mRunNumber final = 544123.
Proof. vm_compute. repeat split. Qed.

(** C3: the pDCA stored for an emitted candidate is a total momentum
    times a DCA magnitude sqrt(dcaX^2 + dcaY^2) taken from a propagation
    to the DCA plane, relative to the vertex of the collision: for a
    global muon the momentum and the DCA of its matched MCH-MID track,
    for a standalone muon the momentum and the DCA of the track itself.
    An emitted candidate is of one of these two types. *)
Theorem stored_pDCA
    (cfg : Configurables) (ext : Externals) (collision : Collision.t)
    (fwdtrack : FwdTrack.t) (isAmbiguous : bool) (st : TaskState) (row : EMPrimaryMuon.t) :
  emprimarymuons (fillFwdTrackTable cfg ext collision fwdtrack isAmbiguous st)
  = emprimarymuons st ++ [row] ->
  (FwdTrack.trackType fwdtrack = static_cast_uint8 GlobalMuonTrack ->
   let mchtrack := matchMCHTrack_as ext fwdtrack in
   EMPrimaryMuon.pDCA row
   = F32.mul (FwdTrack.p mchtrack)
       (F32.sqrt (F32.add (F32.mul (trackDcaX ext collision mchtrack)
                                   (trackDcaX ext collision mchtrack))
                          (F32.mul (trackDcaY ext collision mchtrack)
                                   (trackDcaY ext collision mchtrack)))))
  /\ (FwdTrack.trackType fwdtrack = static_cast_uint8 MuonStandaloneTrack ->
      EMPrimaryMuon.pDCA row
      = F32.mul (FwdTrack.p fwdtrack)
          (F32.sqrt (F32.add (F32.mul (trackDcaX ext collision fwdtrack)
                                      (trackDcaX ext collision fwdtrack))
                             (F32.mul (trackDcaY ext collision fwdtrack)
                                      (trackDcaY ext collision fwdtrack)))))
  /\ (FwdTrack.trackType fwdtrack = static_cast_uint8 GlobalMuonTrack
      \/ FwdTrack.trackType fwdtrack = static_cast_uint8 MuonStandaloneTrack).
Proof.
  intros H. apply fillFwdTrackTable_appended in H. destruct H as [E ->].
  cbv zeta. unfold finalRow, candidateRow, finalPDCA, isGlobal, mchtrackOf, trackDcaXY.
  cbn [EMPrimaryMuon.pDCA].
  split; [|split].
  - intros T. rewrite T. reflexivity.
  - intros T. rewrite T. reflexivity.
  - exact (emits_type cfg ext collision fwdtrack E).
Qed.

Lemma stored_pDCA_witness :
  EMPrimaryMuon.pDCA
    (finalRow defaultConfigurables (exampleExternals 1) exampleCollision exampleGlobal false)
  = F32.mul (FwdTrack.p exampleMCHMID)
      (F32.sqrt (F32.add (F32.mul (trackDcaX (exampleExternals 1) exampleCollision exampleMCHMID)
                                  (trackDcaX (exampleExternals 1) exampleCollision exampleMCHMID))
                         (F32.mul (trackDcaY (exampleExternals 1) exampleCollision exampleMCHMID)
                                  (trackDcaY (exampleExternals 1) exampleCollision exampleMCHMID)))).
Proof.
  apply (proj1 (stored_pDCA defaultConfigurables (exampleExternals 1) exampleCollision
                  exampleGlobal false initState
                  (finalRow defaultConfigurables (exampleExternals 1) exampleCollision
                     exampleGlobal false)
                  ltac:(vm_compute; reflexivity))).
  reflexivity.
Defined.

(** For a global muon the DCA in the stored pDCA is not the DCA of the
    candidate itself, stored as [dcaX] and [dcaY]: here the candidate is
    at 7 cm, its MCH-MID track at 3 cm, and the pDCA is 9 times 3. *)
Example stored_pDCA_not_own_dca :
  let row := finalRow defaultConfigurables (exampleExternals 1) exampleCollision
               exampleGlobal false in
  emprimarymuons (fillFwdTrackTable defaultConfigurables (exampleExternals 1)
                    exampleCollision exampleGlobal false initState) = [row]
  /\ EMPrimaryMuon.pDCA row = F32.of_int 27
  /\ F32.mul (FwdTrack.p exampleMCHMID)
       (F32.sqrt (F32.add
                    (F32.mul (EMPrimaryMuon.fwdDcaX row) (EMPrimaryMuon.fwdDcaX row))
                    (F32.mul (EMPrimaryMuon.fwdDcaY row) (EMPrimaryMuon.fwdDcaY row))))
     = F32.of_int 63.
Proof. vm_compute. repeat split. Qed.

(** The stored pDCA of a global muon is not the momentum of its matched
    MCH-MID track times [dcaXY], the DCA of the candidate itself of line
    234 that [isSelected] tests and that the row stores as [dcaX] and
    [dcaY]: for the global muon 7, found at 7 cm while its MCH-MID track
    of momentum 9 is found at 3 cm, the row holds 9 * 3 = 27 and not
    9 * 7 = 63. *)
Lemma stored_pDCA_is_not_of_own_dcaXY :
  ~ (forall cfg ext collision fwdtrack isAmbiguous st row,
        emprimarymuons (fillFwdTrackTable cfg ext collision fwdtrack isAmbiguous st)
        = emprimarymuons st ++ [row] ->
        FwdTrack.trackType fwdtrack = static_cast_uint8 GlobalMuonTrack ->
        EMPrimaryMuon.pDCA row
        = F32.mul (FwdTrack.p (matchMCHTrack_as ext fwdtrack))
                  (trackDcaXY ext collision fwdtrack)).
Proof.
  intros H.
  specialize (H defaultConfigurables (exampleExternals 1) exampleCollision exampleGlobal
                false initState
                (finalRow defaultConfigurables (exampleExternals 1) exampleCollision
                   exampleGlobal false)).
  assert (E : EMPrimaryMuon.pDCA
                (finalRow defaultConfigurables (exampleExternals 1) exampleCollision
                   exampleGlobal false) = F32.of_int 27) by (vm_compute; reflexivity).
  assert (D : F32.mul (FwdTrack.p (matchMCHTrack_as (exampleExternals 1) exampleGlobal))
                (trackDcaXY (exampleExternals 1) exampleCollision exampleGlobal)
              = F32.of_int 63) by (vm_compute; reflexivity).
  rewrite E, D in H.
  assert (N : F32.of_int 27 <> F32.of_int 63) by (vm_compute; discriminate).
  apply N, H.
  - vm_compute. reflexivity.
  - reflexivity.
Qed.

(** C5: a global muon whose chi2MatchMCHMFT exceeds
    maxMatchingChi2MCHMFT, and any track whose chi2MatchMCHMID or whose
    chi2 is below zero, leaves [fillFwdTrackTable] before the first call
    to [propagateMuon]: the state comes back unchanged, so no propagation
    was made and no row was written. *)
Theorem rejected_before_any_propagation
    (cfg : Configurables) (ext : Externals) (collision : Collision.t)
    (fwdtrack : FwdTrack.t) (isAmbiguous : bool) (st : TaskState) :
  (FwdTrack.trackType fwdtrack = static_cast_uint8 GlobalMuonTrack
   /\ F32.ltb (maxMatchingChi2MCHMFT cfg) (FwdTrack.chi2MatchMCHMFT fwdtrack) = true)
  \/ F32.ltb (FwdTrack.chi2MatchMCHMID fwdtrack) (F32.of_int 0) = true
  \/ F32.ltb (FwdTrack.chi2 fwdtrack) (F32.of_int 0) = true ->
  let st' := fillFwdTrackTable cfg ext collision fwdtrack isAmbiguous st in
  st' = st
  /\ propagateMuonCalls st' = propagateMuonCalls st
  /\ emprimarymuons st' = emprimarymuons st
  /\ emprimarymuonscov st' = emprimarymuonscov st.
Proof.
  intros H. cbv zeta.
  assert (E : fillFwdTrackTable cfg ext collision fwdtrack isAmbiguous st = st).
  { unfold fillFwdTrackTable.
    destruct H as [[T M]|[M|M]].
    - rewrite T, M. reflexivity.
    - rewrite M. destruct (_ && _); reflexivity.
    - rewrite M. destruct (_ && _); [reflexivity|].
      destruct (F32.ltb (FwdTrack.chi2MatchMCHMID fwdtrack) _); reflexivity. }
  rewrite E. repeat split.
Qed.

Lemma rejected_before_any_propagation_witness :
  let st' := fillFwdTrackTable defaultConfigurables (exampleExternals 1) exampleCollision
               exampleBadMatch false initState in
  st' = initState
  /\ propagateMuonCalls st' = propagateMuonCalls initState
  /\ emprimarymuons st' = emprimarymuons initState
  /\ emprimarymuonscov st' = emprimarymuonscov initState.
Proof.
  apply (rejected_before_any_propagation defaultConfigurables (exampleExternals 1)
           exampleCollision exampleBadMatch false initState).
  left. split; vm_compute; reflexivity.
Defined.

(** C6: for an emitted global muon, when [refitGlobalMuon] is set the
    stored eta and phi are those of the matched MFT track (phi brought
    to [0, 2 pi) by [bringTo02Pi]) and the stored pt is
    p * sin(2 * atan(exp(-eta))) with p the total momentum of the matched
    MCH-MID track propagated to the vertex and eta the eta of the MFT
    track; when it is not set, pt, eta and phi are those of the
    propagation of the track itself to the vertex. *)
Theorem refit_kinematics
    (cfg : Configurables) (ext : Externals) (collision : Collision.t)
    (fwdtrack : FwdTrack.t) (isAmbiguous : bool) (st : TaskState) (row : EMPrimaryMuon.t) :
  emprimarymuons (fillFwdTrackTable cfg ext collision fwdtrack isAmbiguous st)
  = emprimarymuons st ++ [row] ->
  FwdTrack.trackType fwdtrack = static_cast_uint8 GlobalMuonTrack ->
  let mchtrack := matchMCHTrack_as ext fwdtrack in
  let mfttrack := matchMFTTrack_as ext fwdtrack in
  let propmuonAtPV := propagateMuon ext fwdtrack collision kToVertex in
  let propmuonAtPV_Matched := propagateMuon ext mchtrack collision kToVertex in
  (refitGlobalMuon cfg = true ->
   EMPrimaryMuon.eta row = MFTTrack.eta mfttrack
   /\ EMPrimaryMuon.phi row = bringTo02Pi ext (MFTTrack.phi mfttrack)
   /\ EMPrimaryMuon.pt row
      = F32.of_double
          (F64.mul (GlobalFwdTrack.getP propmuonAtPV_Matched)
             (F64.of_float
                (std_sin ext
                   (F32.mul (F32.of_int 2)
                      (std_atan ext (std_exp ext (F32.neg (MFTTrack.eta mfttrack)))))))))
  /\ (refitGlobalMuon cfg = false ->
      EMPrimaryMuon.pt row = F32.of_double (GlobalFwdTrack.getPt propmuonAtPV)
      /\ EMPrimaryMuon.eta row = F32.of_double (GlobalFwdTrack.getEta propmuonAtPV)
      /\ EMPrimaryMuon.phi row
         = bringTo02Pi ext (F32.of_double (GlobalFwdTrack.getPhi propmuonAtPV))).
Proof.
  intros H T. apply fillFwdTrackTable_appended in H. destruct H as [_ ->].
  cbv zeta. unfold finalRow, candidateRow, finalPt, finalEta, finalPhi, isGlobal, mchtrackOf,
    mfttrackOf, ptFromPAndEta, trackPtAtPV, trackEtaAtPV, trackPhiAtPV.
  cbn [EMPrimaryMuon.pt EMPrimaryMuon.eta EMPrimaryMuon.phi].
  rewrite T. cbn [static_cast_uint8 Z.eqb andb].
  split; intros R; rewrite R; repeat split.
Qed.

Lemma refit_kinematics_witness :
  let row := finalRow defaultConfigurables (exampleExternals 1) exampleCollision
               exampleGlobal false in
  let propmuonAtPV := propagateMuon (exampleExternals 1) exampleGlobal exampleCollision
                        kToVertex in
  let propmuonAtPV_Matched := propagateMuon (exampleExternals 1) exampleMCHMID
                                exampleCollision kToVertex in
  (refitGlobalMuon defaultConfigurables = true ->
   EMPrimaryMuon.eta row = MFTTrack.eta exampleMFT
   /\ EMPrimaryMuon.phi row = bringTo02Pi (exampleExternals 1) (MFTTrack.phi exampleMFT)
   /\ EMPrimaryMuon.pt row
      = F32.of_double
          (F64.mul (GlobalFwdTrack.getP propmuonAtPV_Matched)
             (F64.of_float
                (std_sin (exampleExternals 1)
                   (F32.mul (F32.of_int 2)
                      (std_atan (exampleExternals 1)
                         (std_exp (exampleExternals 1)
                            (F32.neg (MFTTrack.eta exampleMFT)))))))))
  /\ (refitGlobalMuon defaultConfigurables = false ->
      EMPrimaryMuon.pt row = F32.of_double (GlobalFwdTrack.getPt propmuonAtPV)
      /\ EMPrimaryMuon.eta row = F32.of_double (GlobalFwdTrack.getEta propmuonAtPV)
      /\ EMPrimaryMuon.phi row
         = bringTo02Pi (exampleExternals 1)
             (F32.of_double (GlobalFwdTrack.getPhi propmuonAtPV))).
Proof.
  apply (refit_kinematics defaultConfigurables (exampleExternals 1) exampleCollision
           exampleGlobal false initState
           (finalRow defaultConfigurables (exampleExternals 1) exampleCollision
              exampleGlobal false)).
  - vm_compute; reflexivity.
  - reflexivity.
Defined.

(** With [refitGlobalMuon] set, the written eta and phi come from the
    matched MFT track and the momentum that gives the written pt from the
    matched MCH-MID track propagated to the vertex: no single track gives
    all three.  The kinematics are not those of the MFT track alone: with
    the same MFT track, a MCH-MID track propagated to a momentum of 10 or
    of 20 gives a different pt.  They are not those of the MCH-MID track
    and its propagation alone: with the same MCH-MID track and the same
    propagation, an MFT track at eta = -3 or at eta = -3.5 gives a
    different eta. *)
Lemma refit_takes_from_two_tracks :
  ~ (exists etaOf phiOf pOf, refitFromOneTrack mftSubSegment etaOf phiOf pOf)
  /\ ~ (exists etaOf phiOf pOf, refitFromOneTrack mchmidSubSegment etaOf phiOf pOf).
Proof.
  split; intros [etaOf [phiOf [pOf H]]].
  - pose proof (H defaultConfigurables (refitExternals exampleMFT 10) exampleCollision
                  exampleGlobal false initState
                  (finalRow defaultConfigurables (refitExternals exampleMFT 10)
                     exampleCollision exampleGlobal false)
                  ltac:(vm_compute; reflexivity) eq_refl eq_refl) as [_ [_ P1]].
    pose proof (H defaultConfigurables (refitExternals exampleMFT 20) exampleCollision
                  exampleGlobal false initState
                  (finalRow defaultConfigurables (refitExternals exampleMFT 20)
                     exampleCollision exampleGlobal false)
                  ltac:(vm_compute; reflexivity) eq_refl eq_refl) as [_ [_ P2]].
    assert (E : EMPrimaryMuon.pt
                  (finalRow defaultConfigurables (refitExternals exampleMFT 10)
                     exampleCollision exampleGlobal false)
                = EMPrimaryMuon.pt
                    (finalRow defaultConfigurables (refitExternals exampleMFT 20)
                       exampleCollision exampleGlobal false)).
    { rewrite P1, P2. reflexivity. }
    vm_compute in E. discriminate E.
  - pose proof (H defaultConfigurables (refitExternals exampleMFT 10) exampleCollision
                  exampleGlobal false initState
                  (finalRow defaultConfigurables (refitExternals exampleMFT 10)
                     exampleCollision exampleGlobal false)
                  ltac:(vm_compute; reflexivity) eq_refl eq_refl) as [P1 _].
    pose proof (H defaultConfigurables (refitExternals exampleSteepMFT 10) exampleCollision
                  exampleGlobal false initState
                  (finalRow defaultConfigurables (refitExternals exampleSteepMFT 10)
                     exampleCollision exampleGlobal false)
                  ltac:(vm_compute; reflexivity) eq_refl eq_refl) as [P2 _].
    assert (E : EMPrimaryMuon.eta
                  (finalRow defaultConfigurables (refitExternals exampleMFT 10)
                     exampleCollision exampleGlobal false)
                = EMPrimaryMuon.eta
                    (finalRow defaultConfigurables (refitExternals exampleSteepMFT 10)
                       exampleCollision exampleGlobal false)).
    { rewrite P1, P2. reflexivity. }
    vm_compute in E. discriminate E.
Qed.

(** The three candidates of the worlds above, as written: the pt follows
    the momentum of the MCH-MID track (10 or 20 times the value 1/10 taken
    for the sine), the eta that of the MFT track. *)
Example refit_takes_from_two_tracks_values :
  let row mfttrack pMatched :=
    finalRow defaultConfigurables (refitExternals mfttrack pMatched) exampleCollision
      exampleGlobal false in
  let written mfttrack pMatched :=
    emprimarymuons (fillFwdTrackTable defaultConfigurables (refitExternals mfttrack pMatched)
                      exampleCollision exampleGlobal false initState) in
  written exampleMFT 10 = [row exampleMFT 10]
  /\ written exampleMFT 20 = [row exampleMFT 20]
  /\ written exampleSteepMFT 10 = [row exampleSteepMFT 10]
  /\ EMPrimaryMuon.pt (row exampleMFT 10)
     = F32.of_double (F64.mul (F64.of_int 10) (F64.of_float (F32.of_double (F64.dec 1 1))))
  /\ EMPrimaryMuon.pt (row exampleMFT 20)
     = F32.of_double (F64.mul (F64.of_int 20) (F64.of_float (F32.of_double (F64.dec 1 1))))
  /\ EMPrimaryMuon.eta (row exampleMFT 10) = F32.of_int (-3)
  /\ EMPrimaryMuon.eta (row exampleSteepMFT 10) = F32.div (F32.of_int (-7)) (F32.of_int 2).
Proof. vm_compute. repeat split. Qed.

(** C7: a global muon that one of the three cuts of lines 262, 267 and
    280 (radius at the end of the absorber outside [minRabsGL, maxRabs],
    dcaXY above maxDCAxy, chi2 per degree of freedom above maxChi2GL)
    removes is refused by [isSelected] on the same three metrics,
    whatever its pt, eta and pDCA; the three cuts are a disjunction, and
    without them [fillFwdTrackTable] writes the same rows and fills the
    same histograms for every track. *)
Theorem early_cuts_change_no_outcome
    (cfg : Configurables) (ext : Externals) (collision : Collision.t)
    (fwdtrack : FwdTrack.t) (isAmbiguous : bool) (st : TaskState) :
  let r := FwdTrack.rAtAbsorberEnd fwdtrack in
  let dcaXY := trackDcaXY ext collision fwdtrack in
  let chi2_per_ndf :=
    F32.div (FwdTrack.chi2 fwdtrack)
      (F32.of_int (ndf_mchmft_of (matchMCHTrack_as ext fwdtrack)
                     (MFTTrack.nClusters (matchMFTTrack_as ext fwdtrack)))) in
  let withCuts := fillFwdTrackTable cfg ext collision fwdtrack isAmbiguous st in
  let withoutCuts :=
    fillFwdTrackTable_withoutEarlyCuts cfg ext collision fwdtrack isAmbiguous st in
  (forall pt eta pDCA,
      (F32.ltb r (minRabsGL cfg) || F32.ltb (maxRabs cfg) r
       || F32.ltb (maxDCAxy cfg) dcaXY
       || F32.ltb (maxChi2GL cfg) chi2_per_ndf) = true ->
      isSelected cfg pt eta r pDCA chi2_per_ndf (static_cast_uint8 GlobalMuonTrack) dcaXY
      = false)
  /\ emprimarymuons withCuts = emprimarymuons withoutCuts
  /\ emprimarymuonscov withCuts = emprimarymuonscov withoutCuts
  /\ fRegistry withCuts = fRegistry withoutCuts.
Proof.
  cbv zeta. split; [|split; [|split]].
  - intros pt eta pDCA. rewrite isSelected_conjunction. unfold notOutside.
    cbn [static_cast_uint8 Z.eqb].
    destruct (F32.ltb (FwdTrack.rAtAbsorberEnd fwdtrack) (minRabsGL cfg));
      destruct (F32.ltb (maxRabs cfg) (FwdTrack.rAtAbsorberEnd fwdtrack));
      destruct (F32.ltb (maxDCAxy cfg) _);
      destruct (F32.ltb (maxChi2GL cfg) _);
      cbn [andb orb negb]; intros H; rewrite ?andb_false_r; try reflexivity; discriminate H.
  - rewrite fillFwdTrackTable_emprimarymuons, fillFwdTrackTable_withoutEarlyCuts_emprimarymuons,
      emits_withoutEarlyCuts_eq. reflexivity.
  - rewrite fillFwdTrackTable_emprimarymuonscov,
      fillFwdTrackTable_withoutEarlyCuts_emprimarymuonscov, emits_withoutEarlyCuts_eq.
    reflexivity.
  - rewrite fillFwdTrackTable_fRegistry, fillFwdTrackTable_withoutEarlyCuts_fRegistry,
      emits_withoutEarlyCuts_eq. reflexivity.
Qed.

(** ** The claims on the DCA significance *)

Lemma of_int_0 : F32.of_int 0 = S754_zero false.
Proof. reflexivity. Qed.

Lemma of_int_2 : F32.of_int 2 = S754_finite false 8388608 (-22).
Proof. reflexivity. Qed.

Lemma of_int_999 : F32.of_int 999 = S754_finite false 16367616 (-14).
Proof. reflexivity. Qed.

(** The quotient by a zero, halved, in absolute value and under the
    square root: an infinity, or no number at all. *)
Lemma sqrt_fabs_div_zero (x : float) (s : bool) :
  let y := F32.sqrt (F32.fabs (F32.div (F32.div x (S754_zero s)) (F32.of_int 2))) in
  y = S754_infinity false \/ y = S754_nan.
Proof.
  cbv zeta. rewrite of_int_2.
  destruct x as [sx|sx| |sx mx ex]; cbn; auto.
Qed.

(** With a covariance whose product of variances underflows to the
    negative zero and whose covariance term is zero, the determinant is
    the negative zero: the code reaches an infinity where the formula of
    the specification has no value. *)
Lemma dcaXYinSigma_at_negative_zero :
  ~ (forall dcaX dcaY cXXatDCA cYYatDCA cXYatDCA : float,
        dcaXYinSigma dcaX dcaY cXXatDCA cYYatDCA cXYatDCA
        = dcaXYinSigma_spec dcaX dcaY cXXatDCA cYYatDCA cXYatDCA).
Proof.
  intros H.
  specialize (H (F32.of_int 1) (F32.of_int 0)
                (S754_finite true 8388608 (-123)) (S754_finite false 8388608 (-123))
                (F32.of_int 0)).
  vm_compute in H. discriminate H.
Qed.

(** The values at that input, which are binary32 numbers: the
    determinant is the negative zero, the code gives the positive
    infinity and the formula with |q| alone gives no number. *)
Example dcaXYinSigma_at_negative_zero_values :
  let cXX := S754_finite true 8388608 (-123) in
  let cYY := S754_finite false 8388608 (-123) in
  valid_binary F32.prec F32.emax cXX = true
  /\ valid_binary F32.prec F32.emax cYY = true
  /\ determinant cXX cYY (F32.of_int 0) = S754_zero true
  /\ dcaXYinSigma (F32.of_int 1) (F32.of_int 0) cXX cYY (F32.of_int 0) = S754_infinity false
  /\ dcaXYinSigma_spec (F32.of_int 1) (F32.of_int 0) cXX cYY (F32.of_int 0) = S754_nan.
Proof. vm_compute. repeat split. Qed.

(** C4 (amended): when the determinant cXX * cYY - cXY^2 of the
    covariance at the DCA plane is below zero, dcaXYinSigma is the
    sentinel 999; otherwise it is sqrt(|q / det / 2|) with q = dcaX^2 *
    cYY + dcaY^2 * cXX - 2 * dcaX * dcaY * cXY, the absolute value being
    that of the whole quotient, which is the formula with |q| alone
    unless the determinant is the negative zero.  [fillFwdTrackTable] is
    a total function: for a track that is written out with the QA
    histograms on, the value goes to hDCAxyinSigma and sigma_dcaXY =
    dcaXY / dcaXYinSigma, in micrometres, to hDCAxyResolutionvsPt. *)
Theorem dcaXYinSigma_sentinel_or_quotient
    (dcaX dcaY cXXatDCA cYYatDCA cXYatDCA : float)
    (cfg : Configurables) (ext : Externals) (collision : Collision.t)
    (fwdtrack : FwdTrack.t) (isAmbiguous : bool) (st : TaskState) :
  let det := F32.sub (F32.mul cXXatDCA cYYatDCA) (F32.mul cXYatDCA cXYatDCA) in
  let q := F32.sub
             (F32.add (F32.mul (F32.mul dcaX dcaX) cYYatDCA)
                      (F32.mul (F32.mul dcaY dcaY) cXXatDCA))
             (F32.mul (F32.mul (F32.mul (F32.of_int 2) dcaX) dcaY) cXYatDCA) in
  let sigma := dcaXYinSigma dcaX dcaY cXXatDCA cYYatDCA cXYatDCA in
  (F32.ltb det (F32.of_int 0) = true -> sigma = F32.of_int 999)
  /\ (F32.ltb det (F32.of_int 0) = false ->
      sigma = F32.sqrt (F32.fabs (F32.div (F32.div q det) (F32.of_int 2))))
  /\ (F32.ltb det (F32.of_int 0) = false -> det <> S754_zero true ->
      sigma = F32.sqrt (F32.div (F32.div (F32.fabs q) det) (F32.of_int 2)))
  /\ (let st' := fillFwdTrackTable cfg ext collision fwdtrack isAmbiguous st in
      let dir := if isGlobal fwdtrack then "MFTMCHMID/"%string else "MCHMID/"%string in
      let dcaXYinSigma := trackDcaXYinSigma ext collision fwdtrack in
      let sigma_dcaXY := F32.div (trackDcaXY ext collision fwdtrack) dcaXYinSigma in
      emprimarymuons st' <> emprimarymuons st -> fillQAHistograms cfg = true ->
      In ((dir ++ "hDCAxyinSigma")%string, [F64.of_float dcaXYinSigma]) (fRegistry st')
      /\ In ((dir ++ "hDCAxyResolutionvsPt")%string,
             [F64.of_float (finalPt cfg ext collision fwdtrack);
              F64.mul (F64.of_float sigma_dcaXY) (F64.of_int 10000)])
            (fRegistry st')).
Proof.
  cbv zeta. split; [|split; [|split]].
  - apply dcaXYinSigma_below_zero.
  - apply dcaXYinSigma_not_below_zero.
  - intros L N. rewrite (dcaXYinSigma_eq_spec _ _ _ _ _ N).
    unfold dcaXYinSigma_spec, determinant. rewrite L. reflexivity.
  - intros E Q.
    rewrite fillFwdTrackTable_emprimarymuons in E.
    rewrite fillFwdTrackTable_fRegistry, Q.
    destruct (emits cfg ext collision fwdtrack); [|rewrite app_nil_r in E; congruence].
    cbn [andb]. unfold finalHistograms, qaHistograms, trackSigmaDcaXY.
    split; apply in_or_app; right; cbn [In]; tauto.
Qed.

Lemma dcaXYinSigma_sentinel_or_quotient_witness :
  dcaXYinSigma (F32.of_int 1) (F32.of_int 0) (F32.of_int (-1)) (F32.of_int 1) (F32.of_int 0)
  = F32.of_int 999
  /\ In ("MCHMID/hDCAxyinSigma"%string, [F64.of_float (F32.of_int 999)])
        (fRegistry (fillFwdTrackTable exampleQA (exampleExternals (-1)) exampleCollision
                      exampleMCHMID false initState)).
Proof.
  pose proof (dcaXYinSigma_sentinel_or_quotient
                (F32.of_int 1) (F32.of_int 0) (F32.of_int (-1)) (F32.of_int 1) (F32.of_int 0)
                exampleQA (exampleExternals (-1)) exampleCollision exampleMCHMID false
                initState) as [Hs [_ [_ Hq]]].
  split.
  - apply Hs. vm_compute. reflexivity.
  - refine (proj1 (Hq _ eq_refl)). vm_compute. discriminate.
Defined.

(** C10: when the determinant is a zero, of either sign, the sentinel is
    not used: dcaXYinSigma is the square root of the absolute value of a
    quotient by that zero, which is an infinity or no number, and never
    999. *)
Theorem zero_determinant_is_divided_by
    (dcaX dcaY cXXatDCA cYYatDCA cXYatDCA : float) (s : bool) :
  F32.sub (F32.mul cXXatDCA cYYatDCA) (F32.mul cXYatDCA cXYatDCA) = S754_zero s ->
  let q := F32.sub
             (F32.add (F32.mul (F32.mul dcaX dcaX) cYYatDCA)
                      (F32.mul (F32.mul dcaY dcaY) cXXatDCA))
             (F32.mul (F32.mul (F32.mul (F32.of_int 2) dcaX) dcaY) cXYatDCA) in
  let sigma := dcaXYinSigma dcaX dcaY cXXatDCA cYYatDCA cXYatDCA in
  sigma = F32.sqrt (F32.fabs (F32.div (F32.div q (S754_zero s)) (F32.of_int 2)))
  /\ sigma <> F32.of_int 999
  /\ (sigma = S754_infinity false \/ sigma = S754_nan).
Proof.
  intros D. cbv zeta.
  assert (E : dcaXYinSigma dcaX dcaY cXXatDCA cYYatDCA cXYatDCA
              = F32.sqrt (F32.fabs (F32.div (F32.div
                  (significanceNumerator dcaX dcaY cXXatDCA cYYatDCA cXYatDCA)
                  (S754_zero s)) (F32.of_int 2)))).
  { rewrite dcaXYinSigma_not_below_zero; unfold determinant; rewrite D;
      [reflexivity | destruct s; reflexivity]. }
  pose proof (sqrt_fabs_div_zero
                (significanceNumerator dcaX dcaY cXXatDCA cYYatDCA cXYatDCA) s) as Z.
  cbv zeta in Z. rewrite <- E in Z.
  split; [exact E|]. split; [|exact Z].
  rewrite of_int_999. destruct Z as [-> | ->]; discriminate.
Qed.

Lemma zero_determinant_is_divided_by_witness :
  dcaXYinSigma (F32.of_int 1) (F32.of_int 0) (F32.of_int 1) (F32.of_int 1) (F32.of_int 1)
  <> F32.of_int 999
  /\ dcaXYinSigma (F32.of_int 1) (F32.of_int 0) (F32.of_int 1) (F32.of_int 1) (F32.of_int 1)
     = S754_infinity false.
Proof.
  split.
  - apply (proj1 (proj2 (zero_determinant_is_divided_by (F32.of_int 1) (F32.of_int 0)
                           (F32.of_int 1) (F32.of_int 1) (F32.of_int 1) false
                           ltac:(vm_compute; reflexivity)))).
  - vm_compute. reflexivity.
Defined.

(** ** The self-association tasks *)

Lemma fold_left_collect {X : Type} (step : list Z -> X -> list Z) (sel : X -> list Z) :
  (forall acc x, step acc x = acc ++ sel x) ->
  forall l acc, fold_left step l acc = acc ++ flat_map sel l.
Proof.
  intros Hstep. induction l as [|x l IH]; intros acc; simpl.
  - rewrite app_nil_r. reflexivity.
  - rewrite IH, Hstep, <- app_assoc. reflexivity.
Qed.

Lemma nth_error_combine_seq {A : Type} (l : list A) (s i : nat) :
  nth_error (combine (map Z.of_nat (seq s (List.length l))) l) i
  = option_map (fun a => (Z.of_nat (s + i), a)) (nth_error l i).
Proof.
  revert s i. induction l as [|a l IH]; intros s i; simpl.
  - destruct i; reflexivity.
  - destruct i as [|i]; simpl.
    + rewrite Nat.add_0_r. reflexivity.
    + rewrite IH. replace (S s + i)%nat with (s + S i)%nat by lia. reflexivity.
Qed.

Lemma nth_error_indexed {A : Type} (l : list A) (i : nat) :
  nth_error (indexed l) i = option_map (fun a => (Z.of_nat i, a)) (nth_error l i).
Proof. unfold indexed. rewrite nth_error_combine_seq. reflexivity. Qed.

Lemma In_indexed {A : Type} (l : list A) (z : Z) (a : A) :
  In (z, a) (indexed l) <-> exists j, z = Z.of_nat j /\ nth_error l j = Some a.
Proof.
  split.
  - intros H. apply In_nth_error in H. destruct H as [j H].
    rewrite nth_error_indexed in H. exists j.
    destruct (nth_error l j) as [b|]; simpl in H; [|discriminate H].
    injection H as H1 H2. subst. split; reflexivity.
  - intros [j [-> H]]. apply (nth_error_In _ j).
    rewrite nth_error_indexed, H. reflexivity.
Qed.

Lemma to_int_small (j : nat) : Z.of_nat j < 2 ^ 31 -> to_int (Z.of_nat j) = Z.of_nat j.
Proof. intros H. unfold to_int. rewrite Z.mod_small; lia. Qed.

Lemma nth_error_bound {A : Type} (l : list A) (j : nat) (a : A) :
  nth_error l j = Some a -> Z.of_nat (List.length l) <= 2 ^ 31 -> Z.of_nat j < 2 ^ 31.
Proof.
  intros H B. assert (j < List.length l)%nat by (apply nth_error_Some; congruence). lia.
Qed.

Lemma associateAmbiguousMuon_nth muons i muon :
  nth_error muons i = Some muon ->
  nth_error (associateAmbiguousMuon muons) i
  = Some (flat_map (ambiguousContribution (Z.of_nat i, muon))
            (filter (fun m : Z * EMPrimaryMuon.t =>
                       EMPrimaryMuon.fwdtrackId (snd m) =? EMPrimaryMuon.fwdtrackId muon)
                    (indexed muons))).
Proof.
  intros H. unfold associateAmbiguousMuon.
  rewrite nth_error_map, nth_error_indexed, H. cbn [option_map fst snd]. f_equal.
  rewrite (fold_left_collect _ (ambiguousContribution (Z.of_nat i, muon))); [reflexivity|].
  intros acc x. unfold ambiguousContribution. cbn [fst snd].
  destruct (fst x =? Z.of_nat i); [rewrite app_nil_r|]; reflexivity.
Qed.

Lemma associateSameMFT_nth muons i muon :
  nth_error muons i = Some muon ->
  nth_error (associateSameMFT muons) i
  = Some (if EMPrimaryMuon.trackType muon =? static_cast_uint8 GlobalMuonTrack then
            flat_map (sameMFTContribution (Z.of_nat i, muon))
              (filter (fun m : Z * EMPrimaryMuon.t =>
                         EMPrimaryMuon.mfttrackId (snd m) =? EMPrimaryMuon.mfttrackId muon)
                      (indexed muons))
          else []).
Proof.
  intros H. unfold associateSameMFT.
  rewrite nth_error_map, nth_error_indexed, H. cbn [option_map fst snd]. f_equal.
  destruct (EMPrimaryMuon.trackType muon =? static_cast_uint8 GlobalMuonTrack); [|reflexivity].
  rewrite (fold_left_collect _ (sameMFTContribution (Z.of_nat i, muon))); [reflexivity|].
  intros acc x. unfold sameMFTContribution. cbn [fst snd].
  destruct (fst x =? Z.of_nat i); [rewrite app_nil_r; reflexivity|].
  destruct (_ =? _); [|rewrite app_nil_r]; reflexivity.
Qed.

(** The members of the two kinds of vectors. *)
Lemma In_ambiguous muons i muon k :
  In k (flat_map (ambiguousContribution (Z.of_nat i, muon))
          (filter (fun m : Z * EMPrimaryMuon.t =>
                     EMPrimaryMuon.fwdtrackId (snd m) =? EMPrimaryMuon.fwdtrackId muon)
                  (indexed muons)))
  <-> exists j other,
        nth_error muons j = Some other /\ k = to_int (Z.of_nat j) /\ j <> i
        /\ EMPrimaryMuon.fwdtrackId other = EMPrimaryMuon.fwdtrackId muon.
Proof.
  rewrite in_flat_map. split.
  - intros [[z other] [Hin Hk]]. apply filter_In in Hin. destruct Hin as [Hin Hp].
    apply In_indexed in Hin. destruct Hin as [j [-> Hj]].
    unfold ambiguousContribution in Hk. cbn [fst snd] in Hk, Hp.
    destruct (Z.of_nat j =? Z.of_nat i) eqn:E; [destruct Hk|].
    destruct Hk as [<-|[]]. exists j, other.
    apply Z.eqb_neq in E. apply Z.eqb_eq in Hp. repeat split; try assumption.
    intros ->. apply E. reflexivity.
  - intros [j [other [Hj [-> [Hne Hf]]]]]. exists (Z.of_nat j, other). split.
    + apply filter_In. split; [apply In_indexed; exists j; split; [reflexivity|exact Hj]|].
      cbn [snd]. apply Z.eqb_eq, Hf.
    + unfold ambiguousContribution. cbn [fst snd].
      destruct (Z.of_nat j =? Z.of_nat i) eqn:E; [|left; reflexivity].
      apply Z.eqb_eq in E. lia.
Qed.

Lemma In_sameMFT muons i muon k :
  In k (flat_map (sameMFTContribution (Z.of_nat i, muon))
          (filter (fun m : Z * EMPrimaryMuon.t =>
                     EMPrimaryMuon.mfttrackId (snd m) =? EMPrimaryMuon.mfttrackId muon)
                  (indexed muons)))
  <-> exists j other,
        nth_error muons j = Some other /\ k = to_int (Z.of_nat j) /\ j <> i
        /\ EMPrimaryMuon.mfttrackId other = EMPrimaryMuon.mfttrackId muon
        /\ EMPrimaryMuon.collisionId other = EMPrimaryMuon.collisionId muon.
Proof.
  rewrite in_flat_map. split.
  - intros [[z other] [Hin Hk]]. apply filter_In in Hin. destruct Hin as [Hin Hp].
    apply In_indexed in Hin. destruct Hin as [j [-> Hj]].
    unfold sameMFTContribution in Hk. cbn [fst snd] in Hk, Hp.
    destruct (Z.of_nat j =? Z.of_nat i) eqn:E; [destruct Hk|].
    destruct (EMPrimaryMuon.collisionId other =? EMPrimaryMuon.collisionId muon) eqn:C;
      [|destruct Hk].
    destruct Hk as [<-|[]]. exists j, other.
    apply Z.eqb_neq in E. apply Z.eqb_eq in Hp, C. repeat split; try assumption.
    intros ->. apply E. reflexivity.
  - intros [j [other [Hj [-> [Hne [Hf Hc]]]]]]. exists (Z.of_nat j, other). split.
    + apply filter_In. split; [apply In_indexed; exists j; split; [reflexivity|exact Hj]|].
      cbn [snd]. apply Z.eqb_eq, Hf.
    + unfold sameMFTContribution. cbn [fst snd].
      destruct (Z.of_nat j =? Z.of_nat i) eqn:E; [apply Z.eqb_eq in E; lia|].
      apply Z.eqb_eq in Hc. rewrite Hc. left. reflexivity.
Qed.

(** C8: in [associateSameMFT], the vector of a global muon holds exactly
    the indices of the other candidates that have both its MFT track and
    its collision, so a candidate with the same MFT track and another
    collision is not in it (nor is the global muon in the vector of that
    candidate); the vector of a candidate of any other type, hence of
    every standalone muon, is empty.  Indices are stored as [int]: the
    table has at most 2^31 rows. *)
Theorem associateSameMFT_lists
    (muons : list EMPrimaryMuon.t) (i : nat) (muon : EMPrimaryMuon.t) :
  nth_error muons i = Some muon ->
  Z.of_nat (List.length muons) <= 2 ^ 31 ->
  exists self_Ids,
    nth_error (associateSameMFT muons) i = Some self_Ids
    /\ (EMPrimaryMuon.trackType muon = static_cast_uint8 GlobalMuonTrack ->
        (forall j other, nth_error muons j = Some other ->
           (In (Z.of_nat j) self_Ids <->
            j <> i
            /\ EMPrimaryMuon.mfttrackId other = EMPrimaryMuon.mfttrackId muon
            /\ EMPrimaryMuon.collisionId other = EMPrimaryMuon.collisionId muon))
        /\ (forall k, In k self_Ids ->
              exists j other, k = Z.of_nat j /\ nth_error muons j = Some other))
    /\ (forall j other, nth_error muons j = Some other ->
          EMPrimaryMuon.mfttrackId other = EMPrimaryMuon.mfttrackId muon ->
          EMPrimaryMuon.collisionId other <> EMPrimaryMuon.collisionId muon ->
          ~ In (Z.of_nat j) self_Ids
          /\ (forall ids_other, nth_error (associateSameMFT muons) j = Some ids_other ->
                ~ In (Z.of_nat i) ids_other))
    /\ (EMPrimaryMuon.trackType muon <> static_cast_uint8 GlobalMuonTrack -> self_Ids = [])
    /\ (EMPrimaryMuon.trackType muon = static_cast_uint8 MuonStandaloneTrack -> self_Ids = []).
Proof.
  intros Hi B. eexists. split; [apply associateSameMFT_nth, Hi|].
  assert (Small : forall j other, nth_error muons j = Some other ->
                    to_int (Z.of_nat j) = Z.of_nat j).
  { intros j other Hj. apply to_int_small. exact (nth_error_bound muons j other Hj B). }
  assert (NotIn : forall a b ma mb, nth_error muons a = Some ma -> nth_error muons b = Some mb ->
            EMPrimaryMuon.collisionId mb <> EMPrimaryMuon.collisionId ma ->
            ~ In (Z.of_nat b)
                (if EMPrimaryMuon.trackType ma =? static_cast_uint8 GlobalMuonTrack then
                   flat_map (sameMFTContribution (Z.of_nat a, ma))
                     (filter (fun m : Z * EMPrimaryMuon.t =>
                                EMPrimaryMuon.mfttrackId (snd m) =? EMPrimaryMuon.mfttrackId ma)
                             (indexed muons))
                 else [])).
  { intros a b ma mb Ha Hb Hc Hin.
    destruct (EMPrimaryMuon.trackType ma =? static_cast_uint8 GlobalMuonTrack); [|exact Hin].
    apply In_sameMFT in Hin. destruct Hin as [j [other [Hj [Hk [_ [_ Hcc]]]]]].
    rewrite (Small j other Hj) in Hk. apply Nat2Z.inj in Hk. subst j.
    rewrite Hb in Hj. injection Hj as <-. contradiction. }
  split; [|split; [|split]].
  - intros T. rewrite T, Z.eqb_refl. split.
    + intros j other Hj. rewrite In_sameMFT. split.
      * intros [j' [other' [Hj' [Hk [Hne [Hm Hc]]]]]].
        rewrite (Small j' other' Hj') in Hk. apply Nat2Z.inj in Hk. subst j'.
        rewrite Hj in Hj'. injection Hj' as <-. repeat split; assumption.
      * intros [Hne [Hm Hc]]. exists j, other. rewrite (Small j other Hj).
        repeat split; assumption.
    + intros k Hin. apply In_sameMFT in Hin.
      destruct Hin as [j [other [Hj [Hk _]]]]. exists j, other.
      rewrite (Small j other Hj) in Hk. split; assumption.
  - intros j other Hj Hm Hc. split.
    + exact (NotIn i j muon other Hi Hj Hc).
    + intros ids_other Hj'. rewrite (associateSameMFT_nth muons j other Hj) in Hj'.
      injection Hj' as <-. apply (NotIn j i other muon Hj Hi). congruence.
  - intros T. apply Z.eqb_neq in T. rewrite T. reflexivity.
  - intros T. rewrite T. reflexivity.
Qed.

Lemma associateSameMFT_lists_witness :
  exists self_Ids,
    nth_error (associateSameMFT exampleMuons) 0 = Some self_Ids
    /\ In 2 self_Ids /\ ~ In 1 self_Ids.
Proof.
  destruct (associateSameMFT_lists exampleMuons 0
              (finalRow defaultConfigurables (exampleExternals 1) exampleCollision
                 exampleGlobal true)
              eq_refl ltac:(vm_compute; discriminate))
    as [self_Ids [Hn [Hg [Hd _]]]].
  exists self_Ids. split; [exact Hn|]. split.
  - apply (proj1 (Hg eq_refl) 2%nat
             (finalRow defaultConfigurables (exampleExternals 1) exampleCollision
                exampleBadMatch false) eq_refl).
    repeat split. discriminate.
  - refine (proj1 (Hd 1%nat _ eq_refl eq_refl _)). vm_compute. discriminate.
Defined.

(** The vector of a muon in [associateAmbiguousMuon] holds exactly the
    indices of the other candidates made from the same forward track. *)
Lemma associateAmbiguousMuon_lists (muons : list EMPrimaryMuon.t) (i : nat)
    (muon : EMPrimaryMuon.t) :
  nth_error muons i = Some muon ->
  Z.of_nat (List.length muons) <= 2 ^ 31 ->
  exists ambmuon_self_Ids,
    nth_error (associateAmbiguousMuon muons) i = Some ambmuon_self_Ids
    /\ (forall j other, nth_error muons j = Some other ->
          (In (Z.of_nat j) ambmuon_self_Ids <->
           j <> i /\ EMPrimaryMuon.fwdtrackId other = EMPrimaryMuon.fwdtrackId muon)).
Proof.
  intros Hi B. eexists. split; [apply associateAmbiguousMuon_nth, Hi|].
  intros j other Hj. rewrite In_ambiguous. split.
  - intros [j' [other' [Hj' [Hk [Hne Hf]]]]].
    rewrite (to_int_small j' (nth_error_bound muons j' other' Hj' B)) in Hk.
    apply Nat2Z.inj in Hk. subst j'. rewrite Hj in Hj'. injection Hj' as <-.
    split; assumption.
  - intros [Hne Hf]. exists j, other.
    rewrite (to_int_small j (nth_error_bound muons j other Hj B)).
    repeat split; assumption.
Qed.

(** C9: in the table of [associateAmbiguousMuon] and in the table of
    [associateSameMFT], the vector of a candidate never holds the index
    of that candidate.  Indices are stored as [int]: the table has at
    most 2^31 rows. *)
Theorem no_own_index
    (muons : list EMPrimaryMuon.t) (i : nat) (muon : EMPrimaryMuon.t) :
  nth_error muons i = Some muon ->
  Z.of_nat (List.length muons) <= 2 ^ 31 ->
  exists ambmuon_self_Ids self_Ids,
    nth_error (associateAmbiguousMuon muons) i = Some ambmuon_self_Ids
    /\ nth_error (associateSameMFT muons) i = Some self_Ids
    /\ ~ In (Z.of_nat i) ambmuon_self_Ids
    /\ ~ In (Z.of_nat i) self_Ids.
Proof.
  intros Hi B. eexists. eexists.
  split; [apply associateAmbiguousMuon_nth, Hi|].
  split; [apply associateSameMFT_nth, Hi|].
  split.
  - intros Hin. apply In_ambiguous in Hin.
    destruct Hin as [j [other [Hj [Hk [Hne _]]]]].
    rewrite (to_int_small j (nth_error_bound muons j other Hj B)) in Hk.
    apply Nat2Z.inj in Hk. congruence.
  - intros Hin.
    destruct (EMPrimaryMuon.trackType muon =? static_cast_uint8 GlobalMuonTrack);
      [|exact Hin].
    apply In_sameMFT in Hin.
    destruct Hin as [j [other [Hj [Hk [Hne _]]]]].
    rewrite (to_int_small j (nth_error_bound muons j other Hj B)) in Hk.
    apply Nat2Z.inj in Hk. congruence.
Qed.

Lemma no_own_index_witness :
  exists ambmuon_self_Ids self_Ids,
    nth_error (associateAmbiguousMuon exampleMuons) 0 = Some ambmuon_self_Ids
    /\ nth_error (associateSameMFT exampleMuons) 0 = Some self_Ids
    /\ ~ In 0 ambmuon_self_Ids
    /\ ~ In 0 self_Ids.
Proof.
  exact (no_own_index exampleMuons 0
           (finalRow defaultConfigurables (exampleExternals 1) exampleCollision
              exampleGlobal true)
           eq_refl ltac:(vm_compute; discriminate)).
Defined.

(** The tables of the two tasks on the three candidates of
    [exampleMuons]. *)
Example associate_exampleMuons :
  associateAmbiguousMuon exampleMuons = [[1]; [0]; []]
  /\ associateSameMFT exampleMuons = [[2]; []; [0]].
Proof. vm_compute. split; reflexivity. Qed.

(** * Further properties of the task *)

(** ** The histograms *)

Lemma addHistograms_booked :
  addHistograms []
  = [ ("hMuonType", kTH1F);
      ("MFTMCHMID/hPt", kTH1F); ("MFTMCHMID/hEtaPhi", kTH2F);
      ("MFTMCHMID/hEtaPhi_MatchedMCHMID", kTH2F); ("MFTMCHMID/hDeltaPt_Pt", kTH2F);
      ("MFTMCHMID/hDeltaEta_Pt", kTH2F); ("MFTMCHMID/hDeltaPhi_Pt", kTH2F);
      ("MFTMCHMID/hSign", kTH1F); ("MFTMCHMID/hNclusters", kTH1F);
      ("MFTMCHMID/hNclustersMFT", kTH1F); ("MFTMCHMID/hRatAbsorberEnd", kTH1F);
      ("MFTMCHMID/hPDCA_Rabs", kTH2F); ("MFTMCHMID/hChi2", kTH1F);
      ("MFTMCHMID/hChi2MFT", kTH1F); ("MFTMCHMID/hChi2MatchMCHMID", kTH1F);
      ("MFTMCHMID/hChi2MatchMCHMFT", kTH1F); ("MFTMCHMID/hDCAxy2D", kTH2F);
      ("MFTMCHMID/hDCAxy2DinSigma", kTH2F); ("MFTMCHMID/hDCAxy", kTH1F);
      ("MFTMCHMID/hDCAxyinSigma", kTH1F);
      ("MCHMID/hPt", kTH1F); ("MCHMID/hEtaPhi", kTH2F);
      ("MCHMID/hEtaPhi_MatchedMCHMID", kTH2F); ("MCHMID/hDeltaPt_Pt", kTH2F);
      ("MCHMID/hDeltaEta_Pt", kTH2F); ("MCHMID/hDeltaPhi_Pt", kTH2F);
      ("MCHMID/hSign", kTH1F); ("MCHMID/hNclusters", kTH1F);
      ("MCHMID/hNclustersMFT", kTH1F); ("MCHMID/hRatAbsorberEnd", kTH1F);
      ("MCHMID/hPDCA_Rabs", kTH2F); ("MCHMID/hChi2", kTH1F);
      ("MCHMID/hChi2MFT", kTH1F); ("MCHMID/hChi2MatchMCHMID", kTH1F);
      ("MCHMID/hChi2MatchMCHMFT", kTH1F); ("MCHMID/hDCAxy2D", kTH2F);
      ("MCHMID/hDCAxy2DinSigma", kTH2F); ("MCHMID/hDCAxy", kTH1F);
      ("MCHMID/hDCAxyinSigma", kTH1F);
      ("MFTMCHMID/hDCAxResolutionvsPt", kTH2F); ("MFTMCHMID/hDCAyResolutionvsPt", kTH2F);
      ("MFTMCHMID/hDCAxyResolutionvsPt", kTH2F);
      ("MCHMID/hDCAxResolutionvsPt", kTH2F); ("MCHMID/hDCAyResolutionvsPt", kTH2F);
      ("MCHMID/hDCAxyResolutionvsPt", kTH2F) ]%string.
Proof. vm_compute. reflexivity. Qed.

Lemma qaHistograms_shape dir fwdtrack pt eta phi ptM etaM phiM dpt deta dphi nMFT pDCA rAbs
    chi2val chi2mft dcaX dcaY cXX cYY cXY dcaXY sig sigma :
  map fillShape
    (qaHistograms dir fwdtrack pt eta phi ptM etaM phiM dpt deta dphi nMFT pDCA rAbs
       chi2val chi2mft dcaX dcaY cXX cYY cXY dcaXY sig sigma)
  = map (fun s => ((dir ++ fst s)%string, snd s)) qaShape.
Proof. reflexivity. Qed.

Lemma qaShape_booked (dir : string) :
  dir = "MFTMCHMID/"%string \/ dir = "MCHMID/"%string ->
  fills_booked (addHistograms [])
    (("hMuonType"%string, 1%nat) :: map (fun s => ((dir ++ fst s)%string, snd s)) qaShape)
  = true.
Proof. intros [-> | ->]; vm_compute; reflexivity. Qed.

Lemma fills_booked_In booked fs name n :
  fills_booked booked fs = true -> In (name, n) fs ->
  exists k, In (name, k) booked /\ n = dimension k.
Proof.
  unfold fills_booked. rewrite forallb_forall. intros H Hin.
  specialize (H _ Hin). cbn [fst snd] in H.
  destruct (find (fun h => String.eqb (fst h) name) booked) as [[name' k]|] eqn:F;
    [|discriminate H].
  apply find_some in F. destruct F as [Hb E]. cbn [fst] in E.
  apply String.eqb_eq in E. subst name'. cbn [snd] in H.
  apply Nat.eqb_eq in H. exists k. split; [exact Hb|symmetry; exact H].
Qed.

(** X1: the histograms that [fillFwdTrackTable] fills are all booked by
    [init], each with as many values as the histogram has dimensions;
    nothing is filled when [fillQAHistograms] is unset or when no row is
    written, and 23 histograms are filled when [fillQAHistograms] is set
    and a row is written, that is, for a track that passes the three
    guards of lines 209-219 and that [isSelected] accepts. *)
Theorem filled_histograms_are_booked
    (cfg : Configurables) (ext : Externals) (collision : Collision.t)
    (fwdtrack : FwdTrack.t) (isAmbiguous : bool) (st : TaskState) :
  let st' := fillFwdTrackTable cfg ext collision fwdtrack isAmbiguous st in
  exists filled,
    fRegistry st' = fRegistry st ++ filled
    /\ (fillQAHistograms cfg = false -> filled = [])
    /\ (emprimarymuons st' = emprimarymuons st -> filled = [])
    /\ (filled = [] \/ List.length filled = 23%nat)
    /\ (fillQAHistograms cfg = true ->
        rejectedBeforePropagation cfg fwdtrack = false ->
        finalSelected cfg ext collision fwdtrack = true ->
        List.length filled = 23%nat)
    /\ (fillQAHistograms cfg = true ->
        emprimarymuons st' <> emprimarymuons st ->
        List.length filled = 23%nat)
    /\ (forall name xs, In (name, xs) filled ->
          exists k, In (name, k) (snd (init cfg)) /\ List.length xs = dimension k).
Proof.
  cbv zeta. rewrite fillFwdTrackTable_fRegistry, fillFwdTrackTable_emprimarymuons.
  eexists. split; [reflexivity|].
  destruct (emits cfg ext collision fwdtrack) eqn:Em; cbn [andb].
  - destruct (fillQAHistograms cfg) eqn:Q.
    + split; [discriminate|]. split.
      { intros H. rewrite <- (app_nil_r (emprimarymuons st)) in H at 2.
        apply app_inv_head in H. discriminate H. }
      split; [right; reflexivity|].
      split; [intros _ _ _; reflexivity|].
      split; [intros _ _; reflexivity|].
      intros name xs H. unfold init. rewrite Q. cbn [snd].
      apply (in_map fillShape) in H. unfold finalHistograms in H.
      cbn [map] in H. rewrite qaHistograms_shape in H.
      eapply fills_booked_In; [|exact H].
      apply qaShape_booked. destruct (isGlobal fwdtrack); [left|right]; reflexivity.
    + split; [reflexivity|]. split; [reflexivity|]. split; [left; reflexivity|].
      split; [discriminate|]. split; [discriminate|]. intros name xs [].
  - split; [reflexivity|]. split; [reflexivity|]. split; [left; reflexivity|].
    split; [|split].
    + intros _ R H. rewrite emits_accepted, R, H in Em. discriminate Em.
    + intros _ N. elim N. apply app_nil_r.
    + intros name xs [].
Qed.

(** With [fillQAHistograms] set, the global muon of the example is
    written and fills its 23 histograms, the first of them [hMuonType]
    with the type of the track. *)
Lemma filled_histograms_are_booked_witness :
  let st' := fillFwdTrackTable exampleQA (exampleExternals 1) exampleCollision exampleGlobal
               false initState in
  List.length (fRegistry st') = 23%nat
  /\ hd_error (fRegistry st')
     = Some ("hMuonType"%string, [F64.of_int (static_cast_uint8 GlobalMuonTrack)]).
Proof.
  cbv zeta.
  destruct (filled_histograms_are_booked exampleQA (exampleExternals 1) exampleCollision
              exampleGlobal false initState) as [filled [E [_ [_ [_ [H [_ _]]]]]]].
  split.
  - rewrite E. cbn [fRegistry initState app]. apply H; vm_compute; reflexivity.
  - vm_compute. reflexivity.
Defined.

(** ** The rows that are written *)

Lemma emits_finalSelected cfg ext collision fwdtrack :
  emits cfg ext collision fwdtrack = true ->
  finalSelected cfg ext collision fwdtrack = true
  /\ rejectedBeforePropagation cfg fwdtrack = false.
Proof.
  unfold emits. intros H. apply andb_prop in H. destruct H as [R H].
  apply negb_true_iff in R. split; [|exact R].
  destruct (isGlobal fwdtrack); apply andb_prop in H; apply H.
Qed.

(** X2: a row that [fillFwdTrackTable] writes passes [isSelected] on the
    metrics it stores: its pt, eta, radius at the end of the absorber, pDCA
    and type, the DCA recomputed from its dcaX and dcaY, and its chi2
    divided by the number of degrees of freedom (that of the matched
    tracks for a global muon, 1 for a standalone muon). *)
Theorem written_row_is_selected
    (cfg : Configurables) (ext : Externals) (collision : Collision.t)
    (fwdtrack : FwdTrack.t) (isAmbiguous : bool) (st : TaskState) (row : EMPrimaryMuon.t) :
  emprimarymuons (fillFwdTrackTable cfg ext collision fwdtrack isAmbiguous st)
  = emprimarymuons st ++ [row] ->
  let dcaXY :=
    F32.sqrt (F32.add (F32.mul (EMPrimaryMuon.fwdDcaX row) (EMPrimaryMuon.fwdDcaX row))
                      (F32.mul (EMPrimaryMuon.fwdDcaY row) (EMPrimaryMuon.fwdDcaY row))) in
  let ndf_mchmft :=
    if EMPrimaryMuon.trackType row =? static_cast_uint8 GlobalMuonTrack
    then ndf_mchmft_of (matchMCHTrack_as ext fwdtrack)
           (MFTTrack.nClusters (matchMFTTrack_as ext fwdtrack))
    else 1 in
  isSelected cfg (EMPrimaryMuon.pt row) (EMPrimaryMuon.eta row)
    (EMPrimaryMuon.rAtAbsorberEnd row) (EMPrimaryMuon.pDCA row)
    (F32.div (EMPrimaryMuon.chi2 row) (F32.of_int ndf_mchmft))
    (EMPrimaryMuon.trackType row) dcaXY = true.
Proof.
  intros H. apply fillFwdTrackTable_appended in H. destruct H as [E ->].
  apply emits_finalSelected in E. destruct E as [E _]. exact E.
Qed.

Lemma written_row_is_selected_witness :
  let row := finalRow defaultConfigurables (exampleExternals 1) exampleCollision
               exampleGlobal false in
  isSelected defaultConfigurables (EMPrimaryMuon.pt row) (EMPrimaryMuon.eta row)
    (EMPrimaryMuon.rAtAbsorberEnd row) (EMPrimaryMuon.pDCA row)
    (F32.div (EMPrimaryMuon.chi2 row) (F32.of_int 25))
    (EMPrimaryMuon.trackType row)
    (F32.sqrt (F32.add (F32.mul (EMPrimaryMuon.fwdDcaX row) (EMPrimaryMuon.fwdDcaX row))
                       (F32.mul (EMPrimaryMuon.fwdDcaY row) (EMPrimaryMuon.fwdDcaY row))))
  = true.
Proof.
  exact (written_row_is_selected defaultConfigurables (exampleExternals 1) exampleCollision
           exampleGlobal false initState
           (finalRow defaultConfigurables (exampleExternals 1) exampleCollision
              exampleGlobal false)
           ltac:(vm_compute; reflexivity)).
Defined.

(** X3: a row that [fillFwdTrackTable] writes is of a global or of a
    standalone muon whose chi2 and chi2MatchMCHMID are not below zero
    and, for a global muon, whose chi2MatchMCHMFT is not above
    maxMatchingChi2MCHMFT; its identifiers and flags are those of the
    call: the index of the collision, the index and the match indices of
    the track, [isAmbiguous], and whether the collision is the one the
    track is assigned to. *)
Theorem written_row_columns
    (cfg : Configurables) (ext : Externals) (collision : Collision.t)
    (fwdtrack : FwdTrack.t) (isAmbiguous : bool) (st : TaskState) (row : EMPrimaryMuon.t) :
  emprimarymuons (fillFwdTrackTable cfg ext collision fwdtrack isAmbiguous st)
  = emprimarymuons st ++ [row] ->
  (EMPrimaryMuon.trackType row = static_cast_uint8 GlobalMuonTrack
   \/ EMPrimaryMuon.trackType row = static_cast_uint8 MuonStandaloneTrack)
  /\ F32.ltb (EMPrimaryMuon.chi2 row) (F32.of_int 0) = false
  /\ F32.ltb (EMPrimaryMuon.chi2MatchMCHMID row) (F32.of_int 0) = false
  /\ (EMPrimaryMuon.trackType row = static_cast_uint8 GlobalMuonTrack ->
      F32.ltb (maxMatchingChi2MCHMFT cfg) (EMPrimaryMuon.chi2MatchMCHMFT row) = false)
  /\ EMPrimaryMuon.collisionId row = Collision.globalIndex collision
  /\ EMPrimaryMuon.fwdtrackId row = FwdTrack.globalIndex fwdtrack
  /\ EMPrimaryMuon.mfttrackId row = FwdTrack.matchMFTTrackId fwdtrack
  /\ EMPrimaryMuon.mchtrackId row = FwdTrack.matchMCHTrackId fwdtrack
  /\ EMPrimaryMuon.trackType row = FwdTrack.trackType fwdtrack
  /\ EMPrimaryMuon.isAmbiguous row = isAmbiguous
  /\ (EMPrimaryMuon.isAssociatedToMPC row = true <->
      FwdTrack.collisionId fwdtrack = Collision.globalIndex collision).
Proof.
  intros H. apply fillFwdTrackTable_appended in H. destruct H as [E ->].
  pose proof (emits_type cfg ext collision fwdtrack E) as T.
  apply emits_finalSelected in E. destruct E as [_ R].
  unfold rejectedBeforePropagation in R.
  apply orb_false_iff in R. destruct R as [R R3].
  apply orb_false_iff in R. destruct R as [R1 R2].
  unfold finalRow, candidateRow.
  cbn [EMPrimaryMuon.trackType EMPrimaryMuon.chi2 EMPrimaryMuon.chi2MatchMCHMID
       EMPrimaryMuon.chi2MatchMCHMFT EMPrimaryMuon.collisionId EMPrimaryMuon.fwdtrackId
       EMPrimaryMuon.mfttrackId EMPrimaryMuon.mchtrackId EMPrimaryMuon.isAmbiguous
       EMPrimaryMuon.isAssociatedToMPC].
  repeat split; try assumption; try reflexivity.
  - intros G. rewrite G in R1. exact R1.
  - apply Z.eqb_eq.
  - apply Z.eqb_eq.
Qed.

Lemma written_row_columns_witness :
  let row := finalRow defaultConfigurables (exampleExternals 1) exampleCollision1
               exampleGlobal true in
  EMPrimaryMuon.collisionId row = 1
  /\ EMPrimaryMuon.fwdtrackId row = 7
  /\ EMPrimaryMuon.isAmbiguous row = true
  /\ EMPrimaryMuon.isAssociatedToMPC row = false.
Proof.
  pose proof (written_row_columns defaultConfigurables (exampleExternals 1) exampleCollision1
                exampleGlobal true initState
                (finalRow defaultConfigurables (exampleExternals 1) exampleCollision1
                   exampleGlobal true)
                ltac:(vm_compute; reflexivity))
    as [_ [_ [_ [_ [Hc [Hf [_ [_ [_ [Ha _]]]]]]]]]].
  cbv zeta. split; [exact Hc|]. split; [exact Hf|]. split; [exact Ha|]. reflexivity.
Defined.

(** X4: for a standalone muon that is written, the kinematics stored as
    those of the matched MCH-MID track are the kinematics of the row
    itself, the MFT columns are zero, and the radius at the end of the
    absorber is the one recomputed from the propagation to the end of the
    absorber, not the column of the input track; for a global muon the
    radius is the column of the input track. *)
Theorem written_standalone_row
    (cfg : Configurables) (ext : Externals) (collision : Collision.t)
    (fwdtrack : FwdTrack.t) (isAmbiguous : bool) (st : TaskState) (row : EMPrimaryMuon.t) :
  emprimarymuons (fillFwdTrackTable cfg ext collision fwdtrack isAmbiguous st)
  = emprimarymuons st ++ [row] ->
  (FwdTrack.trackType fwdtrack = static_cast_uint8 MuonStandaloneTrack ->
   let propmuonAtRabs := propagateMuon ext fwdtrack collision kToRabs in
   let xAbs := F32.of_double (GlobalFwdTrack.getX propmuonAtRabs) in
   let yAbs := F32.of_double (GlobalFwdTrack.getY propmuonAtRabs) in
   EMPrimaryMuon.ptMatchedMCHMID row = EMPrimaryMuon.pt row
   /\ EMPrimaryMuon.etaMatchedMCHMID row = EMPrimaryMuon.eta row
   /\ EMPrimaryMuon.phiMatchedMCHMID row = EMPrimaryMuon.phi row
   /\ EMPrimaryMuon.mftClusterSizesAndTrackFlags row = 0
   /\ EMPrimaryMuon.chi2MFT row = S754_zero false
   /\ EMPrimaryMuon.rAtAbsorberEnd row
      = F32.sqrt (F32.add (F32.mul xAbs xAbs) (F32.mul yAbs yAbs)))
  /\ (FwdTrack.trackType fwdtrack = static_cast_uint8 GlobalMuonTrack ->
      EMPrimaryMuon.rAtAbsorberEnd row = FwdTrack.rAtAbsorberEnd fwdtrack
      /\ EMPrimaryMuon.mftClusterSizesAndTrackFlags row
         = MFTTrack.mftClusterSizesAndTrackFlags (matchMFTTrack_as ext fwdtrack)
      /\ EMPrimaryMuon.chi2MFT row = MFTTrack.chi2 (matchMFTTrack_as ext fwdtrack)).
Proof.
  intros H. apply fillFwdTrackTable_appended in H. destruct H as [_ ->].
  unfold finalRow, candidateRow, finalPt, finalEta, finalPhi, finalRabs, matchedLeg, isGlobal,
    mfttrackOf, trackRabs.
  cbn [EMPrimaryMuon.ptMatchedMCHMID EMPrimaryMuon.etaMatchedMCHMID
       EMPrimaryMuon.phiMatchedMCHMID EMPrimaryMuon.pt EMPrimaryMuon.eta EMPrimaryMuon.phi
       EMPrimaryMuon.mftClusterSizesAndTrackFlags EMPrimaryMuon.chi2MFT
       EMPrimaryMuon.rAtAbsorberEnd].
  split; intros T; rewrite T; cbn [static_cast_uint8 Z.eqb andb]; repeat split.
Qed.

Lemma written_standalone_row_witness :
  let row := finalRow defaultConfigurables (exampleExternals 1) exampleCollision
               exampleMCHMID false in
  EMPrimaryMuon.ptMatchedMCHMID row = EMPrimaryMuon.pt row
  /\ EMPrimaryMuon.mftClusterSizesAndTrackFlags row = 0
  /\ EMPrimaryMuon.rAtAbsorberEnd row = F32.of_int 30.
Proof.
  pose proof (proj1 (written_standalone_row defaultConfigurables (exampleExternals 1)
                       exampleCollision exampleMCHMID false initState
                       (finalRow defaultConfigurables (exampleExternals 1) exampleCollision
                          exampleMCHMID false)
                       ltac:(vm_compute; reflexivity)) eq_refl)
    as [Hp [_ [_ [Hf [_ Hr]]]]].
  cbv zeta. split; [exact Hp|]. split; [exact Hf|].
  rewrite Hr. vm_compute. reflexivity.
Defined.

(** ** The calls to the propagation *)

(** X5: [fillFwdTrackTable] calls [propagateMuon] not at all, or twice
    for the track (to the vertex, then to the DCA plane), followed for a
    standalone muon by the propagation of the track to the end of the
    absorber and for a global muon by the two propagations of its matched
    MCH-MID track; never more.  A standalone muon that is written took
    three calls and a global muon four; a track of another type that
    passes the three guards takes the two propagations and is not
    written. *)
Theorem propagations_of_a_track
    (cfg : Configurables) (ext : Externals) (collision : Collision.t)
    (fwdtrack : FwdTrack.t) (isAmbiguous : bool) (st : TaskState) :
  let st' := fillFwdTrackTable cfg ext collision fwdtrack isAmbiguous st in
  let mchtrack := matchMCHTrack_as ext fwdtrack in
  let own := [(fwdtrack, collision, kToVertex); (fwdtrack, collision, kToDCA)] in
  let standalone := own ++ [(fwdtrack, collision, kToRabs)] in
  let global := own ++ [(mchtrack, collision, kToVertex); (mchtrack, collision, kToDCA)] in
  exists calls,
    propagateMuonCalls st' = propagateMuonCalls st ++ calls
    /\ (calls = [] \/ calls = own
        \/ (FwdTrack.trackType fwdtrack = static_cast_uint8 MuonStandaloneTrack
            /\ calls = standalone)
        \/ (FwdTrack.trackType fwdtrack = static_cast_uint8 GlobalMuonTrack
            /\ calls = global))
    /\ (emprimarymuons st' <> emprimarymuons st ->
        calls = standalone \/ calls = global)
    /\ (FwdTrack.trackType fwdtrack <> static_cast_uint8 GlobalMuonTrack ->
        FwdTrack.trackType fwdtrack <> static_cast_uint8 MuonStandaloneTrack ->
        rejectedBeforePropagation cfg fwdtrack = false ->
        calls = own /\ emprimarymuons st' = emprimarymuons st).
Proof.
  cbv zeta.
  rewrite fillFwdTrackTable_propagateMuonCalls, fillFwdTrackTable_emprimarymuons.
  eexists. split; [reflexivity|].
  unfold propagations, emits, isGlobal, isStandalone, mchtrackOf.
  destruct (rejectedBeforePropagation cfg fwdtrack); cbn [negb andb].
  - split; [left; reflexivity|]. split.
    + intros H. rewrite app_nil_r in H. contradiction H. reflexivity.
    + intros _ _ H. discriminate H.
  - destruct (FwdTrack.trackType fwdtrack =? static_cast_uint8 GlobalMuonTrack) eqn:G.
    + apply Z.eqb_eq in G.
      destruct (earlyCut cfg ext collision fwdtrack); cbn [negb andb app].
      * split; [right; left; reflexivity|]. split.
        { intros H. rewrite app_nil_r in H. contradiction H. reflexivity. }
        { intros N. contradiction. }
      * split; [right; right; right; split; [exact G|reflexivity]|]. split.
        { intros _. right. reflexivity. }
        { intros N. contradiction. }
    + apply Z.eqb_neq in G.
      destruct (FwdTrack.trackType fwdtrack =? static_cast_uint8 MuonStandaloneTrack) eqn:S.
      * apply Z.eqb_eq in S. cbn [app].
        split; [right; right; left; split; [exact S|reflexivity]|]. split.
        { intros _. left. reflexivity. }
        { intros _ N. contradiction. }
      * cbn [app andb]. split; [right; left; reflexivity|]. split.
        { intros H. rewrite app_nil_r in H. contradiction H. reflexivity. }
        { intros _ _ _. split; [reflexivity|apply app_nil_r]. }
Qed.

(** ** Signs and ranges of the computed metrics *)

Lemma sign_clear_SFmul_self prec emax x : sign_clear (SFmul prec emax x x) = true.
Proof.
  destruct x as [s|s| |s m e]; simpl; rewrite ?xorb_nilpotent; try reflexivity.
  apply sign_clear_binary_round_aux.
Qed.

Lemma sign_clear_binary_round prec emax m e :
  sign_clear (binary_round prec emax false m e) = true.
Proof.
  unfold binary_round. destruct (shl_align m e _) as [mz ez].
  apply sign_clear_binary_round_aux.
Qed.

Lemma sign_clear_SFadd prec emax x y :
  sign_clear x = true -> sign_clear y = true -> sign_clear (SFadd prec emax x y) = true.
Proof.
  destruct x as [sx|sx| |sx mx ex], y as [sy|sy| |sy my ey]; simpl;
    intros Hx Hy; try reflexivity;
    try (apply negb_true_iff in Hx); try (apply negb_true_iff in Hy); subst;
    try reflexivity.
  apply sign_clear_binary_round.
Qed.

Lemma sign_clear_SFsqrt prec emax x :
  sign_clear x = true -> sign_clear (SFsqrt prec emax x) = true.
Proof.
  destruct x as [s|s| |s m e]; simpl; intros H; try reflexivity;
    apply negb_true_iff in H; subst; try reflexivity.
  destruct (SFsqrt_core_binary prec emax (Z.pos m) e) as [[mz ez] lz].
  apply sign_clear_binary_round_aux.
Qed.

Lemma sign_clear_SFabs x : sign_clear (SFabs x) = true.
Proof. destruct x; reflexivity. Qed.

Lemma sign_clear_not_below_zero (x : float) :
  sign_clear x = true -> F32.ltb x (F32.of_int 0) = false.
Proof.
  destruct x as [s|s| |s m e]; simpl; intros H; try reflexivity;
    apply negb_true_iff in H; subst; reflexivity.
Qed.

Lemma sign_clear_sqrt_sum_squares (x y : float) :
  sign_clear (F32.sqrt (F32.add (F32.mul x x) (F32.mul y y))) = true.
Proof.
  apply sign_clear_SFsqrt, sign_clear_SFadd; apply sign_clear_SFmul_self.
Qed.

(** X6: the DCA of a track, the radius at the end of the absorber
    recomputed for a standalone muon and the DCA in units of sigma are
    never below zero: each is a NaN or has its sign bit clear, whatever
    the propagation returns. *)
Theorem computed_metrics_are_not_negative
    (ext : Externals) (collision : Collision.t) (track : FwdTrack.t)
    (dcaX dcaY cXXatDCA cYYatDCA cXYatDCA : float) :
  sign_clear (trackDcaXY ext collision track) = true
  /\ F32.ltb (trackDcaXY ext collision track) (F32.of_int 0) = false
  /\ sign_clear (trackRabs ext collision track) = true
  /\ F32.ltb (trackRabs ext collision track) (F32.of_int 0) = false
  /\ sign_clear (dcaXYinSigma dcaX dcaY cXXatDCA cYYatDCA cXYatDCA) = true
  /\ F32.ltb (dcaXYinSigma dcaX dcaY cXXatDCA cYYatDCA cXYatDCA) (F32.of_int 0) = false.
Proof.
  assert (A : sign_clear (trackDcaXY ext collision track) = true)
    by apply sign_clear_sqrt_sum_squares.
  assert (B : sign_clear (trackRabs ext collision track) = true)
    by apply sign_clear_sqrt_sum_squares.
  assert (C : sign_clear (dcaXYinSigma dcaX dcaY cXXatDCA cYYatDCA cXYatDCA) = true).
  { unfold dcaXYinSigma. destruct (F32.ltb _ _); [reflexivity|].
    apply sign_clear_SFsqrt, sign_clear_SFabs. }
  repeat split; try assumption; apply sign_clear_not_below_zero; assumption.
Qed.

(** ** The number of degrees of freedom *)

Lemma int8_sums_In (s : Z) : -256 <= s <= 254 -> In s int8_sums.
Proof.
  intros H. unfold int8_sums. apply in_map_iff.
  exists (Z.to_nat (s + 256)). split.
  - rewrite Z2Nat.id; lia.
  - apply in_seq. split; [apply Nat.le_0_l|].
    apply Nat2Z.inj_lt. rewrite Z2Nat.id; [|lia].
    change (Z.of_nat (0 + 511)) with 511. lia.
Qed.

Lemma ndf_exact_on_int8_sums : forallb ndf_exact_at int8_sums = true.
Proof. vm_compute. reflexivity. Qed.

(** X7: for cluster counts in the range of [int8_t], the number of
    degrees of freedom of line 275, computed in [float] and converted to
    [int], is exactly 2 * (nClusters of the MCH-MID track + nClusters of
    the MFT track) - 5; it is odd, hence never 0, and converts back to a
    finite [float] that is not a zero, so chi2 / ndf_mchmft is never a
    division by zero.  It is negative when the two tracks have fewer than
    three clusters together. *)
Theorem ndf_mchmft_is_exact (mchtrack : FwdTrack.t) (nClustersMFT : Z) :
  -128 <= FwdTrack.nClusters mchtrack <= 127 ->
  -128 <= nClustersMFT <= 127 ->
  let ndf_mchmft := ndf_mchmft_of mchtrack nClustersMFT in
  ndf_mchmft = 2 * (FwdTrack.nClusters mchtrack + nClustersMFT) - 5
  /\ ndf_mchmft <> 0
  /\ (forall s, F32.of_int ndf_mchmft <> S754_zero s)
  /\ (FwdTrack.nClusters mchtrack + nClustersMFT < 3 <-> ndf_mchmft < 0).
Proof.
  intros H1 H2. cbv zeta.
  assert (R : -256 <= FwdTrack.nClusters mchtrack + nClustersMFT <= 254) by lia.
  pose proof (proj1 (forallb_forall _ _) ndf_exact_on_int8_sums _ (int8_sums_In _ R)) as E.
  unfold ndf_exact_at in E. apply andb_prop in E. destruct E as [E F].
  apply Z.eqb_eq in E.
  assert (N : ndf_mchmft_of mchtrack nClustersMFT
              = 2 * (FwdTrack.nClusters mchtrack + nClustersMFT) - 5) by exact E.
  rewrite N. split; [reflexivity|]. split; [lia|]. split; [|lia].
  intros s Z. rewrite Z in F. discriminate F.
Qed.

Lemma ndf_mchmft_is_exact_witness :
  ndf_mchmft_of exampleMCHMID 5 = 25 /\ ndf_mchmft_of exampleMCHMID (-9) = -3.
Proof.
  split.
  - exact (proj1 (ndf_mchmft_is_exact exampleMCHMID 5
                    ltac:(vm_compute; split; discriminate)
                    ltac:(vm_compute; split; discriminate))).
  - exact (proj1 (ndf_mchmft_is_exact exampleMCHMID (-9)
                    ltac:(vm_compute; split; discriminate)
                    ltac:(vm_compute; split; discriminate))).
Defined.

(** ** The map of ambiguous tracks *)

Lemma mapAmb_lookup_fold (fwdtrackIndices : list FwdTrackAssoc.t) (k : Z)
    (fwdtracks : list FwdTrack.t) (acc : list (Z * bool)) :
  mapAmb_lookup
    (fold_left
       (fun mapAmb fwdtrack =>
          (FwdTrack.globalIndex fwdtrack,
           (1 <? List.length
                   (filter (fun a => (FwdTrackAssoc.fwdtrackId a
                                              =? FwdTrack.globalIndex fwdtrack)%Z)
                           fwdtrackIndices))%nat) :: mapAmb)
       fwdtracks acc) k
  = if existsb (fun t => FwdTrack.globalIndex t =? k) fwdtracks
    then (1 <? List.length (filter (fun a => (FwdTrackAssoc.fwdtrackId a =? k)%Z)
                                   fwdtrackIndices))%nat
    else mapAmb_lookup acc k.
Proof.
  revert acc. induction fwdtracks as [|t l IH]; intros acc; [reflexivity|].
  cbn [fold_left existsb]. rewrite IH.
  destruct (existsb (fun t => FwdTrack.globalIndex t =? k) l); [now rewrite orb_true_r|].
  rewrite orb_false_r. unfold mapAmb_lookup. cbn [find fst snd].
  destruct (FwdTrack.globalIndex t =? k) eqn:E; [|reflexivity].
  apply Z.eqb_eq in E. rewrite E. reflexivity.
Qed.

Lemma mapAmb_lookup_build (fwdtracks : list FwdTrack.t)
    (fwdtrackIndices : list FwdTrackAssoc.t) (k : Z) :
  mapAmb_lookup (build_mapAmb fwdtracks fwdtrackIndices) k
  = existsb (fun t => FwdTrack.globalIndex t =? k) fwdtracks
    && (1 <? List.length (filter (fun a => (FwdTrackAssoc.fwdtrackId a =? k)%Z)
                                 fwdtrackIndices))%nat.
Proof.
  unfold build_mapAmb. rewrite mapAmb_lookup_fold.
  destruct (existsb _ fwdtracks); reflexivity.
Qed.

(** X8: reading [mapAmb] as built by the TTCA process functions at a key
    gives [true] exactly when the key is the index of a track of the table
    and more than one row of the associator points to that track; a key
    that is the index of no track reads as [false]. *)
Theorem mapAmb_lookup_build_mapAmb
    (fwdtracks : list FwdTrack.t) (fwdtrackIndices : list FwdTrackAssoc.t) (k : Z) :
  (mapAmb_lookup (build_mapAmb fwdtracks fwdtrackIndices) k = true <->
   (exists t, In t fwdtracks /\ FwdTrack.globalIndex t = k)
   /\ (1 < List.length (filter (fun a => (FwdTrackAssoc.fwdtrackId a =? k)%Z)
                                fwdtrackIndices))%nat)
  /\ ((forall t, In t fwdtracks -> FwdTrack.globalIndex t <> k) ->
      mapAmb_lookup (build_mapAmb fwdtracks fwdtrackIndices) k = false).
Proof.
  rewrite mapAmb_lookup_build. split.
  - rewrite andb_true_iff, existsb_exists, Nat.ltb_lt. split.
    + intros [[t [Hin E]] L]. split; [|exact L]. exists t. split; [exact Hin|].
      apply Z.eqb_eq, E.
    + intros [[t [Hin E]] L]. split; [|exact L]. exists t. split; [exact Hin|].
      apply Z.eqb_eq, E.
  - intros H. apply andb_false_iff. left.
    destruct (existsb _ fwdtracks) eqn:E; [|reflexivity].
    apply existsb_exists in E. destruct E as [t [Hin E]].
    apply Z.eqb_eq in E. elim (H t Hin E).
Qed.

(** ** The process functions *)

Lemma fold_left_invariant_In {A B : Type} (P : A -> Prop) (f : A -> B -> A) (l : list B) :
  (forall a b, In b l -> P a -> P (f a b)) -> forall a, P a -> P (fold_left f l a).
Proof.
  induction l as [|b l IH]; intros Hf a Ha; simpl; [exact Ha|].
  apply IH.
  - intros a' b' Hin. apply Hf. right. exact Hin.
  - apply Hf; [left; reflexivity|exact Ha].
Qed.

Lemma initCCDB_mRunNumber runNumber st : mRunNumber (initCCDB runNumber st) = runNumber.
Proof.
  unfold initCCDB. destruct (mRunNumber st =? runNumber) eqn:E; [|reflexivity].
  apply Z.eqb_eq, E.
Qed.

Lemma initCCDB_emprimarymuons runNumber st :
  emprimarymuons (initCCDB runNumber st) = emprimarymuons st.
Proof. unfold initCCDB. destruct (_ =? _); reflexivity. Qed.

Section Drivers.
Variable cfg : Configurables.
Variable ext : Externals.

Lemma fillFwdTrackTable_Forall (Q : EMPrimaryMuon.t -> Prop) collision fwdtrack isAmbiguous st :
  Forall Q (emprimarymuons st) ->
  (emits cfg ext collision fwdtrack = true ->
   Q (finalRow cfg ext collision fwdtrack isAmbiguous)) ->
  Forall Q (emprimarymuons (fillFwdTrackTable cfg ext collision fwdtrack isAmbiguous st)).
Proof.
  intros H Hq. rewrite fillFwdTrackTable_emprimarymuons. apply Forall_app. split; [exact H|].
  destruct (emits cfg ext collision fwdtrack); [|constructor].
  constructor; [apply Hq; reflexivity|constructor].
Qed.

Lemma initCCDB_Forall (Q : EMPrimaryMuon.t -> Prop) runNumber st :
  Forall Q (emprimarymuons st) -> Forall Q (emprimarymuons (initCCDB runNumber st)).
Proof. rewrite initCCDB_emprimarymuons. exact (fun H => H). Qed.

Lemma finalRow_fromOwnCollision collisions fwdtracks collision fwdtrack :
  In collision collisions -> Collision.isSelected collision = true ->
  In fwdtrack
     (filter (fun t => FwdTrack.collisionId t =? Collision.globalIndex collision) fwdtracks) ->
  fromOwnCollision collisions fwdtracks (finalRow cfg ext collision fwdtrack false).
Proof.
  intros Hc Hs Ht. apply filter_In in Ht. destruct Ht as [Ht E].
  unfold fromOwnCollision, finalRow, candidateRow.
  cbn [EMPrimaryMuon.isAmbiguous EMPrimaryMuon.isAssociatedToMPC EMPrimaryMuon.collisionId
       EMPrimaryMuon.fwdtrackId EMPrimaryMuon.trackType].
  split; [reflexivity|]. split; [exact E|].
  exists collision, fwdtrack. apply Z.eqb_eq in E. repeat split; assumption.
Qed.

Ltac own_collision_step :=
  match goal with
  | |- Forall _ (emprimarymuons (initCCDB _ _)) => apply initCCDB_Forall; assumption
  | |- Forall _ (emprimarymuons (if ?c then _ else _)) =>
      let E := fresh "E" in destruct c eqn:E
  | |- Forall _ (emprimarymuons (fold_left _ (filter _ _) _)) =>
      apply fold_left_invariant_In; [intros ? ? ? ?|]
  | |- Forall _ (emprimarymuons (fillFwdTrackTable _ _ _ _ _ _)) =>
      apply fillFwdTrackTable_Forall; [assumption|intros _]
  | |- Forall _ (emprimarymuons ?a) => assumption
  end.

(** X9: in the table written by [processRec_SA], [processRec_SA_SWT] or
    [processMC_SA] every row has [isAmbiguous] unset and
    [isAssociatedToMPC] set, and comes from a track of the input table
    and the selected collision of the input table that this track is
    assigned to. *)
Theorem standalone_association_rows
    (collisions : list Collision.t) (fwdtracks : list FwdTrack.t) (final : TaskState)
    (row : EMPrimaryMuon.t) :
  In final [ processRec_SA cfg ext collisions fwdtracks initState;
             processRec_SA_SWT cfg ext collisions fwdtracks initState;
             processMC_SA cfg ext collisions fwdtracks initState ] ->
  In row (emprimarymuons final) ->
  fromOwnCollision collisions fwdtracks row.
Proof.
  intros Hf. revert row. apply Forall_forall.
  cbn [In] in Hf. destruct Hf as [<-|[<-|[<-|[]]]].
  - unfold processRec_SA. apply fold_left_invariant_In; [|constructor].
    intros a collision Hc Ha. repeat own_collision_step.
    apply finalRow_fromOwnCollision; try assumption.
    apply negb_false_iff. assumption.
  - unfold processRec_SA_SWT. apply fold_left_invariant_In; [|constructor].
    intros a collision Hc Ha. repeat own_collision_step.
    apply finalRow_fromOwnCollision; try assumption.
    apply negb_false_iff. assumption.
  - unfold processMC_SA. apply fold_left_invariant_In; [|constructor].
    intros a collision Hc Ha. repeat own_collision_step.
    apply finalRow_fromOwnCollision; try assumption.
    apply negb_false_iff. assumption.
Qed.
End Drivers.

Lemma standalone_association_rows_witness :
  fromOwnCollision [exampleCollision] [exampleGlobal; exampleMCHMID; exampleBadMatch]
    (finalRow defaultConfigurables (exampleExternals 1) exampleCollision exampleGlobal false).
Proof.
  apply (standalone_association_rows defaultConfigurables (exampleExternals 1)
           [exampleCollision] [exampleGlobal; exampleMCHMID; exampleBadMatch]
           (processRec_SA defaultConfigurables (exampleExternals 1) [exampleCollision]
              [exampleGlobal; exampleMCHMID; exampleBadMatch] initState)).
  - left. reflexivity.
  - vm_compute. left. reflexivity.
Defined.

Section RunNumber.
Variable cfg : Configurables.
Variable ext : Externals.

Lemma fold_fill_mRunNumber {B : Type} (step : TaskState -> B -> TaskState) (l : list B) st :
  (forall a b, mRunNumber (step a b) = mRunNumber a) ->
  mRunNumber (fold_left step l st) = mRunNumber st.
Proof.
  intros H. revert st. induction l as [|b l IH]; intros st; simpl; [reflexivity|].
  rewrite IH. apply H.
Qed.

Lemma last_cons_default {A : Type} (a : A) (l : list A) (d : A) :
  last (a :: l) d = last l a.
Proof.
  revert a d. induction l as [|b l IH]; intros a d; [reflexivity|].
  change (last (a :: b :: l) d) with (last (b :: l) d).
  rewrite (IH b d), (IH b a). reflexivity.
Qed.

Lemma fold_collisions_mRunNumber (body : Collision.t -> TaskState -> TaskState)
    (collisions : list Collision.t) st :
  (forall c a, mRunNumber (body c a) = mRunNumber a) ->
  mRunNumber
    (fold_left (fun st c => body c (initCCDB (Collision.runNumber c) st)) collisions st)
  = last (map Collision.runNumber collisions) (mRunNumber st).
Proof.
  intros H. revert st. induction collisions as [|c l IH]; intros st; [reflexivity|].
  cbn [fold_left map]. rewrite IH, H, initCCDB_mRunNumber, last_cons_default.
  reflexivity.
Qed.

Ltac run_number_body :=
  intros;
  repeat match goal with
         | |- mRunNumber (if ?c then _ else _) = _ => destruct c
         | |- mRunNumber (fold_left _ _ _) = _ => apply fold_fill_mRunNumber; intros
         | |- mRunNumber (fillFwdTrackTable _ _ _ _ _ _) = _ => apply fillFwdTrackTable_mRunNumber
         | |- ?x = ?x => reflexivity
         end.

(** X10: [initCCDB] is called for every collision of the table, selected
    or not: after any of the six process functions the run number kept
    by the task is that of the last collision of the table, and it is
    unchanged when the table is empty.  A second [initCCDB] for the same
    run changes nothing. *)
Theorem run_number_after_processing
    (collisions : list Collision.t) (fwdtracks : list FwdTrack.t)
    (fwdtrackIndices : list FwdTrackAssoc.t) (st : TaskState) :
  (forall final,
      In final [ processRec_SA cfg ext collisions fwdtracks st;
                 processRec_TTCA cfg ext collisions fwdtracks fwdtrackIndices st;
                 processRec_SA_SWT cfg ext collisions fwdtracks st;
                 processRec_TTCA_SWT cfg ext collisions fwdtracks fwdtrackIndices st;
                 processMC_SA cfg ext collisions fwdtracks st;
                 processMC_TTCA cfg ext collisions fwdtracks fwdtrackIndices st ] ->
      mRunNumber final = last (map Collision.runNumber collisions) (mRunNumber st))
  /\ (forall runNumber,
         initCCDB runNumber (initCCDB runNumber st) = initCCDB runNumber st).
Proof.
  split.
  - intros final Hf. cbn [In] in Hf.
    destruct Hf as [<-|[<-|[<-|[<-|[<-|[<-|[]]]]]]].
    + unfold processRec_SA.
      apply (fold_collisions_mRunNumber
               (fun collision st =>
                  if negb (Collision.isSelected collision) then st
                  else fold_left _ _ st)). run_number_body.
    + unfold processRec_TTCA.
      apply (fold_collisions_mRunNumber
               (fun collision st =>
                  if negb (Collision.isSelected collision) then st
                  else fold_left _ _ st)). run_number_body.
    + unfold processRec_SA_SWT.
      apply (fold_collisions_mRunNumber
               (fun collision st =>
                  if negb (Collision.isSelected collision) then st
                  else if Collision.swtaliastmp_raw collision =? 0 then st
                       else fold_left _ _ st)). run_number_body.
    + unfold processRec_TTCA_SWT.
      apply (fold_collisions_mRunNumber
               (fun collision st =>
                  if negb (Collision.isSelected collision) then st
                  else if Collision.swtaliastmp_raw collision =? 0 then st
                       else fold_left _ _ st)). run_number_body.
    + unfold processMC_SA.
      apply (fold_collisions_mRunNumber
               (fun collision st =>
                  if negb (Collision.isSelected collision) then st
                  else if negb (Collision.has_mcCollision collision) then st
                       else fold_left _ _ st)). run_number_body.
    + unfold processMC_TTCA.
      apply (fold_collisions_mRunNumber
               (fun collision st =>
                  if negb (Collision.isSelected collision) then st
                  else if negb (Collision.has_mcCollision collision) then st
                       else fold_left _ _ st)). run_number_body.
  - intros runNumber. unfold initCCDB at 1.
    rewrite initCCDB_mRunNumber, Z.eqb_refl. reflexivity.
Qed.
End RunNumber.

(** ** The process functions with a trigger or a Monte Carlo filter *)

Lemma sameOutput_refl a : sameOutput a a.
Proof. repeat split. Qed.

Lemma sameOutput_trans a b c : sameOutput a b -> sameOutput b c -> sameOutput a c.
Proof.
  intros [H1 [H2 [H3 H4]]] [K1 [K2 [K3 K4]]].
  repeat split; etransitivity; eassumption.
Qed.

Lemma initCCDB_sameOutput runNumber a : sameOutput (initCCDB runNumber a) a.
Proof. unfold initCCDB. destruct (_ =? _); repeat split. Qed.

Lemma sameOutput_sym a b : sameOutput a b -> sameOutput b a.
Proof. intros [H1 [H2 [H3 H4]]]. repeat split; symmetry; assumption. Qed.

Lemma initCCDB_sameOutput_both r r' a b :
  sameOutput a b -> sameOutput (initCCDB r a) (initCCDB r' b).
Proof.
  intros H. apply (sameOutput_trans _ a); [apply initCCDB_sameOutput|].
  apply (sameOutput_trans _ b); [exact H|]. apply sameOutput_sym, initCCDB_sameOutput.
Qed.

Lemma fold_left_sameOutput {B : Type} (step : TaskState -> B -> TaskState) (l : list B) :
  (forall a b x, sameOutput a b -> sameOutput (step a x) (step b x)) ->
  forall a b, sameOutput a b -> sameOutput (fold_left step l a) (fold_left step l b).
Proof.
  intros H. induction l as [|x l IH]; intros a b Hab; simpl; [exact Hab|].
  apply IH, H, Hab.
Qed.

Lemma fold_left_skip {A B : Type} (p : B -> bool) (g : A -> B -> A) (l : list B) (a : A) :
  fold_left (fun a x => if negb (p x) then a else g a x) l a = fold_left g (filter p l) a.
Proof.
  revert a. induction l as [|x l IH]; intros a; simpl; [reflexivity|].
  destruct (p x); simpl; apply IH.
Qed.

Lemma filter_swap {A : Type} (p q : A -> bool) (l : list A) :
  filter p (filter q l) = filter q (filter p l).
Proof.
  induction l as [|x l IH]; simpl; [reflexivity|].
  destruct (p x) eqn:P, (q x) eqn:Q; simpl; rewrite ?P, ?Q, IH; reflexivity.
Qed.

Section FilteredDrivers.
Variable cfg : Configurables.
Variable ext : Externals.

Lemma fillFwdTrackTable_sameOutput collision fwdtrack isAmbiguous a b :
  sameOutput a b ->
  sameOutput (fillFwdTrackTable cfg ext collision fwdtrack isAmbiguous a)
             (fillFwdTrackTable cfg ext collision fwdtrack isAmbiguous b).
Proof.
  intros [H1 [H2 [H3 H4]]]. unfold sameOutput.
  rewrite !fillFwdTrackTable_emprimarymuons, !fillFwdTrackTable_emprimarymuonscov,
    !fillFwdTrackTable_fRegistry, !fillFwdTrackTable_propagateMuonCalls, H1, H2, H3, H4.
  repeat split.
Qed.

Ltac same_output_step :=
  match goal with
  | |- sameOutput (initCCDB _ _) (initCCDB _ _) => apply initCCDB_sameOutput_both; assumption
  | |- sameOutput (fold_left _ ?l _) (fold_left _ ?l _) =>
      apply fold_left_sameOutput; [intros ? ? ? ?|]
  | |- sameOutput (if ?c then _ else _) (if ?c then _ else _) => destruct c
  | |- sameOutput (fillFwdTrackTable _ _ _ _ _ _) (fillFwdTrackTable _ _ _ _ _ _) =>
      apply fillFwdTrackTable_sameOutput; assumption
  | |- sameOutput ?a ?b => assumption
  end.

Lemma processRec_SA_SWT_filtered collisions fwdtracks a b :
  sameOutput a b ->
  sameOutput
    (processRec_SA_SWT cfg ext collisions fwdtracks a)
    (processRec_SA cfg ext
       (filter (fun c => negb (Collision.swtaliastmp_raw c =? 0)) collisions) fwdtracks b).
Proof.
  unfold processRec_SA_SWT, processRec_SA.
  revert a b. induction collisions as [|c l IH]; intros a b Hab; [exact Hab|].
  cbn [fold_left filter].
  destruct (Collision.swtaliastmp_raw c =? 0); cbn [negb fold_left]; apply IH.
  - destruct (negb (Collision.isSelected c));
      apply (sameOutput_trans _ a); try apply initCCDB_sameOutput; exact Hab.
  - repeat same_output_step.
Qed.

Lemma processRec_TTCA_SWT_filtered collisions fwdtracks fwdtrackIndices a b :
  sameOutput a b ->
  sameOutput
    (processRec_TTCA_SWT cfg ext collisions fwdtracks fwdtrackIndices a)
    (processRec_TTCA cfg ext
       (filter (fun c => negb (Collision.swtaliastmp_raw c =? 0)) collisions)
       fwdtracks fwdtrackIndices b).
Proof.
  unfold processRec_TTCA_SWT, processRec_TTCA. cbv zeta.
  revert a b. induction collisions as [|c l IH]; intros a b Hab; [exact Hab|].
  cbn [fold_left filter].
  destruct (Collision.swtaliastmp_raw c =? 0); cbn [negb fold_left]; apply IH.
  - destruct (negb (Collision.isSelected c));
      apply (sameOutput_trans _ a); try apply initCCDB_sameOutput; exact Hab.
  - repeat same_output_step.
Qed.

Lemma processMC_SA_filtered collisions fwdtracks a b :
  sameOutput a b ->
  sameOutput
    (processMC_SA cfg ext collisions fwdtracks a)
    (processRec_SA cfg ext (filter Collision.has_mcCollision collisions)
       (filter FwdTrack.has_mcParticle fwdtracks) b).
Proof.
  unfold processMC_SA, processRec_SA.
  revert a b. induction collisions as [|c l IH]; intros a b Hab; [exact Hab|].
  cbn [fold_left filter].
  destruct (Collision.has_mcCollision c); cbn [negb fold_left]; apply IH.
  - destruct (negb (Collision.isSelected c)); [repeat same_output_step|].
    rewrite (fold_left_skip FwdTrack.has_mcParticle
               (fun st fwdtrack =>
                  if negb (isMuonType fwdtrack) then st
                  else fillFwdTrackTable cfg ext c fwdtrack false st)).
    rewrite filter_swap. repeat same_output_step.
  - destruct (negb (Collision.isSelected c));
      apply (sameOutput_trans _ a); try apply initCCDB_sameOutput; exact Hab.
Qed.

(** X11: the process functions with a filter do what the plain ones do on
    the filtered tables, up to the run number kept by the task:
    [processRec_SA_SWT] and [processRec_TTCA_SWT] give the tables, the
    histogram fills and the propagations of [processRec_SA] and
    [processRec_TTCA] on the collisions whose [swtaliastmp_raw] is not 0,
    and [processMC_SA] those of [processRec_SA] on the collisions with a
    Monte Carlo collision and the tracks with a Monte Carlo particle. *)
Theorem filtered_process_functions
    (collisions : list Collision.t) (fwdtracks : list FwdTrack.t)
    (fwdtrackIndices : list FwdTrackAssoc.t) (st : TaskState) :
  let triggered := filter (fun c => negb (Collision.swtaliastmp_raw c =? 0)) collisions in
  sameOutput (processRec_SA_SWT cfg ext collisions fwdtracks st)
             (processRec_SA cfg ext triggered fwdtracks st)
  /\ sameOutput (processRec_TTCA_SWT cfg ext collisions fwdtracks fwdtrackIndices st)
                (processRec_TTCA cfg ext triggered fwdtracks fwdtrackIndices st)
  /\ sameOutput (processMC_SA cfg ext collisions fwdtracks st)
                (processRec_SA cfg ext (filter Collision.has_mcCollision collisions)
                   (filter FwdTrack.has_mcParticle fwdtracks) st).
Proof.
  cbv zeta. split; [|split].
  - apply processRec_SA_SWT_filtered, sameOutput_refl.
  - apply processRec_TTCA_SWT_filtered, sameOutput_refl.
  - apply processMC_SA_filtered, sameOutput_refl.
Qed.
End FilteredDrivers.

(** ** The process functions with the associator *)

Section AssociatedDrivers.
Variable cfg : Configurables.
Variable ext : Externals.

Lemma finalRow_fromAssociation collisions fwdtracks fwdtrackIndices collision fwdtrackId :
  FwdTrack.globalIndex (fwdtrack_as ext (FwdTrackAssoc.fwdtrackId fwdtrackId))
  = FwdTrackAssoc.fwdtrackId fwdtrackId ->
  In collision collisions -> Collision.isSelected collision = true ->
  In fwdtrackId
     (filter (fun a => FwdTrackAssoc.collisionId a =? Collision.globalIndex collision)
             fwdtrackIndices) ->
  fromAssociation ext collisions fwdtracks fwdtrackIndices
    (finalRow cfg ext collision (fwdtrack_as ext (FwdTrackAssoc.fwdtrackId fwdtrackId))
       (mapAmb_lookup (build_mapAmb fwdtracks fwdtrackIndices)
          (FwdTrack.globalIndex (fwdtrack_as ext (FwdTrackAssoc.fwdtrackId fwdtrackId))))).
Proof.
  intros G Hc Hs Ha. apply filter_In in Ha. destruct Ha as [Ha E]. apply Z.eqb_eq in E.
  exists fwdtrackId, collision.
  unfold finalRow, candidateRow.
  cbn [EMPrimaryMuon.isAmbiguous EMPrimaryMuon.isAssociatedToMPC EMPrimaryMuon.collisionId
       EMPrimaryMuon.fwdtrackId].
  rewrite mapAmb_lookup_build, G.
  repeat split; try assumption; try reflexivity; apply Z.eqb_eq.
Qed.

Ltac association_step :=
  match goal with
  | |- Forall _ (emprimarymuons (initCCDB _ _)) => apply initCCDB_Forall; assumption
  | |- Forall _ (emprimarymuons (if ?c then _ else _)) =>
      let E := fresh "E" in destruct c eqn:E
  | |- Forall _ (emprimarymuons (fold_left _ (filter _ _) _)) =>
      apply fold_left_invariant_In; [intros ? ? ? ?|]
  | |- Forall _ (emprimarymuons (fillFwdTrackTable _ _ _ _ _ _)) =>
      apply (fillFwdTrackTable_Forall cfg ext); [assumption|intros _]
  | |- Forall _ (emprimarymuons ?a) => assumption
  end.

(** X12: in the table written by [processRec_TTCA],
    [processRec_TTCA_SWT] or [processMC_TTCA], when the associator points
    to tracks by their index, every row comes from a row of the
    associator for a selected collision of the table, and its
    [isAmbiguous] says that the track is in the table of tracks and that
    more than one row of the associator points to it. *)
Theorem associated_rows
    (collisions : list Collision.t) (fwdtracks : list FwdTrack.t)
    (fwdtrackIndices : list FwdTrackAssoc.t) (final : TaskState) (row : EMPrimaryMuon.t) :
  (forall a, In a fwdtrackIndices ->
     FwdTrack.globalIndex (fwdtrack_as ext (FwdTrackAssoc.fwdtrackId a))
     = FwdTrackAssoc.fwdtrackId a) ->
  In final [ processRec_TTCA cfg ext collisions fwdtracks fwdtrackIndices initState;
             processRec_TTCA_SWT cfg ext collisions fwdtracks fwdtrackIndices initState;
             processMC_TTCA cfg ext collisions fwdtracks fwdtrackIndices initState ] ->
  In row (emprimarymuons final) ->
  fromAssociation ext collisions fwdtracks fwdtrackIndices row.
Proof.
  intros G Hf. revert row. apply Forall_forall.
  assert (K : forall collision fwdtrackId,
            In collision collisions -> negb (Collision.isSelected collision) = false ->
            In fwdtrackId
               (filter (fun a => FwdTrackAssoc.collisionId a =? Collision.globalIndex collision)
                       fwdtrackIndices) ->
            fromAssociation ext collisions fwdtracks fwdtrackIndices
              (finalRow cfg ext collision
                 (fwdtrack_as ext (FwdTrackAssoc.fwdtrackId fwdtrackId))
                 (mapAmb_lookup (build_mapAmb fwdtracks fwdtrackIndices)
                    (FwdTrack.globalIndex
                       (fwdtrack_as ext (FwdTrackAssoc.fwdtrackId fwdtrackId)))))).
  { intros collision fwdtrackId Hc Hs Ha. apply finalRow_fromAssociation; try assumption.
    - apply G. apply filter_In in Ha. apply Ha.
    - apply negb_false_iff, Hs. }
  cbn [In] in Hf. destruct Hf as [<-|[<-|[<-|[]]]].
  - unfold processRec_TTCA. cbv zeta. apply fold_left_invariant_In; [|constructor].
    intros a collision Hc Ha. repeat association_step. apply K; assumption.
  - unfold processRec_TTCA_SWT. cbv zeta. apply fold_left_invariant_In; [|constructor].
    intros a collision Hc Ha. repeat association_step. apply K; assumption.
  - unfold processMC_TTCA. cbv zeta. apply fold_left_invariant_In; [|constructor].
    intros a collision Hc Ha. repeat association_step. apply K; assumption.
Qed.
End AssociatedDrivers.

Lemma associated_rows_witness :
  fromAssociation (exampleExternals 1) [exampleCollision; exampleCollision1]
    [exampleGlobal; exampleMCHMID] exampleAssociations
    (finalRow defaultConfigurables (exampleExternals 1) exampleCollision1 exampleGlobal true).
Proof.
  apply (associated_rows defaultConfigurables (exampleExternals 1)
           [exampleCollision; exampleCollision1] [exampleGlobal; exampleMCHMID]
           exampleAssociations
           (processRec_TTCA defaultConfigurables (exampleExternals 1)
              [exampleCollision; exampleCollision1] [exampleGlobal; exampleMCHMID]
              exampleAssociations initState)).
  - intros a [<-|[<-|[<-|[]]]]; reflexivity.
  - left. reflexivity.
  - vm_compute. right. right. left. reflexivity.
Defined.

(** ** The vectors of the self-association tasks *)

Lemma flat_map_nil_when {X : Type} (sel : X -> list Z) (l : list X) :
  (forall x, In x l -> sel x = []) -> flat_map sel l = [].
Proof.
  induction l as [|x l IH]; intros H; simpl; [reflexivity|].
  rewrite (H x (or_introl eq_refl)), IH; [reflexivity|].
  intros y Hy. apply H. right. exact Hy.
Qed.

(** X13: in [associateAmbiguousMuon], the vector of a candidate holds
    exactly the indices of the other candidates made from the same
    forward track, and nothing else; it is empty when no other candidate
    is made from that track.  Indices are stored as [int]: the table has
    at most 2^31 rows. *)
Theorem associateAmbiguousMuon_vector
    (muons : list EMPrimaryMuon.t) (i : nat) (muon : EMPrimaryMuon.t) :
  nth_error muons i = Some muon ->
  Z.of_nat (List.length muons) <= 2 ^ 31 ->
  exists ambmuon_self_Ids,
    nth_error (associateAmbiguousMuon muons) i = Some ambmuon_self_Ids
    /\ (forall j other, nth_error muons j = Some other ->
          (In (Z.of_nat j) ambmuon_self_Ids <->
           j <> i /\ EMPrimaryMuon.fwdtrackId other = EMPrimaryMuon.fwdtrackId muon))
    /\ (forall k, In k ambmuon_self_Ids ->
          exists j other, k = Z.of_nat j /\ nth_error muons j = Some other)
    /\ ((forall j other, nth_error muons j = Some other -> j <> i ->
           EMPrimaryMuon.fwdtrackId other <> EMPrimaryMuon.fwdtrackId muon) ->
        ambmuon_self_Ids = []).
Proof.
  intros Hi B. eexists. split; [apply associateAmbiguousMuon_nth, Hi|].
  assert (Small : forall j other, nth_error muons j = Some other ->
                    to_int (Z.of_nat j) = Z.of_nat j).
  { intros j other Hj. apply to_int_small. exact (nth_error_bound muons j other Hj B). }
  split; [|split].
  - intros j other Hj. rewrite In_ambiguous. split.
    + intros [j' [other' [Hj' [Hk [Hne Hf]]]]].
      rewrite (Small j' other' Hj') in Hk. apply Nat2Z.inj in Hk. subst j'.
      rewrite Hj in Hj'. injection Hj' as <-. split; assumption.
    + intros [Hne Hf]. exists j, other. rewrite (Small j other Hj).
      repeat split; assumption.
  - intros k Hin. apply In_ambiguous in Hin.
    destruct Hin as [j [other [Hj [Hk _]]]]. exists j, other.
    rewrite (Small j other Hj) in Hk. split; assumption.
  - intros H. apply flat_map_nil_when. intros [z other] Hin.
    apply filter_In in Hin. destruct Hin as [Hin Hp].
    apply In_indexed in Hin. destruct Hin as [j [-> Hj]].
    unfold ambiguousContribution. cbn [fst snd] in Hp |- *.
    destruct (Z.of_nat j =? Z.of_nat i) eqn:E; [reflexivity|].
    apply Z.eqb_neq in E. apply Z.eqb_eq in Hp.
    elim (H j other Hj); [intros ->; apply E; reflexivity|exact Hp].
Qed.

Lemma associateAmbiguousMuon_vector_witness :
  exists ambmuon_self_Ids,
    nth_error (associateAmbiguousMuon exampleMuons) 0 = Some ambmuon_self_Ids
    /\ In 1 ambmuon_self_Ids /\ ~ In 2 ambmuon_self_Ids.
Proof.
  destruct (associateAmbiguousMuon_vector exampleMuons 0
              (finalRow defaultConfigurables (exampleExternals 1) exampleCollision
                 exampleGlobal true)
              eq_refl ltac:(vm_compute; discriminate))
    as [ids [Hn [Hm _]]].
  exists ids. split; [exact Hn|]. split.
  - apply (proj2 (Hm 1%nat
                    (finalRow defaultConfigurables (exampleExternals 1) exampleCollision1
                       exampleGlobal true) eq_refl)).
    split; [discriminate|reflexivity].
  - intros Hin.
    apply (proj1 (Hm 2%nat
                    (finalRow defaultConfigurables (exampleExternals 1) exampleCollision
                       exampleBadMatch false) eq_refl)) in Hin.
    destruct Hin as [_ Hf]. vm_compute in Hf. discriminate Hf.
Defined.

(** X14: the cross-references are mutual.  In the table of
    [associateAmbiguousMuon], the candidate j is in the vector of the
    candidate i exactly when i is in the vector of j; in the table of
    [associateSameMFT] the same holds between two global muons.  Indices
    are stored as [int]: the table has at most 2^31 rows. *)
Theorem cross_references_are_mutual
    (muons : list EMPrimaryMuon.t) (i j : nat) (mi mj : EMPrimaryMuon.t) :
  nth_error muons i = Some mi ->
  nth_error muons j = Some mj ->
  Z.of_nat (List.length muons) <= 2 ^ 31 ->
  exists ai aj si sj,
    nth_error (associateAmbiguousMuon muons) i = Some ai
    /\ nth_error (associateAmbiguousMuon muons) j = Some aj
    /\ nth_error (associateSameMFT muons) i = Some si
    /\ nth_error (associateSameMFT muons) j = Some sj
    /\ (In (Z.of_nat j) ai <-> In (Z.of_nat i) aj)
    /\ (EMPrimaryMuon.trackType mi = static_cast_uint8 GlobalMuonTrack ->
        EMPrimaryMuon.trackType mj = static_cast_uint8 GlobalMuonTrack ->
        (In (Z.of_nat j) si <-> In (Z.of_nat i) sj)).
Proof.
  intros Hi Hj B.
  assert (Small : forall j other, nth_error muons j = Some other ->
                    to_int (Z.of_nat j) = Z.of_nat j).
  { intros k other Hk. apply to_int_small. exact (nth_error_bound muons k other Hk B). }
  assert (A : forall a b ma mb, nth_error muons a = Some ma -> nth_error muons b = Some mb ->
            In (Z.of_nat b)
               (flat_map (ambiguousContribution (Z.of_nat a, ma))
                  (filter (fun m : Z * EMPrimaryMuon.t =>
                             EMPrimaryMuon.fwdtrackId (snd m) =? EMPrimaryMuon.fwdtrackId ma)
                          (indexed muons)))
            <-> b <> a /\ EMPrimaryMuon.fwdtrackId mb = EMPrimaryMuon.fwdtrackId ma).
  { intros a b ma mb Ha Hb. rewrite In_ambiguous. split.
    - intros [b' [other [Hb' [Hk [Hne Hf]]]]].
      rewrite (Small b' other Hb') in Hk. apply Nat2Z.inj in Hk. subst b'.
      rewrite Hb in Hb'. injection Hb' as <-. split; assumption.
    - intros [Hne Hf]. exists b, mb. rewrite (Small b mb Hb). repeat split; assumption. }
  assert (S : forall a b ma mb, nth_error muons a = Some ma -> nth_error muons b = Some mb ->
            In (Z.of_nat b)
               (flat_map (sameMFTContribution (Z.of_nat a, ma))
                  (filter (fun m : Z * EMPrimaryMuon.t =>
                             EMPrimaryMuon.mfttrackId (snd m) =? EMPrimaryMuon.mfttrackId ma)
                          (indexed muons)))
            <-> b <> a /\ EMPrimaryMuon.mfttrackId mb = EMPrimaryMuon.mfttrackId ma
                /\ EMPrimaryMuon.collisionId mb = EMPrimaryMuon.collisionId ma).
  { intros a b ma mb Ha Hb. rewrite In_sameMFT. split.
    - intros [b' [other [Hb' [Hk [Hne [Hf Hc]]]]]].
      rewrite (Small b' other Hb') in Hk. apply Nat2Z.inj in Hk. subst b'.
      rewrite Hb in Hb'. injection Hb' as <-. repeat split; assumption.
    - intros [Hne [Hf Hc]]. exists b, mb. rewrite (Small b mb Hb).
      repeat split; assumption. }
  eexists. eexists. eexists. eexists.
  split; [apply associateAmbiguousMuon_nth, Hi|].
  split; [apply associateAmbiguousMuon_nth, Hj|].
  split; [apply associateSameMFT_nth, Hi|].
  split; [apply associateSameMFT_nth, Hj|].
  split.
  - rewrite (A i j mi mj Hi Hj), (A j i mj mi Hj Hi).
    split; intros [Hne Hf]; split; congruence.
  - intros Ti Tj. rewrite Ti, Tj, Z.eqb_refl.
    rewrite (S i j mi mj Hi Hj), (S j i mj mi Hj Hi).
    split; intros [Hne [Hf Hc]]; repeat split; congruence.
Qed.

Lemma cross_references_are_mutual_witness :
  exists ai aj si sj,
    nth_error (associateAmbiguousMuon exampleMuons) 0 = Some ai
    /\ nth_error (associateAmbiguousMuon exampleMuons) 2 = Some aj
    /\ nth_error (associateSameMFT exampleMuons) 0 = Some si
    /\ nth_error (associateSameMFT exampleMuons) 2 = Some sj
    /\ (In 2 ai <-> In 0 aj)
    /\ (In 2 si <-> In 0 sj).
Proof.
  destruct (cross_references_are_mutual exampleMuons 0 2
              (finalRow defaultConfigurables (exampleExternals 1) exampleCollision
                 exampleGlobal true)
              (finalRow defaultConfigurables (exampleExternals 1) exampleCollision
                 exampleBadMatch false)
              eq_refl eq_refl ltac:(vm_compute; discriminate))
    as [ai [aj [si [sj [H1 [H2 [H3 [H4 [H5 H6]]]]]]]]].
  exists ai, aj, si, sj. repeat (split; [assumption|]).
  exact (H6 eq_refl eq_refl).
Defined.

Lemma flat_map_ambiguousContribution muon (l : list (Z * EMPrimaryMuon.t)) :
  flat_map (ambiguousContribution muon) l
  = map (fun x => to_int (fst x)) (filter (fun x => negb (fst x =? fst muon)) l).
Proof.
  induction l as [|x l IH]; [reflexivity|].
  cbn [flat_map filter]. unfold ambiguousContribution at 1.
  destruct (fst x =? fst muon); cbn [negb app map]; rewrite IH; reflexivity.
Qed.

Lemma flat_map_sameMFTContribution muon (l : list (Z * EMPrimaryMuon.t)) :
  flat_map (sameMFTContribution muon) l
  = map (fun x => to_int (fst x))
        (filter (fun x => negb (fst x =? fst muon)
                          && (EMPrimaryMuon.collisionId (snd x)
                              =? EMPrimaryMuon.collisionId (snd muon))) l).
Proof.
  induction l as [|x l IH]; [reflexivity|].
  cbn [flat_map filter]. unfold sameMFTContribution at 1.
  destruct (fst x =? fst muon); cbn [negb andb app map]; [exact IH|].
  destruct (_ =? _); cbn [app map]; rewrite IH; reflexivity.
Qed.

Lemma filter_twice {X : Type} (p q : X -> bool) (l : list X) :
  filter p (filter q l) = filter (fun x => q x && p x) l.
Proof.
  induction l as [|x l IH]; [reflexivity|].
  cbn [filter]. destruct (q x); cbn [filter andb]; rewrite IH; reflexivity.
Qed.

Lemma StronglySorted_indices_from {A : Type} (l : list A) (s : nat) :
  StronglySorted Z.lt (map fst (combine (map Z.of_nat (seq s (List.length l))) l)).
Proof.
  revert s. induction l as [|a l IH]; intros s; [constructor|].
  cbn [List.length seq map combine fst]. constructor; [apply IH|].
  apply Forall_forall. intros z Hz. apply in_map_iff in Hz.
  destruct Hz as [[z' a'] [<- Hin]]. apply in_combine_l in Hin.
  apply in_map_iff in Hin. destruct Hin as [k [<- Hk]]. apply in_seq in Hk.
  cbn [fst]. lia.
Qed.

Lemma StronglySorted_map_filter {X : Type} (f : X -> Z) (p : X -> bool) (l : list X) :
  StronglySorted Z.lt (map f l) -> StronglySorted Z.lt (map f (filter p l)).
Proof.
  induction l as [|x l IH]; intros H; [constructor|].
  cbn [map] in H. apply StronglySorted_inv in H. destruct H as [Hs Hf].
  cbn [filter]. destruct (p x); [|apply IH, Hs].
  cbn [map]. constructor; [apply IH, Hs|].
  rewrite Forall_forall in Hf |- *. intros z Hz. apply Hf.
  apply in_map_iff in Hz. destruct Hz as [y [<- Hy]]. apply filter_In in Hy.
  apply in_map, Hy.
Qed.

Lemma StronglySorted_lt_NoDup (l : list Z) : StronglySorted Z.lt l -> NoDup l.
Proof.
  induction l as [|a l IH]; intros H; [constructor|].
  apply StronglySorted_inv in H. destruct H as [Hs Hf].
  constructor; [|apply IH, Hs].
  intros Hin. rewrite Forall_forall in Hf. specialize (Hf a Hin). lia.
Qed.

Lemma indices_of_slice (muons : list EMPrimaryMuon.t) (p : Z * EMPrimaryMuon.t -> bool) :
  Z.of_nat (List.length muons) <= 2 ^ 31 ->
  StronglySorted Z.lt (map (fun x => to_int (fst x)) (filter p (indexed muons))).
Proof.
  intros B.
  rewrite (map_ext_in (fun x : Z * EMPrimaryMuon.t => to_int (fst x)) fst).
  - apply StronglySorted_map_filter. apply StronglySorted_indices_from.
  - intros [z m] Hin. apply filter_In in Hin. destruct Hin as [Hin _].
    apply In_indexed in Hin. destruct Hin as [j [-> Hj]]. cbn [fst].
    apply to_int_small. exact (nth_error_bound muons j m Hj B).
Qed.

(** X15: in both tables every vector lists its indices in increasing
    order, the order of the candidates in the table, and no index twice.
    Indices are stored as [int]: the table has at most 2^31 rows. *)
Theorem vectors_are_increasing (muons : list EMPrimaryMuon.t) (ids : list Z) :
  Z.of_nat (List.length muons) <= 2 ^ 31 ->
  In ids (associateAmbiguousMuon muons) \/ In ids (associateSameMFT muons) ->
  StronglySorted Z.lt ids /\ NoDup ids.
Proof.
  intros B H.
  assert (S : StronglySorted Z.lt ids); [|split; [exact S|apply StronglySorted_lt_NoDup, S]].
  destruct H as [H|H]; apply In_nth_error in H; destruct H as [i H].
  - assert (L : nth_error muons i <> None).
    { intros N. unfold associateAmbiguousMuon in H.
      rewrite nth_error_map, nth_error_indexed, N in H. discriminate H. }
    destruct (nth_error muons i) as [muon|] eqn:Hi; [|contradiction].
    rewrite (associateAmbiguousMuon_nth muons i muon Hi) in H. injection H as <-.
    rewrite flat_map_ambiguousContribution, filter_twice.
    apply indices_of_slice, B.
  - assert (L : nth_error muons i <> None).
    { intros N. unfold associateSameMFT in H.
      rewrite nth_error_map, nth_error_indexed, N in H. discriminate H. }
    destruct (nth_error muons i) as [muon|] eqn:Hi; [|contradiction].
    rewrite (associateSameMFT_nth muons i muon Hi) in H. injection H as <-.
    destruct (_ =? _); [|constructor].
    rewrite flat_map_sameMFTContribution, filter_twice.
    apply indices_of_slice, B.
Qed.

(** The tables of the two tasks on the five candidates of
    [exampleSharedMuons]. *)
Example associate_exampleSharedMuons :
  associateAmbiguousMuon exampleSharedMuons = [[3; 4]; []; []; [0; 4]; [0; 3]]
  /\ associateSameMFT exampleSharedMuons = [[1; 2]; [0; 2]; [0; 1]; []; []].
Proof. vm_compute. split; reflexivity. Qed.

Lemma vectors_are_increasing_witness :
  (StronglySorted Z.lt [0; 4] /\ NoDup [0; 4])
  /\ (StronglySorted Z.lt [0; 2] /\ NoDup [0; 2]).
Proof.
  split.
  - apply (vectors_are_increasing exampleSharedMuons [0; 4]).
    + vm_compute. discriminate.
    + left. vm_compute. right. right. right. left. reflexivity.
  - apply (vectors_are_increasing exampleSharedMuons [0; 2]).
    + vm_compute. discriminate.
    + right. vm_compute. right. left. reflexivity.
Defined.

(** ** From the process functions to the self-association *)

Lemma NoDup_append {A : Type} (l1 l2 : list A) :
  NoDup l1 -> NoDup l2 -> (forall a, In a l1 -> ~ In a l2) -> NoDup (l1 ++ l2).
Proof.
  induction l1 as [|x l1 IH]; intros H1 H2 D; [exact H2|].
  apply NoDup_cons_iff in H1. destruct H1 as [Hx H1]. cbn [app]. constructor.
  - intros Hin. apply in_app_or in Hin. destruct Hin as [Hin|Hin]; [contradiction|].
    exact (D x (or_introl eq_refl) Hin).
  - apply IH; [exact H1|exact H2|]. intros a Ha. apply D. right. exact Ha.
Qed.

Lemma NoDup_map_filter {K T : Type} (key : T -> K) (keep : T -> bool) :
  forall rows : list T, NoDup (map key rows) -> NoDup (map key (filter keep rows)).
Proof.
  intros rows. induction rows as [|row rows IH]; cbn [map filter]; intros H.
  - constructor.
  - apply NoDup_cons_iff in H. destruct H as [Hrow H]. specialize (IH H).
    destruct (keep row); [|exact IH].
    cbn [map]. constructor; [|exact IH].
    intros Hin. apply Hrow. apply in_map_iff in Hin. destruct Hin as [y [E Hy]].
    apply filter_In in Hy. rewrite <- E. apply in_map, Hy.
Qed.

Lemma NoDup_map_injective {K T : Type} (key : T -> K) :
  forall (rows : list T) (x y : T),
    NoDup (map key rows) -> In x rows -> In y rows -> key x = key y -> x = y.
Proof.
  intros rows x y. induction rows as [|a rows IH]; intros H Hx Hy E; [destruct Hx|].
  cbn [map] in H. apply NoDup_cons_iff in H. destruct H as [Ha H].
  destruct Hx as [<-|Hx], Hy as [<-|Hy].
  - reflexivity.
  - elim Ha. rewrite E. apply in_map, Hy.
  - elim Ha. rewrite <- E. apply in_map, Hx.
  - apply IH; assumption.
Qed.

Section StandaloneRows.
Variable cfg : Configurables.
Variable ext : Externals.

Lemma fold_tracks_emprimarymuons collision (l : list FwdTrack.t) st :
  emprimarymuons
    (fold_left (fun st fwdtrack =>
                  if negb (isMuonType fwdtrack) then st
                  else fillFwdTrackTable cfg ext collision fwdtrack false st) l st)
  = emprimarymuons st ++
    flat_map (fun fwdtrack =>
                if isMuonType fwdtrack && emits cfg ext collision fwdtrack
                then [finalRow cfg ext collision fwdtrack false]
                else []) l.
Proof.
  revert st. induction l as [|t l IH]; intros st; cbn [fold_left flat_map].
  - rewrite app_nil_r. reflexivity.
  - rewrite IH. destruct (isMuonType t); cbn [negb andb]; [|reflexivity].
    rewrite fillFwdTrackTable_emprimarymuons, <- app_assoc. reflexivity.
Qed.

Lemma processRec_SA_emprimarymuons collisions fwdtracks st :
  emprimarymuons (processRec_SA cfg ext collisions fwdtracks st)
  = emprimarymuons st ++ flat_map (rowsOfCollision cfg ext fwdtracks) collisions.
Proof.
  unfold processRec_SA. revert st.
  induction collisions as [|c l IH]; intros st; cbn [fold_left flat_map].
  - rewrite app_nil_r. reflexivity.
  - rewrite IH. unfold rowsOfCollision at 2.
    destruct (Collision.isSelected c); cbn [negb].
    + rewrite fold_tracks_emprimarymuons, initCCDB_emprimarymuons, <- app_assoc.
      reflexivity.
    + rewrite initCCDB_emprimarymuons. reflexivity.
Qed.

Lemma rowsOfCollision_In fwdtracks collision row :
  In row (rowsOfCollision cfg ext fwdtracks collision) ->
  exists fwdtrack,
    In fwdtrack fwdtracks
    /\ FwdTrack.collisionId fwdtrack = Collision.globalIndex collision
    /\ EMPrimaryMuon.fwdtrackId row = FwdTrack.globalIndex fwdtrack.
Proof.
  unfold rowsOfCollision. destruct (Collision.isSelected collision); [|intros []].
  intros H. apply in_flat_map in H. destruct H as [t [Ht H]].
  apply filter_In in Ht. destruct Ht as [Ht E]. apply Z.eqb_eq in E.
  destruct (_ && _); [|destruct H]. destruct H as [<-|[]].
  exists t. repeat split; assumption.
Qed.

Lemma rowsOfCollision_NoDup fwdtracks collision :
  NoDup (map FwdTrack.globalIndex fwdtracks) ->
  NoDup (map EMPrimaryMuon.fwdtrackId (rowsOfCollision cfg ext fwdtracks collision)).
Proof.
  intros H. unfold rowsOfCollision.
  destruct (Collision.isSelected collision); [|constructor].
  apply (NoDup_map_filter FwdTrack.globalIndex
           (fun t => FwdTrack.collisionId t =? Collision.globalIndex collision)) in H.
  revert H. generalize (filter (fun t => FwdTrack.collisionId t
                                          =? Collision.globalIndex collision) fwdtracks).
  intros l. induction l as [|t l IH]; intros H; [constructor|].
  cbn [map] in H. apply NoDup_cons_iff in H. destruct H as [Ht H].
  cbn [flat_map]. rewrite map_app. apply NoDup_append.
  - destruct (_ && _); [|constructor]. constructor; [intros []|constructor].
  - apply IH, H.
  - intros k Hk Hin. destruct (_ && _); [|destruct Hk].
    destruct Hk as [<-|[]]. apply Ht.
    apply in_map_iff in Hin. destruct Hin as [row [E Hrow]].
    apply in_flat_map in Hrow. destruct Hrow as [t' [Ht' Hrow]].
    destruct (_ && _); [|destruct Hrow]. destruct Hrow as [<-|[]].
    change (FwdTrack.globalIndex t' = FwdTrack.globalIndex t) in E.
    rewrite <- E. apply in_map, Ht'.
Qed.

Lemma processRec_SA_NoDup collisions fwdtracks :
  NoDup (map Collision.globalIndex collisions) ->
  NoDup (map FwdTrack.globalIndex fwdtracks) ->
  NoDup (map EMPrimaryMuon.fwdtrackId
           (emprimarymuons (processRec_SA cfg ext collisions fwdtracks initState))).
Proof.
  intros Hc Ht. rewrite processRec_SA_emprimarymuons. cbn [emprimarymuons initState app].
  induction collisions as [|c l IH]; [constructor|].
  cbn [map] in Hc. apply NoDup_cons_iff in Hc. destruct Hc as [Hx Hc].
  cbn [flat_map]. rewrite map_app. apply NoDup_append.
  - apply rowsOfCollision_NoDup, Ht.
  - apply IH, Hc.
  - intros k Hk Hin.
    apply in_map_iff in Hk. destruct Hk as [row [<- Hrow]].
    apply rowsOfCollision_In in Hrow. destruct Hrow as [t [Hin_t [Et Er]]].
    apply in_map_iff in Hin. destruct Hin as [row' [E' Hrow']].
    apply in_flat_map in Hrow'. destruct Hrow' as [c' [Hc' Hrow']].
    apply rowsOfCollision_In in Hrow'. destruct Hrow' as [t' [Hin_t' [Et' Er']]].
    assert (T : t' = t).
    { apply (NoDup_map_injective FwdTrack.globalIndex fwdtracks); try assumption.
      congruence. }
    subst t'. apply Hx. rewrite <- Et, Et'. apply in_map, Hc'.
Qed.

Lemma associateAmbiguousMuon_all_empty (muons : list EMPrimaryMuon.t) :
  NoDup (map EMPrimaryMuon.fwdtrackId muons) ->
  Forall (fun ambmuon_self_Ids => ambmuon_self_Ids = []) (associateAmbiguousMuon muons).
Proof.
  intros H. apply Forall_forall. intros ids Hin.
  apply In_nth_error in Hin. destruct Hin as [i Hi].
  destruct (nth_error muons i) as [muon|] eqn:Hm.
  - rewrite (associateAmbiguousMuon_nth muons i muon Hm) in Hi. injection Hi as <-.
    apply flat_map_nil_when. intros [z other] Hin.
    apply filter_In in Hin. destruct Hin as [Hin Hp].
    apply In_indexed in Hin. destruct Hin as [j [-> Hj]].
    unfold ambiguousContribution. cbn [fst snd] in Hp |- *.
    destruct (Z.of_nat j =? Z.of_nat i) eqn:E; [reflexivity|].
    apply Z.eqb_neq in E. apply Z.eqb_eq in Hp. elim E. f_equal.
    apply (proj1 (NoDup_nth_error (map EMPrimaryMuon.fwdtrackId muons)) H).
    + apply nth_error_Some. rewrite nth_error_map, Hj. discriminate.
    + rewrite !nth_error_map, Hj, Hm. cbn [option_map]. f_equal. exact Hp.
  - unfold associateAmbiguousMuon in Hi.
    rewrite nth_error_map, nth_error_indexed, Hm in Hi. discriminate Hi.
Qed.

(** X16: when the collisions and the tracks have distinct indices,
    [processRec_SA], [processRec_SA_SWT] and [processMC_SA] write at most
    one candidate for each track, so [associateAmbiguousMuon] run on
    their table gives an empty vector to every candidate. *)
Theorem no_ambiguity_without_associator
    (collisions : list Collision.t) (fwdtracks : list FwdTrack.t) (final : TaskState) :
  NoDup (map Collision.globalIndex collisions) ->
  NoDup (map FwdTrack.globalIndex fwdtracks) ->
  In final [ processRec_SA cfg ext collisions fwdtracks initState;
             processRec_SA_SWT cfg ext collisions fwdtracks initState;
             processMC_SA cfg ext collisions fwdtracks initState ] ->
  NoDup (map EMPrimaryMuon.fwdtrackId (emprimarymuons final))
  /\ Forall (fun ambmuon_self_Ids => ambmuon_self_Ids = [])
            (associateAmbiguousMuon (emprimarymuons final)).
Proof.
  intros Hc Ht Hf.
  assert (N : NoDup (map EMPrimaryMuon.fwdtrackId (emprimarymuons final)));
    [|split; [exact N|apply associateAmbiguousMuon_all_empty, N]].
  cbn [In] in Hf. destruct Hf as [<-|[<-|[<-|[]]]].
  - apply processRec_SA_NoDup; assumption.
  - rewrite (proj1 (processRec_SA_SWT_filtered cfg ext collisions fwdtracks _ _
                      (sameOutput_refl initState))).
    apply processRec_SA_NoDup; [apply NoDup_map_filter|]; assumption.
  - rewrite (proj1 (processMC_SA_filtered cfg ext collisions fwdtracks _ _
                      (sameOutput_refl initState))).
    apply processRec_SA_NoDup; apply NoDup_map_filter; assumption.
Qed.
End StandaloneRows.

Ltac distinct_indices :=
  repeat (constructor;
          [ cbn; intros H; repeat (destruct H as [H|H]; [discriminate H|]); exact H | ]);
  constructor.

Lemma no_ambiguity_without_associator_witness :
  let final := processRec_SA defaultConfigurables (exampleExternals 1) [exampleCollision]
                 [exampleGlobal; exampleMCHMID; exampleBadMatch] initState in
  NoDup (map EMPrimaryMuon.fwdtrackId (emprimarymuons final))
  /\ Forall (fun ambmuon_self_Ids => ambmuon_self_Ids = [])
            (associateAmbiguousMuon (emprimarymuons final)).
Proof.
  apply (no_ambiguity_without_associator defaultConfigurables (exampleExternals 1)
           [exampleCollision] [exampleGlobal; exampleMCHMID; exampleBadMatch]).
  - distinct_indices.
  - distinct_indices.
  - left. reflexivity.
Defined.
